(** * RankNet: a shallow embedding of [ranking/RankNet.py]

    The file follows the source top-down: the two network classes
    ([RankNet], [RankNetInference]), then the training loop ([train]),
    the evaluation routine ([eval_model]) and the checkpoint loader
    ([load_from_ckpt]).

    Conventions.
    - A tensor handed to a network is a 2-D batch, a list of rows; a single
      feature vector is the batch with one row.  An empty batch is taken to
      have the width the layer expects.
    - Tensor entries range over a type [T] with the primitive operations of
      the tensor library ([Scalar]).  Everything that only depends on the
      order in which the source calls these primitives is proved for every
      [T].  Two instances follow: [Float32Scalar], the IEEE binary32
      arithmetic the tensors of the script hold, and [RealScalar], exact
      arithmetic over the real numbers, where [sigmoid x] is
      [1 / (1 + exp (- x))] and nothing is rounded.  A statement proved at
      [RealScalar] says so; where binary32 behaves otherwise the difference
      is stated and shown at [Float32Scalar].
    - A Python exception is an [Err] result. *)

From Stdlib Require Import String Ascii DecimalString DecimalZ.
From Stdlib Require Import Reals Lra ZArith Lia Bool List.
From Stdlib Require Import SpecFloat.
Import ListNotations.

Set Implicit Arguments.

(** ** Exceptions and results *)

Inductive exn : Type :=
| IndexError
| AttributeError
| KeyError
| TypeError
| RuntimeError
| EOFError
| FileNotFoundError
| ValueError (msg : string).

Inductive result (A : Type) : Type :=
| Ok (a : A)
| Err (e : exn).

Arguments Ok {A} a.
Arguments Err {A} e.

Definition bind {A B : Type} (m : result A) (k : A -> result B) : result B :=
  match m with
  | Ok a => k a
  | Err e => Err e
  end.

Declare Scope result_scope.
Delimit Scope result_scope with result.
Notation "x <- m ;; k" := (bind m (fun x => k))
  (at level 61, m at next level, right associativity) : result_scope.
Notation "' p <- m ;; k" := (bind m (fun x => match x with p => k end))
  (at level 61, p pattern, m at next level, right associativity) : result_scope.
Open Scope result_scope.

Fixpoint mapM {A B : Type} (f : A -> result B) (l : list A) : result (list B) :=
  match l with
  | [] => Ok []
  | a :: l' => b <- f a ;; bs <- mapM f l' ;; Ok (b :: bs)
  end.

(** A [for] loop over [l] that threads the loop variables [s]. *)
Fixpoint foldM {A S : Type} (f : S -> A -> result S) (l : list A) (s : S)
  : result S :=
  match l with
  | [] => Ok s
  | a :: l' => s' <- f s a ;; foldM f l' s'
  end.

(** [range(lo, hi)] over naturals. *)
Definition range (lo hi : nat) : list nat := seq lo (hi - lo).

(** ** Tensor primitives *)

Class Scalar (T : Type) : Type := {
  s_zero : T;
  s_one : T;
  s_add : T -> T -> T;
  s_sub : T -> T -> T;
  s_mul : T -> T -> T;
  s_div : T -> T -> T;
  s_of_nat : nat -> T;
  relu : T -> T;        (* F.relu, entrywise *)
  sigmoid : T -> T      (* torch.sigmoid, entrywise *)
}.

Section Network.

Variable T : Type.
Context {ops : Scalar T}.

Definition tensor : Type := list (list T).

(** Broadcasting of an entrywise binary operation along one dimension:
    equal sizes pair up, a size of one is stretched, anything else raises
    [e] ([RuntimeError] for tensors, [ValueError] for numpy arrays). *)
Definition broadcast {A B C : Type} (e : exn) (f : A -> B -> result C)
    (a : list A) (b : list B) : result (list C) :=
  if length a =? length b then mapM (fun p => f (fst p) (snd p)) (combine a b)
  else match a, b with
       | [x], _ => mapM (f x) b
       | _, [y] => mapM (fun x => f x y) a
       | _, _ => Err e
       end.

Definition tensor_sub (a b : tensor) : result tensor :=
  broadcast RuntimeError
    (broadcast RuntimeError (fun x y => Ok (s_sub x y))) a b.

Definition tensor_relu (a : tensor) : tensor := map (map relu) a.
Definition tensor_sigmoid (a : tensor) : tensor := map (map sigmoid) a.

(** *** [nn.Linear] *)

(** [weight] has [out_features] rows of [in_features] entries, [bias] has
    [out_features] entries. *)
Record Linear : Type := {
  in_features : nat;
  weight : list (list T);
  bias : list T
}.

Definition out_features (l : Linear) : nat := length (weight l).

Definition linear_wf (l : Linear) : Prop :=
  Forall (fun row => length row = in_features l) (weight l) /\
  length (bias l) = length (weight l).

Definition dot (w x : list T) : T :=
  fold_right (fun p acc => s_add (s_mul (fst p) (snd p)) acc) s_zero
             (combine w x).

(** One row through the layer: [x @ weight.T + bias]. *)
Definition linear_row (l : Linear) (x : list T) : result (list T) :=
  if length x =? in_features l
  then Ok (map (fun p => s_add (dot (fst p) x) (snd p))
               (combine (weight l) (bias l)))
  else Err RuntimeError.

Definition linear (l : Linear) (x : tensor) : result tensor :=
  mapM (linear_row l) x.

(** The random source [nn.Linear] initialises from: entry [(r, c)] of the
    weight and entry [r] of the bias of the [k]-th layer. *)
Record rng : Type := {
  w_init : nat -> nat -> nat -> T;
  b_init : nat -> nat -> T
}.

Definition tabulate {A : Type} (n : nat) (f : nat -> A) : list A :=
  map f (seq 0 n).

Definition nn_Linear (g : rng) (k i o : nat) : Linear :=
  {| in_features := i;
     weight := tabulate o (fun r => tabulate i (fun c => w_init g k r c));
     bias := tabulate o (fun r => b_init g k r) |}.

(** *** [class RankNet] *)

(** The attributes [fc1] .. [fcN] are kept in order in [fc]. *)
Record RankNet : Type := {
  fc_layers : nat;
  fc : list Linear;
  training : bool
}.

(** [getattr(self, 'fc' + str(i))] *)
Definition getattr_fc (net : RankNet) (i : nat) : result Linear :=
  match i with
  | O => Err AttributeError
  | S j => match nth_error (fc net) j with
           | Some l => Ok l
           | None => Err AttributeError
           end
  end.

(** [RankNet.__init__] *)
Definition RankNet_init (g : rng) (net_structures : list nat)
  : result RankNet :=
  let n := length net_structures in
  let hidden :=
    map (fun i => nn_Linear g (i + 1) (nth i net_structures 0)
                            (nth (i + 1) net_structures 0))
        (range 0 (n - 1)) in
  match rev net_structures with
  | [] => Err IndexError
  | w :: _ =>
      Ok {| fc_layers := n;
            fc := hidden ++ [nn_Linear g n w 1];
            training := true |}
  end.

(** [RankNet.forward] up to line 54: the two sides after the last layer. *)
Definition forward_sides (net : RankNet) (input1 input2 : tensor)
  : result (tensor * tensor) :=
  p <- foldM (fun (s : tensor * tensor) i =>
                fc <- getattr_fc net i ;;
                a <- linear fc (fst s) ;;
                b <- linear fc (snd s) ;;
                Ok (tensor_relu a, tensor_relu b))
             (range 1 (fc_layers net)) (input1, input2) ;;
  fc <- getattr_fc net (fc_layers net) ;;
  a <- linear fc (fst p) ;;
  b <- linear fc (snd p) ;;
  Ok (tensor_sigmoid a, tensor_sigmoid b).

(** [RankNet.forward] *)
Definition forward (net : RankNet) (input1 input2 : tensor) : result tensor :=
  p <- forward_sides net input1 input2 ;;
  d <- tensor_sub (fst p) (snd p) ;;
  Ok (tensor_sigmoid d).

(** [RankNetInference.forward] *)
Definition RankNetInference_forward (net : RankNet) (input1 : tensor)
  : result tensor :=
  x <- foldM (fun (s : tensor) i =>
                fc <- getattr_fc net i ;;
                a <- linear fc s ;;
                Ok (tensor_relu a))
             (range 1 (fc_layers net)) input1 ;;
  fc <- getattr_fc net (fc_layers net) ;;
  a <- linear fc x ;;
  Ok (tensor_sigmoid a).

(** [RankNetInference.__init__] only calls the parent constructor. *)
Definition RankNetInference_init (g : rng) (net_structures : list nat)
  : result RankNet :=
  RankNet_init g net_structures.

(** [state_dict()]: the parameters, in layer order. *)
Definition state_dict (net : RankNet) : list Linear := fc net.

Definition same_shape (a b : Linear) : bool :=
  (in_features a =? in_features b) &&
  (length (weight a) =? length (weight b)) &&
  (length (bias a) =? length (bias b)).

Fixpoint same_shapes (a b : list Linear) : bool :=
  match a, b with
  | [], [] => true
  | x :: a', y :: b' => same_shape x y && same_shapes a' b'
  | _, _ => false
  end.

(** [load_state_dict(sd)] (strict): the values of [sd] are copied over the
    module's parameters; missing, extra or mis-shaped entries raise. *)
Definition load_state_dict (net : RankNet) (sd : list Linear)
  : result RankNet :=
  if same_shapes (fc net) sd
  then Ok {| fc_layers := fc_layers net; fc := sd; training := training net |}
  else Err RuntimeError.

(** *** The score, as the specification words it

    Each non-final linear layer followed by ReLU, the final linear layer
    followed by sigmoid; written by recursion on the list of layers and not,
    as the two [forward] methods are, by attribute lookup in a counting
    loop. *)
Fixpoint score (layers : list Linear) (x : tensor) : result tensor :=
  match layers with
  | [] => Err AttributeError
  | l :: rest =>
      a <- linear l x ;;
      match rest with
      | [] => Ok (tensor_sigmoid a)
      | _ :: _ => score rest (tensor_relu a)
      end
  end.

(** A list of numbers as a tensor of shape (N, 1). *)
Definition column (l : list T) : tensor := map (fun c => [c]) l.

(** A network whose layers compose, from input width [w] down to width 1. *)
Fixpoint chain (w : nat) (layers : list Linear) : Prop :=
  match layers with
  | [] => False
  | l :: rest =>
      linear_wf l /\ in_features l = w /\
      match rest with
      | [] => out_features l = 1
      | _ :: _ => chain (out_features l) rest
      end
  end.

Definition network_of_width (w : nat) (net : RankNet) : Prop :=
  fc_layers net = length (fc net) /\ chain w (fc net).

Definition batch_of_width (w : nat) (x : tensor) : Prop :=
  Forall (fun row => length row = w) x.

(** The shape of a layer, [(in_features, out_features)], and the shapes the
    constructor gives the layers of a structure: each width into the next,
    the last width into 1. *)
Definition shape_of (l : Linear) : nat * nat := (in_features l, out_features l).

Definition layer_shapes (net_structures : list nat) : list (nat * nat) :=
  combine net_structures (tl net_structures ++ [1]).

End Network.

(** ** The training script *)

(** A Python float read off a tensor ([loss.item()], [np.mean]): a number
    or not-a-number. *)
Inductive pyfloat (T : Type) : Type :=
| NaN
| Fin (v : T).

Arguments NaN {T}.
Arguments Fin {T} v.

(** What the script takes from [torch], [utils] and [load_mslr]. *)
Class Environment (T : Type) {ops : Scalar T} : Type := {
  optimizer_state : Type;
  scheduler_state : Type;
  dataframe : Type;
  loader : Type;
  (* torch.optim.Adam(net.parameters(), lr=lr) *)
  Adam : RankNet T -> T -> optimizer_state;
  (* torch.optim.SGD(net.parameters(), lr=lr, momentum=0.9) *)
  SGD : RankNet T -> T -> optimizer_state;
  (* torch.optim.lr_scheduler.StepLR(optimizer, step_size=10, gamma=0.5) *)
  StepLR : optimizer_state -> scheduler_state * optimizer_state;
  (* scheduler.step(): moves the schedule and the optimizer's rate *)
  scheduler_step :
    scheduler_state -> optimizer_state -> scheduler_state * optimizer_state;
  (* torch.nn.BCELoss() applied to a prediction and a target *)
  BCELoss : tensor T -> list T -> result (pyfloat T);
  (* net.zero_grad(); loss.backward(); optimizer.step(): the new optimizer
     state and the new parameter values *)
  backward_step :
    optimizer_state -> RankNet T -> tensor T -> tensor T -> list T ->
    optimizer_state * list (Linear T);
  get_ckptdir : string -> list nat -> string;
  load_train_vali_data : string -> loader * dataframe * loader * dataframe;
  generate_query_pair_batch : loader -> dataframe -> Z -> list
    (option (tensor T) * option (list Z) * option (tensor T) * option (list Z))
}.

Arguments Environment T {ops}.

Section Training.

Variable T : Type.
Context {ops : Scalar T} {env : Environment T}.

(** [np.mean] of a Python list of floats. *)
Definition py_add (a b : pyfloat T) : pyfloat T :=
  match a, b with
  | Fin u, Fin v => Fin (s_add u v)
  | _, _ => NaN
  end.

Definition np_mean (l : list (pyfloat T)) : pyfloat T :=
  match l with
  | [] => NaN
  | _ :: _ =>
      match fold_left py_add l (Fin s_zero) with
      | Fin s => Fin (s_div s (s_of_nat (length l)))
      | NaN => NaN
      end
  end.

(** One item of the batch generator: [(x_i, y_i, x_j, y_j)], each an array
    or [None]. *)
Record Batch : Type := {
  x_i : option (tensor T);
  y_i : option (list Z);
  x_j : option (tensor T);
  y_j : option (list Z)
}.

Definition as_batch
    (b : option (tensor T) * option (list Z) * option (tensor T) * option (list Z))
  : Batch :=
  let '(xi, yi, xj, yj) := b in
  {| x_i := xi; y_i := yi; x_j := xj; y_j := yj |}.

(** *** Files *)

Record Checkpoint : Type := {
  ck_epoch : Z;
  model_state_dict : list (Linear T);
  optimizer_state_dict : optimizer_state;
  scheduler_state_dict : scheduler_state
}.

Inductive file : Type :=
| FCheckpoint (c : Checkpoint)      (* the dictionary [save_to_ckpt] writes *)
| FStateDict (sd : list (Linear T))     (* a bare [state_dict()] *)
| FOther (e : exn).   (* anything else; [torch.load] raises [e] on it *)

Definition filesystem : Type := list (string * file).

Fixpoint read_file (fs : filesystem) (path : string) : option file :=
  match fs with
  | [] => None
  | (p, f) :: fs' => if String.eqb p path then Some f else read_file fs' path
  end.

Definition isfile (fs : filesystem) (path : string) : bool :=
  match read_file fs path with
  | Some _ => true
  | None => false
  end.

Definition write_file (fs : filesystem) (path : string) (f : file)
  : filesystem :=
  (path, f) :: fs.

(** ['{}'.format(n)] for an integer. *)
Definition format_int (n : Z) : string := NilZero.string_of_int (Z.to_int n).

(** [ckpt_file + '_{}'.format(epoch)] *)
Definition ckpt_path (ckpt_file : string) (epoch : Z) : string :=
  (ckpt_file ++ "_" ++ format_int epoch)%string.

(** *** Console output and other effects, in program order *)

Inductive message : Type :=
| MText (timestamp : bool) (s : string)
| MStart (start_epoch additional_epoch : Z) (lr : T)
| MModule (m : RankNet T)
| MOptimizer (o : optimizer_state)
| MMinibatch (epoch : Z) (minibatch : nat) (loss : pyfloat T)
| MEpoch (epoch : Z) (loss : pyfloat T)
| MEvalMinibatch (minibatch : nat) (loss : pyfloat T)
| MEvalLoss (loss : pyfloat T).

Inductive event : Type :=
| EPrint (m : message)
| ESchedulerStep
| EOptimizerStep                      (* zero_grad, backward, optimizer.step *)
| ETorchSave (path : string) (f : file)
| ESync (sd : list (Linear T))            (* net_inference.load_state_dict(..) *)
| ENoGrad (enter : bool)              (* entering or leaving torch.no_grad() *)
| EEvalCrossEntropy (m : RankNet T)     (* eval_cross_entropy_loss(m, ..) *)
| EEvalNDCG (m : RankNet T) (batch_size : Z) (ks : list nat).

(** The variables of [train] that change while it runs, the files, and the
    effects so far. *)
Record state : Type := {
  net : RankNet T;
  net_inference : RankNet T;
  optimizer : optimizer_state;
  scheduler : scheduler_state;
  losses : list (pyfloat T);
  fs : filesystem;
  trace : list event
}.

Definition set_training (b : bool) (m : RankNet T) : RankNet T :=
  {| fc_layers := fc_layers m; fc := fc m; training := b |}.

Definition set_parameters (p : list (Linear T)) (m : RankNet T) : RankNet T :=
  {| fc_layers := fc_layers m; fc := p; training := training m |}.

(** [torch.save(obj, path)] *)
Definition torch_save (path : string) (f : file) (st : state) : state :=
  {| net := net st; net_inference := net_inference st;
     optimizer := optimizer st; scheduler := scheduler st;
     losses := losses st; fs := write_file (fs st) path f;
     trace := trace st ++ [ETorchSave path f] |}.

(** Modelled from the spec: [utils.save_to_ckpt], which [RankNet.py] imports
    and does not define.  It persists, under [<base>_<epoch>], a record of
    the epoch number and the model, optimizer and scheduler states. *)
Definition save_to_ckpt (ckpt_file : string) (epoch : Z) (st : state)
  : state :=
  torch_save (ckpt_path ckpt_file epoch)
    (FCheckpoint {| ck_epoch := epoch;
                    model_state_dict := state_dict (net st);
                    optimizer_state_dict := optimizer st;
                    scheduler_state_dict := scheduler st |})
    st.

(** [load_from_ckpt(ckpt_file, epoch, model)]: the module after the call and
    what was printed. *)
Definition load_from_ckpt (files : filesystem) (ckpt_file : string)
    (epoch : Z) (model : RankNet T) : result (RankNet T * list event) :=
  let ckpt_file := ckpt_path ckpt_file epoch in
  if isfile files ckpt_file then
    match read_file files ckpt_file with
    | Some (FCheckpoint ckpt_state_dict) =>
        model' <- load_state_dict model (model_state_dict ckpt_state_dict) ;;
        Ok (model',
            [EPrint (MText true ("load from ckpt " ++ ckpt_file));
             EPrint (MText true ("finish load from ckpt " ++ ckpt_file))])
    | Some (FStateDict _) => Err KeyError
    | Some (FOther e) => Err e
    | None => Err FileNotFoundError       (* not reached: [isfile] held *)
    end
  else
    Ok (model, [EPrint (MText false ("ckpt file does not exist " ++ ckpt_file))]).

(** *** The loop over batches *)

(** [x_i is None or x_i.shape[0] == 0] *)
Definition skip_batch (b : Batch) : bool :=
  match x_i b with
  | None => true
  | Some x => length x =? 0
  end.

(** [torch.Tensor(a)] and array operands: [None] is a type error. *)
Definition array {A : Type} (a : option A) : result A :=
  match a with
  | Some v => Ok v
  | None => Err TypeError
  end.

(** numpy's complaint about two one-dimensional arrays of sizes [n] and
    [m] that do not broadcast. *)
Definition broadcast_message (n m : nat) : string :=
  ("operands could not be broadcast together with shapes ("
   ++ format_int (Z.of_nat n) ++ ",) (" ++ format_int (Z.of_nat m) ++ ",) ")%string.

(** [(y_i > y_j).astype(np.float32)] *)
Definition binary_label (yi yj : list Z) : result (list T) :=
  broadcast (ValueError (broadcast_message (length yi) (length yj)))
            (fun a b => Ok (if (a >? b)%Z then s_one else s_zero)) yi yj.

(** The loop variables of an epoch. *)
Record epoch_vars : Type := {
  ev_state : state;
  lossed_minibatch : list (pyfloat T);
  minibatch : nat
}.

(** Lines 126-144: the body of the loop over training batches. *)
Definition train_batch (i : Z) (v : epoch_vars) (b : Batch)
  : result epoch_vars :=
  if skip_batch b then Ok v
  else
    let st := ev_state v in
    xi <- array (x_i b) ;;
    xj <- array (x_j b) ;;
    yi <- array (y_i b) ;;
    yj <- array (y_j b) ;;
    y <- binary_label yi yj ;;
    y_pred <- forward (net st) xi xj ;;
    loss <- BCELoss y_pred y ;;
    let (o', p') := backward_step (optimizer st) (net st) xi xj y in
    let n := minibatch v + 1 in
    Ok {| ev_state :=
            {| net := set_parameters p' (net st);
               net_inference := net_inference st;
               optimizer := o'; scheduler := scheduler st;
               losses := losses st; fs := fs st;
               trace := trace st ++ EOptimizerStep ::
                          (if n mod 100 =? 0
                           then [EPrint (MMinibatch i n loss)] else []) |};
          lossed_minibatch := lossed_minibatch v ++ [loss];
          minibatch := n |}.

(** Lines 119-148: one epoch over the batches [bs] the generator yields. *)
Definition run_epoch (i : Z) (bs : list Batch) (st : state) : result state :=
  let (s', o') := scheduler_step (scheduler st) (optimizer st) in
  let st1 :=
    {| net := set_training true (net st);
       net_inference := net_inference st;
       optimizer := o'; scheduler := s';
       losses := losses st; fs := fs st;
       trace := trace st ++ [ESchedulerStep] |} in
  v <- foldM (train_batch i) bs
         {| ev_state := st1; lossed_minibatch := []; minibatch := 0 |} ;;
  let st2 := ev_state v in
  let m := np_mean (lossed_minibatch v) in
  Ok {| net := net st2; net_inference := net_inference st2;
        optimizer := optimizer st2; scheduler := scheduler st2;
        losses := losses st2 ++ [m]; fs := fs st2;
        trace := trace st2 ++ [EPrint (MEpoch i m)] |}.

(** *** [eval_model] *)

Record eval_vars : Type := {
  e_lossed_minibatch : list (pyfloat T);
  e_minibatch : nat;
  e_out : list event
}.

(** Lines 181-194: the body of the loop over validation batches. *)
Definition eval_batch (loss_func : tensor T -> list T -> result (pyfloat T))
    (model : RankNet T) (v : eval_vars) (b : Batch) : result eval_vars :=
  if skip_batch b then Ok v
  else
    xi <- array (x_i b) ;;
    xj <- array (x_j b) ;;
    yi <- array (y_i b) ;;
    yj <- array (y_j b) ;;
    y <- binary_label yi yj ;;
    y_pred <- forward model xi xj ;;
    loss <- loss_func y_pred y ;;
    let n := e_minibatch v + 1 in
    Ok {| e_lossed_minibatch := e_lossed_minibatch v ++ [loss];
          e_minibatch := n;
          e_out := e_out v ++
                     (if n mod 100 =? 0
                      then [EPrint (MEvalMinibatch n loss)] else []) |}.

(** [eval_model(model, inference_model, loss_func, device, df_valid,
    valid_loader)]: both modules as the call leaves them, and its effects.
    The two metric routines of [utils] are recorded as calls with the module
    they are given; they are taken to return and to leave it as it is. *)
Definition eval_model (model inference_model : RankNet T)
    (loss_func : tensor T -> list T -> result (pyfloat T))
    (df_valid : dataframe) (valid_loader : loader)
  : result (RankNet T * RankNet T * list event) :=
  let model := set_training false model in
  let batch_size := 1000000%Z in
  v <- foldM (eval_batch loss_func model)
         (map as_batch (generate_query_pair_batch valid_loader df_valid batch_size))
         {| e_lossed_minibatch := []; e_minibatch := 0; e_out := [] |} ;;
  Ok (model, inference_model,
      [ENoGrad true;
       EPrint (MText true "Eval phase, with batch size of 1000000")] ++
      e_out v ++
      [EPrint (MEvalLoss (np_mean (e_lossed_minibatch v)));
       EEvalCrossEntropy inference_model;
       EEvalNDCG inference_model batch_size [10; 30];
       ENoGrad false]).

(** *** [train] *)

(** Lines 150-154: checkpoint, sync and evaluation after epoch [i]. *)
Definition checkpoint_and_eval (ckptfile : string) (start_epoch i : Z)
    (df_valid : dataframe) (valid_loader : loader) (st : state)
  : result state :=
  if (i mod 5 =? 0)%Z && negb (i =? start_epoch)%Z then
    let st1 := save_to_ckpt ckptfile i st in
    inf' <- load_state_dict (net_inference st1) (state_dict (net st1)) ;;
    r <- eval_model (net st1) inf' BCELoss df_valid valid_loader ;;
    let '(model', inference', out) := r in
    Ok {| net := model'; net_inference := inference';
          optimizer := optimizer st1; scheduler := scheduler st1;
          losses := losses st1; fs := fs st1;
          trace := trace st1 ++ ESync (state_dict (net st1)) :: out |}
  else Ok st.

(** [range(lo, hi)] over integers. *)
Definition zrange (lo hi : Z) : list Z :=
  map (fun k => (lo + Z.of_nat k)%Z) (seq 0 (Z.to_nat (hi - lo))).

Definition ranknet_structure : list nat := [136; 64; 16].

(** Lines 78-115 of [train]: the modules, the optimizer and the scheduler,
    the optional resume, and the state the loop over epochs starts from.
    [g] and [g_inference] are the random sources of the two constructors,
    [files] the files present when the script starts. *)
Definition train_setup (start_epoch additional_epoch : Z) (lr : T)
    (optim : string) (g g_inference : rng T) (files : filesystem)
  : result state :=
  net0 <- RankNet_init g ranknet_structure ;;
  inf0 <- RankNetInference_init g_inference ranknet_structure ;;
  let inf0 := set_training false inf0 in
  let ckptfile := get_ckptdir "ranknet" ranknet_structure in
  opt0 <- (if String.eqb optim "adam" then Ok (Adam net0 lr)
           else if String.eqb optim "sgd" then Ok (SGD net0 lr)
           else Err (ValueError
                  ("Optimization method " ++ optim ++ " not implemented"))) ;;
  let (sched0, opt1) := StepLR opt0 in
  r <- (if negb (start_epoch =? 0)%Z
        then load_from_ckpt files ckptfile start_epoch net0
        else Ok (net0, [])) ;;
  let (net1, out) := r in
  Ok {| net := net1; net_inference := inf0;
        optimizer := opt1; scheduler := sched0;
        losses := []; fs := files;
        trace := [EPrint (MStart start_epoch additional_epoch lr);
                  EPrint (MModule net0); EPrint (MModule inf0);
                  EPrint (MOptimizer opt0)] ++ out |}.

(** Lines 117-154: the body of the loop over epochs. *)
Definition train_epoch (start_epoch : Z) (st : state) (i : Z) : result state :=
  let ckptfile := get_ckptdir "ranknet" ranknet_structure in
  let '(data_loader, df, valid_loader, df_valid) :=
    load_train_vali_data "Fold1" in
  let batch_size := 100000%Z in
  st' <- run_epoch i
           (map as_batch (generate_query_pair_batch data_loader df batch_size))
           st ;;
  checkpoint_and_eval ckptfile start_epoch i df_valid valid_loader st'.

(** Lines 156-160: the last checkpoint and the final model. *)
Definition train_finish (start_epoch additional_epoch : Z) (st : state)
  : state :=
  let ckptfile := get_ckptdir "ranknet" ranknet_structure in
  let st := save_to_ckpt ckptfile (start_epoch + additional_epoch) st in
  torch_save ckptfile (FStateDict (state_dict (net st))) st.

(** [train(start_epoch, additional_epoch, lr, optim)] *)
Definition train (start_epoch additional_epoch : Z) (lr : T) (optim : string)
    (g g_inference : rng T) (files : filesystem) : result state :=
  st0 <- train_setup start_epoch additional_epoch lr optim
                     g g_inference files ;;
  st <- foldM (train_epoch start_epoch)
              (zrange start_epoch (start_epoch + additional_epoch)) st0 ;;
  Ok (train_finish start_epoch additional_epoch st).

(** *** Reading aids for the statements below *)

(** A batch with an empty side: [x_i] or [x_j] absent or without rows. *)
Definition side_empty (x : option (tensor T)) : bool :=
  match x with
  | None => true
  | Some rows => length rows =? 0
  end.

Definition either_side_empty (b : Batch) : bool :=
  side_empty (x_i b) || side_empty (x_j b).

(** Modelled from the spec (sections 3 and 6): what the batch generator,
    which [RankNet.py] imports and does not define, yields.  A batch is a
    batch of pairs: row [k] of [x_i] and row [k] of [x_j] are the two items
    of pair [k], so the two sides have equally many rows (none at all in
    the empty batch that signals a skip), or both are absent. *)
Definition pair_batch (b : Batch) : Prop :=
  match x_i b, x_j b with
  | Some xi, Some xj => length xi = length xj
  | None, None => True
  | _, _ => False
  end.

(** Lines 183-188 (and 128-135): the loss of one batch under [model]. *)
Definition pairwise_loss (loss_func : tensor T -> list T -> result (pyfloat T))
    (model : RankNet T) (b : Batch) : result (pyfloat T) :=
  xi <- array (x_i b) ;;
  xj <- array (x_j b) ;;
  yi <- array (y_i b) ;;
  yj <- array (y_j b) ;;
  y <- binary_label yi yj ;;
  y_pred <- forward model xi xj ;;
  loss_func y_pred y.

(** The same loss had the scores of both sides been taken from
    [inference_model]. *)
Definition inference_pairwise_loss
    (loss_func : tensor T -> list T -> result (pyfloat T))
    (inference_model : RankNet T) (b : Batch) : result (pyfloat T) :=
  xi <- array (x_i b) ;;
  xj <- array (x_j b) ;;
  yi <- array (y_i b) ;;
  yj <- array (y_j b) ;;
  y <- binary_label yi yj ;;
  s1 <- RankNetInference_forward inference_model xi ;;
  s2 <- RankNetInference_forward inference_model xj ;;
  d <- tensor_sub s1 s2 ;;
  loss_func (tensor_sigmoid d) y.

(** The batches of a generator's output that the loops do not skip. *)
Definition processed (bs : list Batch) : list Batch :=
  filter (fun b => negb (skip_batch b)) bs.

(** The checkpoint base path [train] works with. *)
Definition ckptdir : string := get_ckptdir "ranknet" ranknet_structure.

(** The optimizer lines 94-99 construct for a supported name. *)
Definition fresh_optimizer (optim : string) (net0 : RankNet T) (lr : T)
  : optimizer_state :=
  if String.eqb optim "adam" then Adam net0 lr else SGD net0 lr.

(** The effects of a stretch of the trace with their contents dropped:
    console output is left out, a file write keeps its path and, for a
    checkpoint, the epoch number stored in it. *)
Inductive kind : Type :=
| KSchedulerStep
| KOptimizerStep
| KSave (path : string) (epoch : option Z)
| KSync
| KNoGrad (enter : bool)
| KEvalCrossEntropy
| KEvalNDCG.

Definition kind_of (e : event) : list kind :=
  match e with
  | EPrint _ => []
  | ESchedulerStep => [KSchedulerStep]
  | EOptimizerStep => [KOptimizerStep]
  | ETorchSave path (FCheckpoint c) => [KSave path (Some (ck_epoch c))]
  | ETorchSave path _ => [KSave path None]
  | ESync _ => [KSync]
  | ENoGrad b => [KNoGrad b]
  | EEvalCrossEntropy _ => [KEvalCrossEntropy]
  | EEvalNDCG _ _ _ => [KEvalNDCG]
  end.

Definition kinds (log : list event) : list kind := flat_map kind_of log.

Definition is_scheduler_step (k : kind) : bool :=
  match k with KSchedulerStep => true | _ => false end.

Definition is_optimizer_step (k : kind) : bool :=
  match k with KOptimizerStep => true | _ => false end.

(** The files a stretch of the trace writes, oldest first. *)
Definition saved_of (e : event) : list (string * file) :=
  match e with
  | ETorchSave path f => [(path, f)]
  | _ => []
  end.

Definition saved (log : list event) : list (string * file) :=
  flat_map saved_of log.

(** A written file that is the checkpoint of epoch [i]. *)
Definition checkpoint_written (path_of : Z -> string)
    (i : Z) (pf : string * file) : Prop :=
  fst pf = path_of i /\ exists c, snd pf = FCheckpoint c /\ ck_epoch c = i.

(** The batches the training generator yields. *)
Definition train_batches : list Batch :=
  let '(data_loader, df, _, _) := load_train_vali_data "Fold1" in
  map as_batch (generate_query_pair_batch data_loader df 100000%Z).

(** The layer counts of the two modules of [train]: both count as many
    layers as [ranknet_structure] has widths, and the Inference Model holds
    that many. *)
Definition layer_counts (st : state) : Prop :=
  fc_layers (net st) = length ranknet_structure /\
  fc_layers (net_inference st) = length ranknet_structure /\
  length (fc (net_inference st)) = length ranknet_structure.

(** The validation loader and data [train] hands to [eval_model]. *)
Definition valid_data : loader * dataframe :=
  let '(_, _, valid_loader, df_valid) := load_train_vali_data "Fold1" in
  (valid_loader, df_valid).

(** [i % 5 == 0 and i != start_epoch] *)
Definition checkpoint_due (start_epoch i : Z) : bool :=
  (i mod 5 =? 0)%Z && negb (i =? start_epoch)%Z.

(** What one epoch of [train] does, in kinds: a scheduler step, one
    optimizer step per batch that is not skipped, and, when a checkpoint is
    due, the save, the sync and the evaluation. *)
Definition epoch_kinds (start_epoch i : Z) : list kind :=
  KSchedulerStep :: repeat KOptimizerStep (length (processed train_batches))
  ++ (if checkpoint_due start_epoch i
      then [KSave (ckpt_path ckptdir i) (Some i); KSync;
            KNoGrad true; KEvalCrossEntropy; KEvalNDCG; KNoGrad false]
      else []).

(** The progress lines a stretch of the trace prints, oldest first: those
    of the training loop (line 144) as epoch and minibatch number, those of
    the evaluation loop (line 194) as minibatch number. *)
Definition minibatch_line_of (e : event) : list (Z * nat) :=
  match e with
  | EPrint (MMinibatch i n _) => [(i, n)]
  | _ => []
  end.

Definition minibatch_lines (log : list event) : list (Z * nat) :=
  flat_map minibatch_line_of log.

Definition eval_line_of (e : event) : list nat :=
  match e with
  | EPrint (MEvalMinibatch n _) => [n]
  | _ => []
  end.

Definition eval_lines (log : list event) : list nat :=
  flat_map eval_line_of log.

(** The multiples of 100 among the [n] numbers from [from] on. *)
Definition hundreds (from n : nat) : list nat :=
  filter (fun k => k mod 100 =? 0) (seq from n).

End Training.

Arguments state {T ops env}.
Arguments epoch_vars {T ops env}.
Arguments eval_vars {T ops env}.
Arguments event {T ops env}.
Arguments message {T ops env}.
Arguments file {T ops env}.
Arguments Checkpoint {T ops env}.
Arguments filesystem {T ops env}.
Arguments ESchedulerStep {T ops env}.
Arguments EOptimizerStep {T ops env}.
Arguments FOther {T ops env} e.
Arguments ckptdir {T ops env}.
Arguments kind : clear implicits.
Arguments train_batches {T ops env}.
Arguments valid_data {T ops env}.
Arguments layer_counts {T ops env} st.

(** ** An environment to run the script in

    Binary cross-entropy with mean reduction; an optimizer that counts its
    steps and, as at learning rate 0, leaves the parameters where they are;
    a scheduler that counts its steps; data handed over as the list of
    batches the generator yields. *)

Section Script.

Variable T : Type.
Context {ops : Scalar T}.

(** [clog x] stands for [max (log x) (-100)], the clamped logarithm of
    [BCELoss]. *)
Variable clog : T -> T.

Definition bce_entry (p y : T) : T :=
  s_sub s_zero
        (s_add (s_mul y (clog p))
               (s_mul (s_sub s_one y) (clog (s_sub s_one p)))).

Definition bce_loss (pred : tensor T) (y : list T) : result (pyfloat T) :=
  let p := concat pred in
  if length p =? length y then
    match p with
    | [] => Ok NaN
    | _ :: _ =>
        Ok (Fin (s_div (fold_right s_add s_zero
                          (map (fun q => bce_entry (fst q) (snd q))
                               (combine p y)))
                       (s_of_nat (length p))))
    end
  else Err (ValueError "target size is different to the input size").

Definition raw_batch : Type :=
  option (tensor T) * option (list Z) * option (tensor T) * option (list Z).

Definition script_env (train_data valid_data : list raw_batch)
  : Environment T :=
  {| optimizer_state := nat;
     scheduler_state := nat;
     dataframe := list raw_batch;
     loader := unit;
     Adam := fun _ _ => 0;
     SGD := fun _ _ => 0;
     StepLR := fun o => (0, o);
     scheduler_step := fun s o => (S s, o);
     BCELoss := bce_loss;
     backward_step := fun o m _ _ _ => (S o, fc m);
     get_ckptdir := fun _ _ => "ckptdir/ranknet-136-64-16"%string;
     load_train_vali_data := fun _ => (tt, train_data, tt, valid_data);
     generate_query_pair_batch := fun _ df _ => df |}.

(** A random source that draws the same value everywhere. *)
Definition constant_rng (c : T) : rng T :=
  {| w_init := fun _ _ _ => c; b_init := fun _ _ => c |}.

(** *** A probe: one pair through two one-layer networks *)

Definition one_layer (w : T) : RankNet T :=
  {| fc_layers := 1;
     fc := [{| in_features := 1; weight := [[w]]; bias := [s_zero] |}];
     training := true |}.

(** The pair of items with features 1 and 0 and relevance 1 and 0. *)
Definition probe_pair : raw_batch :=
  (Some [[s_one]], Some [1%Z], Some [[s_zero]], Some [0%Z]).

(** The score [one_layer w] gives the feature [x], the probability it gives
    the probe pair and the loss of that probability against the label 1. *)
Definition probe_score (w x : T) : T :=
  sigmoid (s_add (s_add (s_mul w x) s_zero) s_zero).

Definition probe_pred (w : T) : T :=
  sigmoid (s_sub (probe_score w s_one) (probe_score w s_zero)).

Definition probe_loss (w : T) : T :=
  s_div (s_add (bce_entry (probe_pred w) s_one) s_zero) (s_of_nat 1).

(** [np.mean] of the one-element list [[l]]. *)
Definition mean_of_one (l : T) : T :=
  s_div (s_add s_zero l) (s_of_nat 1).

End Script.

(** ** The instance over the real numbers *)

#[export] Instance RealScalar : Scalar R := {|
  s_zero := 0%R;
  s_one := 1%R;
  s_add := Rplus;
  s_sub := Rminus;
  s_mul := Rmult;
  s_div := Rdiv;
  s_of_nat := INR;
  relu := fun x => Rmax 0 x;
  sigmoid := fun x => (1 / (1 + exp (- x)))%R
|}.

Definition real_clog (x : R) : R := Rmax (ln x) (-100).

Definition real_env (train_data valid_data : list (raw_batch R))
  : Environment R :=
  script_env real_clog train_data valid_data.

Definition zero_rng : rng R := constant_rng 0%R.

(** A network of structure [2; 2]: a hidden layer of width 2 and the final
    layer of width 1. *)
Definition two_layer_net : RankNet R :=
  {| fc_layers := 2;
     fc := [{| in_features := 2;
               weight := [[1; 0]; [0; 1]]%R; bias := [0; 0]%R |};
            {| in_features := 2;
               weight := [[1; -1]]%R; bias := [0]%R |}];
     training := true |}.

(** A second network of the same structure, with all parameters 0. *)
Definition two_layer_zero : RankNet R :=
  {| fc_layers := 2;
     fc := [{| in_features := 2;
               weight := [[0; 0]; [0; 0]]%R; bias := [0; 0]%R |};
            {| in_features := 2;
               weight := [[0; 0]]%R; bias := [0]%R |}];
     training := false |}.

(** A batch whose first side has no rows, and one whose second side has
    none while the first has one row of the width [train] works with. *)
Definition batch_empty_left : raw_batch R :=
  (Some [], Some [], Some [], Some []).

Definition batch_empty_right : raw_batch R :=
  (Some [repeat 0%R 136], Some [1%Z], Some [], Some []).

(** The environment of the runs below: the training generator yields the
    one batch without rows, the validation generator yields nothing. *)
Definition quiet_env : Environment R := real_env [batch_empty_left] [].

(** The network [train] constructs from [zero_rng]. *)
Definition fresh_net : RankNet R :=
  match RankNet_init zero_rng ranknet_structure with
  | Ok m => m
  | Err _ => one_layer 0%R
  end.

(** A checkpoint of epoch 5 as an earlier run would have left it: all model
    parameters 1, an optimizer that has taken 7 steps, a scheduler that has
    taken 5. *)
Definition resume_checkpoint : Checkpoint (env := quiet_env) :=
  @Build_Checkpoint R RealScalar (quiet_env)
    5
    match RankNet_init (constant_rng 1%R) ranknet_structure with
    | Ok m => state_dict m
    | Err _ => []
    end
    7%nat
    5%nat.

Definition resume_files : filesystem (env := quiet_env) :=
  [(ckpt_path "ckptdir/ranknet-136-64-16" 5, FCheckpoint resume_checkpoint)].

(** A state of the loop with the two small networks. *)
Definition small_state : state (env := quiet_env) :=
  @Build_state R RealScalar (quiet_env)
    two_layer_net two_layer_zero 0%nat 0%nat [] [] [].

(** ** The instance over IEEE binary32

    The tensors of the script are [torch.float32].  Sums, differences,
    products and quotients are those of IEEE 754 binary32 with rounding to
    nearest, ties to even ([SpecFloat] at precision 24 and exponent bound
    128); not-a-number carries no payload.  [torch.sigmoid] is computed as
    ATen's kernel writes it, [1 / (1 + exp(-x))], every step rounded.  The
    exponential is rounded to nearest from a 200-bit series; the library's
    own [exp] may differ from it in the last place.  The sums of products
    of [nn.Linear] are taken in index order. *)


















(** * Properties *)

Unset Implicit Arguments.

(** ** Results and loops *)

Lemma bind_Ok {A B : Type} (m : result A) (k : A -> result B) (b : B) :
  bind m k = Ok b <-> exists a, m = Ok a /\ k a = Ok b.
Proof.
  destruct m as [a|e]; simpl; split.
  - intros Hk. exists a. split; [reflexivity | exact Hk].
  - intros [a' [Ha Hk]]. injection Ha as ->. exact Hk.
  - discriminate.
  - intros [a [Ha _]]. discriminate.
Qed.

Lemma mapM_length {A B : Type} (f : A -> result B) (l : list A) (r : list B) :
  mapM f l = Ok r -> length r = length l.
Proof.
  revert r. induction l as [|a l IH]; simpl; intros r Hr.
  - injection Hr as <-. reflexivity.
  - apply bind_Ok in Hr. destruct Hr as [b [_ Hr]].
    apply bind_Ok in Hr. destruct Hr as [bs [Hbs Hr]].
    injection Hr as <-. simpl. f_equal. apply IH. exact Hbs.
Qed.

Lemma mapM_pure {A B : Type} (f : A -> B) (l : list A) :
  mapM (fun a => Ok (f a)) l = Ok (map f l).
Proof.
  induction l as [|a l IH]; simpl; [reflexivity|].
  rewrite IH. reflexivity.
Qed.

Lemma mapM_Forall {A B : Type} (f : A -> result B) (P : A -> Prop)
    (Q : B -> Prop) (l : list A) :
  (forall a, P a -> exists b, f a = Ok b /\ Q b) ->
  Forall P l ->
  exists r, mapM f l = Ok r /\ Forall Q r.
Proof.
  intros Hf Hl. induction Hl as [|a l Ha _ IH]; simpl.
  - exists []. split; [reflexivity | constructor].
  - destruct (Hf a Ha) as [b [Hb HQ]]. destruct IH as [r [Hr HQs]].
    exists (b :: r). rewrite Hb, Hr. simpl. split; [reflexivity|].
    constructor; assumption.
Qed.

Lemma foldM_app {A S : Type} (f : S -> A -> result S) (l1 l2 : list A) (s : S) :
  foldM f (l1 ++ l2) s = (s' <- foldM f l1 s ;; foldM f l2 s').
Proof.
  revert s. induction l1 as [|a l1 IH]; simpl; intros s; [reflexivity|].
  destruct (f s a) as [s'|e]; simpl; [apply IH | reflexivity].
Qed.

(** ** The two forward passes *)

Section NetworkFacts.

Variable T : Type.
Context {ops : Scalar T}.

Lemma getattr_fc_app (net : RankNet T) (done todo : list (Linear T)) (l : Linear T) :
  fc net = done ++ l :: todo ->
  getattr_fc net (S (length done)) = Ok l.
Proof.
  intros Hfc. unfold getattr_fc. rewrite Hfc.
  rewrite nth_error_app2 by lia. rewrite Nat.sub_diag. reflexivity.
Qed.

(** The counting loop of [RankNetInference.forward], started at layer
    [length done + 1], does what [score] does on the remaining layers. *)
Lemma inference_loop_score (net : RankNet T) :
  forall (rest : list (Linear T)) (l : Linear T) (done : list (Linear T))
         (x : tensor T),
    fc net = done ++ l :: rest ->
    fc_layers net = length (fc net) ->
    (x' <- foldM (fun (s : tensor T) i =>
                    fc <- getattr_fc net i ;;
                    a <- linear fc s ;;
                    Ok (tensor_relu a))
                 (seq (S (length done)) (length rest)) x ;;
     fc <- getattr_fc net (fc_layers net) ;;
     a <- linear fc x' ;;
     Ok (tensor_sigmoid a))
    = score (l :: rest) x.
Proof.
  induction rest as [|l' rest' IH]; intros l done x Hfc Hn.
  - simpl. rewrite Hn, Hfc, length_app. simpl.
    replace (length done + 1) with (S (length done)) by lia.
    rewrite (getattr_fc_app net done [] l Hfc). reflexivity.
  - cbn [length seq foldM score].
    rewrite (getattr_fc_app net done (l' :: rest') l Hfc). cbn [bind].
    destruct (linear l x) as [a|e]; cbn [bind]; [|reflexivity].
    specialize (IH l' (done ++ [l]) (tensor_relu a)).
    rewrite length_app in IH. simpl in IH.
    replace (length done + 1) with (S (length done)) in IH by lia.
    apply IH; [|exact Hn].
    rewrite Hfc, <- app_assoc. reflexivity.
Qed.

Lemma inference_forward_score (net : RankNet T) (x : tensor T) :
  fc_layers net = length (fc net) ->
  RankNetInference_forward net x = score (fc net) x.
Proof.
  intros Hn. unfold RankNetInference_forward, range.
  destruct (fc net) as [|l rest] eqn:Hfc.
  - rewrite Hn. simpl. reflexivity.
  - replace (fc_layers net - 1) with (length rest) by (rewrite Hn; simpl; lia).
    apply (inference_loop_score net rest l [] x Hfc).
    rewrite Hfc. exact Hn.
Qed.

(** The same for the loop of [RankNet.forward], which carries both sides. *)
Lemma sides_loop_score (net : RankNet T) :
  forall (rest : list (Linear T)) (l : Linear T) (done : list (Linear T))
         (x1 x2 a b : tensor T),
    fc net = done ++ l :: rest ->
    fc_layers net = length (fc net) ->
    (p <- foldM (fun (s : tensor T * tensor T) i =>
                   fc <- getattr_fc net i ;;
                   a <- linear fc (fst s) ;;
                   b <- linear fc (snd s) ;;
                   Ok (tensor_relu a, tensor_relu b))
                (seq (S (length done)) (length rest)) (x1, x2) ;;
     fc <- getattr_fc net (fc_layers net) ;;
     a <- linear fc (fst p) ;;
     b <- linear fc (snd p) ;;
     Ok (tensor_sigmoid a, tensor_sigmoid b)) = Ok (a, b)
    <-> score (l :: rest) x1 = Ok a /\ score (l :: rest) x2 = Ok b.
Proof.
  induction rest as [|l' rest' IH]; intros l done x1 x2 a b Hfc Hn.
  - simpl. rewrite Hn, Hfc, length_app. simpl.
    replace (length done + 1) with (S (length done)) by lia.
    rewrite (getattr_fc_app net done [] l Hfc). cbn [bind].
    destruct (linear l x1) as [a1|e1]; cbn [bind];
      [|split; [discriminate | intros [H _]; discriminate]].
    destruct (linear l x2) as [b1|e2]; cbn [bind];
      [|split; [discriminate | intros [_ H]; discriminate]].
    split.
    + intros H. injection H as <- <-. split; reflexivity.
    + intros [H1 H2]. injection H1 as <-. injection H2 as <-. reflexivity.
  - cbn [length seq foldM score].
    rewrite (getattr_fc_app net done (l' :: rest') l Hfc). cbn [bind fst snd].
    destruct (linear l x1) as [a1|e1]; cbn [bind];
      [|split; [discriminate | intros [H _]; discriminate]].
    destruct (linear l x2) as [b1|e2]; cbn [bind];
      [|split; [discriminate | intros [_ H]; discriminate]].
    specialize (IH l' (done ++ [l]) (tensor_relu a1) (tensor_relu b1) a b).
    rewrite length_app in IH. simpl in IH.
    replace (length done + 1) with (S (length done)) in IH by lia.
    apply IH; [|exact Hn].
    rewrite Hfc, <- app_assoc. reflexivity.
Qed.

Lemma forward_sides_score (net : RankNet T) (x1 x2 a b : tensor T) :
  fc_layers net = length (fc net) ->
  forward_sides net x1 x2 = Ok (a, b)
  <-> score (fc net) x1 = Ok a /\ score (fc net) x2 = Ok b.
Proof.
  intros Hn. unfold forward_sides, range.
  destruct (fc net) as [|l rest] eqn:Hfc.
  - rewrite Hn. simpl. split; [discriminate | intros [H _]; discriminate].
  - replace (fc_layers net - 1) with (length rest) by (rewrite Hn; simpl; lia).
    apply (sides_loop_score net rest l [] x1 x2 a b Hfc).
    rewrite Hfc. exact Hn.
Qed.

(** *** Shapes: a well-formed network accepts every batch of its width *)

Lemma linear_row_ok (l : Linear T) (x : list T) :
  linear_wf l -> length x = in_features l ->
  exists y, linear_row l x = Ok y /\ length y = out_features l.
Proof.
  intros [_ Hb] Hx. unfold linear_row. rewrite Hx, Nat.eqb_refl.
  eexists. split; [reflexivity|].
  rewrite length_map, length_combine, Hb. unfold out_features. lia.
Qed.

Lemma linear_ok (l : Linear T) (x : tensor T) :
  linear_wf l -> batch_of_width (in_features l) x ->
  exists a, linear l x = Ok a /\ batch_of_width (out_features l) a /\
            length a = length x.
Proof.
  intros Hl Hx. unfold linear, batch_of_width in *.
  destruct (mapM_Forall (linear_row l)
              (fun row => length row = in_features l)
              (fun row => length row = out_features l) x) as [a [Ha Hw]].
  - intros row Hrow. apply linear_row_ok; assumption.
  - exact Hx.
  - exists a. repeat split; try assumption.
    apply mapM_length with (f := linear_row l). exact Ha.
Qed.

Lemma batch_of_width_map (f : T -> T) (w : nat) (x : tensor T) :
  batch_of_width w x -> batch_of_width w (map (map f) x).
Proof.
  unfold batch_of_width. intros H. apply Forall_map.
  eapply Forall_impl; [|exact H]. intros row Hrow. simpl.
  rewrite length_map. exact Hrow.
Qed.

Lemma score_ok :
  forall (layers : list (Linear T)) (w : nat) (x : tensor T),
    chain w layers -> batch_of_width w x ->
    exists s, score layers x = Ok s /\ batch_of_width 1 s /\
              length s = length x.
Proof.
  induction layers as [|l rest IH]; intros w x Hc Hx; [destruct Hc|].
  destruct Hc as [Hwf [Hin Hrest]]. subst w.
  destruct (linear_ok l x Hwf Hx) as [a [Ha [Hwa Hla]]].
  cbn [score]. rewrite Ha. cbn [bind].
  destruct rest as [|l' rest'].
  - exists (tensor_sigmoid a). split; [reflexivity|]. split.
    + rewrite <- Hrest. apply batch_of_width_map. exact Hwa.
    + unfold tensor_sigmoid. rewrite length_map. exact Hla.
  - destruct (IH (out_features l) (tensor_relu a) Hrest) as [s [Hs [Hws Hls]]].
    + apply batch_of_width_map. exact Hwa.
    + exists s. split; [exact Hs|]. split; [exact Hws|].
      rewrite Hls. unfold tensor_relu. rewrite length_map. exact Hla.
Qed.

Lemma batch_of_width_1_column (s : tensor T) :
  batch_of_width 1 s -> exists c, s = column c /\ length c = length s.
Proof.
  unfold batch_of_width. induction 1 as [|row s Hrow _ [c [Hc Hl]]].
  - exists []. split; reflexivity.
  - destruct row as [|v [|v' row']]; try discriminate.
    exists (v :: c). simpl. rewrite Hl, Hc. split; reflexivity.
Qed.

(** Entrywise difference of two columns of the same length. *)
Lemma mapM_sub_column :
  forall (c1 c2 : list T),
    mapM (fun p => broadcast RuntimeError (fun x y => Ok (s_sub x y))
                             (fst p) (snd p))
         (combine (column c1) (column c2))
    = Ok (column (map (fun p => s_sub (fst p) (snd p)) (combine c1 c2))).
Proof.
  induction c1 as [|a c1 IH]; intros [|b c2]; try reflexivity.
  unfold column in *. cbn [map combine mapM fst snd]. rewrite IH. reflexivity.
Qed.

Lemma tensor_sub_column (c1 c2 : list T) :
  length c1 = length c2 ->
  tensor_sub (column c1) (column c2)
  = Ok (column (map (fun p => s_sub (fst p) (snd p)) (combine c1 c2))).
Proof.
  intros Hlen. unfold tensor_sub, broadcast at 1.
  replace (length (column c1) =? length (column c2)) with true.
  - apply mapM_sub_column.
  - symmetry. apply Nat.eqb_eq. unfold column. rewrite !length_map. exact Hlen.
Qed.

(** *** What the constructor builds *)

Lemma tabulate_length {A : Type} (n : nat) (f : nat -> A) :
  length (tabulate n f) = n.
Proof. unfold tabulate. rewrite length_map, length_seq. reflexivity. Qed.

Lemma nn_Linear_wf (g : rng T) (k i o : nat) :
  linear_wf (nn_Linear g k i o) /\
  in_features (nn_Linear g k i o) = i /\
  out_features (nn_Linear g k i o) = o.
Proof.
  unfold linear_wf, out_features. cbn [nn_Linear in_features weight bias].
  rewrite !tabulate_length. repeat split.
  unfold tabulate at 1. apply Forall_map, Forall_forall. intros r _.
  apply tabulate_length.
Qed.

Lemma init_layers_chain (g : rng T) (ns : list nat) (n : nat) :
  forall (rest : list nat) (w : nat) (pre : list nat),
    ns = pre ++ w :: rest ->
    chain w
      (map (fun i => nn_Linear g (i + 1) (nth i ns 0) (nth (i + 1) ns 0))
           (seq (length pre) (length rest))
       ++ [nn_Linear g n (last (w :: rest) 0) 1]).
Proof.
  induction rest as [|w' rest' IH]; intros w pre Hns.
  - cbn [length seq map app last chain].
    destruct (nn_Linear_wf g n w 1) as [H1 [H2 H3]]. auto.
  - cbn [length seq map app].
    assert (Hw : nth (length pre) ns 0 = w).
    { rewrite Hns, app_nth2 by lia. rewrite Nat.sub_diag. reflexivity. }
    assert (Hw' : nth (length pre + 1) ns 0 = w').
    { rewrite Hns, app_nth2 by lia.
      replace (length pre + 1 - length pre) with 1 by lia. reflexivity. }
    rewrite Hw, Hw'.
    destruct (nn_Linear_wf g (length pre + 1) w w') as [H1 [H2 H3]].
    specialize (IH w' (pre ++ [w])).
    rewrite length_app in IH. simpl in IH.
    replace (length pre + 1) with (S (length pre)) in IH by lia.
    cbn [chain].
    destruct (map _ (seq (S (length pre)) (length rest')) ++ _) eqn:Hl.
    + destruct (map (fun i => nn_Linear g (i + 1) (nth i ns 0) (nth (i + 1) ns 0))
                    (seq (S (length pre)) (length rest'))); discriminate.
    + split; [exact H1|]. split; [exact H2|]. rewrite H3.
      apply IH. rewrite Hns, <- app_assoc. reflexivity.
Qed.

Lemma rev_head_last (ns : list nat) (w : nat) (tl : list nat) :
  rev ns = w :: tl -> last ns 0 = w /\ ns <> [].
Proof.
  intros H. assert (Hns : ns = rev tl ++ [w]).
  { rewrite <- (rev_involutive ns), H. reflexivity. }
  subst ns. rewrite last_last. split; [reflexivity|].
  destruct (rev tl); discriminate.
Qed.

(** [RankNet.__init__] succeeds on every non-empty structure and builds a
    network of the structure's first width. *)
Lemma RankNet_init_ok (g : rng T) (ns : list nat) :
  ns <> [] ->
  exists net, RankNet_init g ns = Ok net /\
              network_of_width (hd 0 ns) net /\ training net = true.
Proof.
  intros Hne. unfold RankNet_init.
  destruct (rev ns) as [|w tl] eqn:Hrev.
  { exfalso. apply Hne. rewrite <- (rev_involutive ns), Hrev. reflexivity. }
  destruct (rev_head_last ns w tl Hrev) as [Hlast _].
  eexists. split; [reflexivity|]. split; [|reflexivity].
  unfold network_of_width. cbn [fc_layers fc]. split.
  - rewrite length_app, length_map. unfold range. rewrite length_seq.
    destruct ns; [congruence|]. simpl. lia.
  - destruct ns as [|w0 rest]; [congruence|]. cbn [hd].
    unfold range. rewrite Nat.sub_0_r. cbn [length]. rewrite Nat.sub_succ, Nat.sub_0_r.
    rewrite <- Hlast.
    apply (init_layers_chain g (w0 :: rest) (S (length rest)) rest w0 []).
    reflexivity.
Qed.

(** *** The pairwise forward pass in terms of the score *)

Lemma forward_columns (w : nat) (net : RankNet T) (x1 x2 : tensor T) :
  network_of_width w net ->
  batch_of_width w x1 -> batch_of_width w x2 ->
  length x1 = length x2 ->
  exists c1 c2 : list T,
    score (fc net) x1 = Ok (column c1) /\
    score (fc net) x2 = Ok (column c2) /\
    length c1 = length x1 /\ length c2 = length x2 /\
    forward net x1 x2
    = Ok (column (map (fun p => sigmoid (s_sub (fst p) (snd p)))
                      (combine c1 c2))).
Proof.
  intros [Hn Hc] Hx1 Hx2 Hlen.
  destruct (score_ok (fc net) w x1 Hc Hx1) as [s1 [Hs1 [Hw1 Hl1]]].
  destruct (score_ok (fc net) w x2 Hc Hx2) as [s2 [Hs2 [Hw2 Hl2]]].
  destruct (batch_of_width_1_column s1 Hw1) as [c1 [-> Hc1]].
  destruct (batch_of_width_1_column s2 Hw2) as [c2 [-> Hc2]].
  exists c1, c2. repeat split; try assumption; try congruence.
  unfold forward.
  assert (Hsides : forward_sides net x1 x2 = Ok (column c1, column c2)).
  { apply forward_sides_score; [exact Hn | split; assumption]. }
  rewrite Hsides. cbn [bind fst snd].
  rewrite tensor_sub_column by congruence. cbn [bind].
  unfold tensor_sigmoid, column. rewrite !map_map. reflexivity.
Qed.

Lemma same_shapes_length (a b : list (Linear T)) :
  same_shapes a b = true -> length a = length b.
Proof.
  revert b. induction a as [|x a IH]; intros [|y b] H; simpl in *;
    try discriminate; [reflexivity|].
  apply andb_true_iff in H. destruct H as [_ H]. f_equal. apply IH. exact H.
Qed.

Lemma load_state_dict_Ok (m m' : RankNet T) (sd : list (Linear T)) :
  load_state_dict m sd = Ok m' ->
  fc m' = sd /\ fc_layers m' = fc_layers m /\ training m' = training m /\
  length sd = length (fc m).
Proof.
  unfold load_state_dict. destruct (same_shapes (fc m) sd) eqn:Hs; [|discriminate].
  intros H. injection H as <-. cbn. repeat split.
  symmetry. apply same_shapes_length. exact Hs.
Qed.

End NetworkFacts.

(** ** Claims about the two networks *)

Section NetworkClaims.

Variable T : Type.
Context {ops : Scalar T}.

(** C3.  Once the Inference Model has loaded the Pairwise Model's state
    dictionary, its single-input forward pass returns, on either input of a
    pair, exactly the tensor the Pairwise Model's forward pass holds for
    that side before it takes the difference; and for a network and batches
    of matching width the load and both passes do return. *)
Theorem C3_inference_equals_pairwise_sides (net inf : RankNet T) :
  fc_layers net = length (fc net) ->
  fc_layers inf = length (fc inf) ->
  (forall inf' x1 x2 a b,
      load_state_dict inf (state_dict net) = Ok inf' ->
      forward_sides net x1 x2 = Ok (a, b) ->
      RankNetInference_forward inf' x1 = Ok a /\
      RankNetInference_forward inf' x2 = Ok b) /\
  (forall w x1 x2,
      chain w (fc net) ->
      same_shapes (fc inf) (fc net) = true ->
      batch_of_width w x1 -> batch_of_width w x2 ->
      exists inf' a b,
        load_state_dict inf (state_dict net) = Ok inf' /\
        forward_sides net x1 x2 = Ok (a, b) /\
        RankNetInference_forward inf' x1 = Ok a /\
        RankNetInference_forward inf' x2 = Ok b).
Proof.
  intros Hnet Hinf.
  assert (Hfirst : forall inf' x1 x2 a b,
      load_state_dict inf (state_dict net) = Ok inf' ->
      forward_sides net x1 x2 = Ok (a, b) ->
      RankNetInference_forward inf' x1 = Ok a /\
      RankNetInference_forward inf' x2 = Ok b).
  { intros inf' x1 x2 a b Hload Hsides.
    destruct (load_state_dict_Ok _ inf inf' _ Hload) as [Hfc [Hl [_ Hlen]]].
    unfold state_dict in *.
    assert (Hwf : fc_layers inf' = length (fc inf')) by congruence.
    rewrite !inference_forward_score by exact Hwf. rewrite Hfc.
    apply forward_sides_score; assumption. }
  split; [exact Hfirst|].
  intros w x1 x2 Hc Hshape Hx1 Hx2.
  destruct (score_ok _ (fc net) w x1 Hc Hx1) as [a [Ha _]].
  destruct (score_ok _ (fc net) w x2 Hc Hx2) as [b [Hb _]].
  assert (Hsides : forward_sides net x1 x2 = Ok (a, b)).
  { apply forward_sides_score; [exact Hnet | split; assumption]. }
  assert (Hload : exists inf', load_state_dict inf (state_dict net) = Ok inf').
  { unfold load_state_dict, state_dict. rewrite Hshape. eexists. reflexivity. }
  destruct Hload as [inf' Hload].
  exists inf', a, b. split; [exact Hload|]. split; [exact Hsides|].
  apply Hfirst; assumption.
Qed.

End NetworkClaims.

(** ** The pairwise probability, in exact and in binary32 arithmetic *)

Section ProbabilityClaims.

Local Open Scope R_scope.



Lemma sigmoid_zero : sigmoid 0 = 1 / 2.
Proof. cbn. rewrite Ropp_0, exp_0. lra. Qed.









End ProbabilityClaims.

(** ** The loop over batches *)

Section EpochFacts.

Variable T : Type.
Context {ops : Scalar T} {env : Environment T}.

Lemma nth_error_combine {A B : Type} (l1 : list A) :
  forall (l2 : list B) (k : nat) (a : A) (b : B),
    nth_error l1 k = Some a -> nth_error l2 k = Some b ->
    nth_error (combine l1 l2) k = Some (a, b).
Proof.
  induction l1 as [|x l1 IH]; intros [|y l2] [|k] a b H1 H2;
    simpl in *; try discriminate.
  - congruence.
  - apply IH; assumption.
Qed.

Lemma binary_label_same_length (yi yj : list Z) :
  length yi = length yj ->
  binary_label (T:=T) yi yj
  = Ok (map (fun p => if (fst p >? snd p)%Z then s_one else s_zero)
            (combine yi yj)).
Proof.
  intros Hlen. unfold binary_label, broadcast.
  rewrite Hlen, Nat.eqb_refl.
  apply (mapM_pure (fun p : Z * Z => if (fst p >? snd p)%Z then s_one else s_zero)).
Qed.

Lemma train_batch_skip (i : Z) (v : epoch_vars) (b : Batch T) :
  skip_batch b = true -> train_batch i v b = Ok v.
Proof. intros H. unfold train_batch. rewrite H. reflexivity. Qed.

Lemma foldM_skip {A S : Type} (f : S -> A -> result S) (b : A)
    (l1 l2 : list A) (s : S) :
  (forall s', f s' b = Ok s') ->
  foldM f (l1 ++ b :: l2) s = foldM f (l1 ++ l2) s.
Proof.
  intros Hb. rewrite !foldM_app.
  destruct (foldM f l1 s) as [s1|e]; cbn [bind]; [|reflexivity].
  cbn [foldM]. rewrite Hb. reflexivity.
Qed.

Lemma foldM_all_skip {A S : Type} (f : S -> A -> result S) (l : list A) (s : S) :
  Forall (fun b => forall s', f s' b = Ok s') l ->
  foldM f l s = Ok s.
Proof.
  induction 1 as [|b l Hb _ IH]; [reflexivity|].
  cbn [foldM]. rewrite Hb. exact IH.
Qed.

(** A batch that is not skipped either raises or counts as one more
    minibatch with one more loss. *)
Lemma train_batch_processed (i : Z) (v v' : epoch_vars) (b : Batch T) :
  skip_batch b = false ->
  train_batch i v b = Ok v' ->
  minibatch v' = minibatch v + 1 /\
  exists loss, lossed_minibatch v' = lossed_minibatch v ++ [loss].
Proof.
  intros Hskip H. unfold train_batch in H. rewrite Hskip in H.
  apply bind_Ok in H. destruct H as [xi [_ H]].
  apply bind_Ok in H. destruct H as [xj [_ H]].
  apply bind_Ok in H. destruct H as [yi [_ H]].
  apply bind_Ok in H. destruct H as [yj [_ H]].
  apply bind_Ok in H. destruct H as [y [_ H]].
  apply bind_Ok in H. destruct H as [y_pred [_ H]].
  apply bind_Ok in H. destruct H as [loss [_ H]].
  destruct (backward_step _ _ _ _ _) as [o' p'].
  injection H as <-. cbn [minibatch lossed_minibatch].
  split; [reflexivity | exists loss; reflexivity].
Qed.

(** For a batch whose two sides have the same number of rows, or are both
    absent, an empty side is an empty first side. *)
Lemma either_side_empty_paired (b : Batch T) :
  pair_batch b ->
  either_side_empty b = skip_batch b.
Proof.
  unfold pair_batch, either_side_empty, side_empty, skip_batch.
  destruct (x_i b) as [xi|], (x_j b) as [xj|]; intros H;
    try contradiction; [|reflexivity].
  rewrite H. apply orb_diag.
Qed.

(** Lines 126-127 look at the first side only: a batch whose [x_i] is
    absent or has no rows is skipped whatever its second side is. *)
Lemma first_side_empty_is_skipped (b : Batch T) :
  skip_batch b = true ->
  (forall i v, train_batch i v b = Ok v) /\
  (forall i bs1 bs2 st,
      run_epoch i (bs1 ++ b :: bs2) st = run_epoch i (bs1 ++ bs2) st).
Proof.
  intros Hskip. split.
  - intros i v. apply train_batch_skip. exact Hskip.
  - intros i bs1 bs2 st. unfold run_epoch.
    destruct (scheduler_step (scheduler st) (optimizer st)) as [s' o'].
    rewrite foldM_skip; [reflexivity|].
    intros v. apply train_batch_skip. exact Hskip.
Qed.

(** C5.  A pair batch in which either side is empty ([x_i] or [x_j] absent
    or without rows) is skipped: the loop body returns the loop variables
    untouched (the state with its trace of effects, so no loss is computed
    and no optimizer step taken; the list of batch losses; the minibatch
    count), and an epoch over batches that contain it is the epoch over the
    batches without it, so it records the same mean loss. *)
Theorem C5_either_side_empty_is_skipped (b : Batch T) :
  pair_batch b ->
  either_side_empty b = true ->
  (forall i v, train_batch i v b = Ok v) /\
  (forall i bs1 bs2 st,
      run_epoch i (bs1 ++ b :: bs2) st = run_epoch i (bs1 ++ bs2) st).
Proof.
  intros Hpair Hempty. apply first_side_empty_is_skipped.
  rewrite <- (either_side_empty_paired b Hpair). exact Hempty.
Qed.

(** C10.  When every batch of an epoch is skipped, the epoch still returns:
    it appends one entry to [losses], the mean of the empty list, which is
    not-a-number (no number at all, so not zero); it takes no optimizer
    step, and the parameters and the optimizer are as the scheduler step at
    the start of the epoch left them. *)
Theorem C10_all_skipped_epoch_records_nan (i : Z) (bs : list (Batch T))
    (st : state) :
  Forall (fun b => skip_batch b = true) bs ->
  exists st',
    run_epoch i bs st = Ok st' /\
    losses st' = losses st ++ [np_mean (T:=T) []] /\
    np_mean (T:=T) [] = NaN /\
    (forall v : T, np_mean (T:=T) [] <> Fin v) /\
    trace st' = trace st ++ [ESchedulerStep; EPrint (MEpoch i NaN)] /\
    ~ In EOptimizerStep [ESchedulerStep; EPrint (MEpoch i (@NaN T))] /\
    fc (net st') = fc (net st) /\
    optimizer st' = snd (scheduler_step (scheduler st) (optimizer st)).
Proof.
  intros Hall. unfold run_epoch.
  destruct (scheduler_step (scheduler st) (optimizer st)) as [s' o'] eqn:Hs.
  rewrite foldM_all_skip.
  - cbn [bind ev_state lossed_minibatch]. eexists. split; [reflexivity|].
    cbn [losses trace net optimizer set_training fc snd np_mean].
    repeat split.
    + discriminate.
    + rewrite <- app_assoc. reflexivity.
    + intros [H | [H | []]]; discriminate.
  - eapply Forall_impl; [|exact Hall].
    intros b Hb v. apply train_batch_skip. exact Hb.
Qed.

End EpochFacts.

Section LabelClaim.

Local Open Scope R_scope.

(** C4.  The training label of a pair of relevance labels is 1 when the
    first exceeds the second and 0 otherwise, position by position; for
    [y_i = [3, 1]] and [y_j = [1, 2]] the labels are [[1, 0]]. *)
Theorem C4_binary_label (yi yj : list Z) :
  length yi = length yj ->
  exists y : list R,
    binary_label (T:=R) yi yj = Ok y /\
    length y = length yi /\
    (forall k a b,
        nth_error yi k = Some a -> nth_error yj k = Some b ->
        nth_error y k = Some (if (a >? b)%Z then 1 else 0)) /\
    binary_label (T:=R) [3; 1]%Z [1; 2]%Z = Ok [1; 0].
Proof.
  intros Hlen. eexists. split; [apply binary_label_same_length; exact Hlen|].
  split; [|split].
  - rewrite length_map, length_combine. lia.
  - intros k a b Ha Hb.
    rewrite (nth_error_map _ k (combine yi yj)).
    rewrite (nth_error_combine yi yj k a b Ha Hb). reflexivity.
  - reflexivity.
Qed.

End LabelClaim.

(** ** Setting up and resuming *)

Section SetupFacts.

Variable T : Type.
Context {ops : Scalar T} {env : Environment T}.

Lemma train_setup_unfold (start_epoch additional_epoch : Z) (lr : T)
    (optim : string) (g g_inference : rng T) (files : filesystem)
    (net0 inf0 net1 : RankNet T) (out : list event) :
  RankNet_init g ranknet_structure = Ok net0 ->
  RankNet_init g_inference ranknet_structure = Ok inf0 ->
  optim = "adam"%string \/ optim = "sgd"%string ->
  (if negb (start_epoch =? 0)%Z
   then load_from_ckpt files ckptdir start_epoch net0
   else Ok (net0, [])) = Ok (net1, out) ->
  train_setup start_epoch additional_epoch lr optim g g_inference files
  = Ok {| net := net1; net_inference := set_training false inf0;
          optimizer := snd (StepLR (fresh_optimizer optim net0 lr));
          scheduler := fst (StepLR (fresh_optimizer optim net0 lr));
          losses := []; fs := files;
          trace := [EPrint (MStart start_epoch additional_epoch lr);
                    EPrint (MModule net0);
                    EPrint (MModule (set_training false inf0));
                    EPrint (MOptimizer (fresh_optimizer optim net0 lr))]
                   ++ out |}.
Proof.
  intros Hnet Hinf Hopt Hload. unfold train_setup, RankNetInference_init.
  rewrite Hnet, Hinf. cbn [bind].
  assert (Ho : (if String.eqb optim "adam" then Ok (Adam net0 lr)
                else if String.eqb optim "sgd" then Ok (SGD net0 lr)
                else Err (ValueError
                       ("Optimization method " ++ optim ++ " not implemented")))
               = Ok (fresh_optimizer optim net0 lr)).
  { unfold fresh_optimizer. destruct Hopt as [-> | ->]; reflexivity. }
  rewrite Ho. cbn [bind].
  destruct (StepLR (fresh_optimizer optim net0 lr)) as [sched0 opt1].
  fold ckptdir. rewrite Hload. reflexivity.
Qed.

Lemma load_from_ckpt_missing (files : filesystem) (base : string) (epoch : Z)
    (model : RankNet T) :
  isfile files (ckpt_path base epoch) = false ->
  load_from_ckpt files base epoch model
  = Ok (model,
        [EPrint (MText false
                   ("ckpt file does not exist " ++ ckpt_path base epoch))]).
Proof. intros H. unfold load_from_ckpt. rewrite H. reflexivity. Qed.

Lemma load_from_ckpt_present (files : filesystem) (base : string) (epoch : Z)
    (model : RankNet T) (c : Checkpoint) :
  read_file files (ckpt_path base epoch) = Some (FCheckpoint c) ->
  same_shapes (fc model) (model_state_dict c) = true ->
  load_from_ckpt files base epoch model
  = Ok (set_parameters (model_state_dict c) model,
        [EPrint (MText true ("load from ckpt " ++ ckpt_path base epoch));
         EPrint (MText true ("finish load from ckpt " ++ ckpt_path base epoch))]).
Proof.
  intros Hread Hshape. unfold load_from_ckpt, isfile. rewrite Hread.
  unfold load_state_dict. rewrite Hshape. reflexivity.
Qed.

(** C8.  A resume from a nonzero start epoch whose checkpoint file
    [<base>_<epoch>] is missing does not abort: the loader returns normally,
    prints that the file does not exist and leaves the module as it was, so
    the setup ends with the freshly initialised network and training runs
    its epochs from there. *)
Theorem C8_missing_checkpoint_not_fatal (start_epoch additional_epoch : Z)
    (lr : T) (optim : string) (g g_inference : rng T) (files : filesystem) :
  start_epoch <> 0%Z ->
  isfile files (ckpt_path ckptdir start_epoch) = false ->
  optim = "adam"%string \/ optim = "sgd"%string ->
  exists (net0 : RankNet T) (st0 : state),
    RankNet_init g ranknet_structure = Ok net0 /\
    load_from_ckpt files ckptdir start_epoch net0
    = Ok (net0,
          [EPrint (MText false
             ("ckpt file does not exist " ++ ckpt_path ckptdir start_epoch))]) /\
    train_setup start_epoch additional_epoch lr optim g g_inference files
    = Ok st0 /\
    net st0 = net0 /\
    In (EPrint (MText false
          ("ckpt file does not exist " ++ ckpt_path ckptdir start_epoch)))
       (trace st0) /\
    train start_epoch additional_epoch lr optim g g_inference files
    = (st <- foldM (train_epoch start_epoch)
               (zrange start_epoch (start_epoch + additional_epoch)) st0 ;;
       Ok (train_finish start_epoch additional_epoch st)).
Proof.
  intros Hstart Hmissing Hopt.
  destruct (RankNet_init_ok T g ranknet_structure) as [net0 [Hnet _]];
    [discriminate|].
  destruct (RankNet_init_ok T g_inference ranknet_structure) as [inf0 [Hinf _]];
    [discriminate|].
  pose proof (load_from_ckpt_missing files ckptdir start_epoch net0 Hmissing)
    as Hload.
  assert (Hsetup := train_setup_unfold start_epoch additional_epoch lr optim
                      g g_inference files net0 inf0 net0
                      [EPrint (MText false
                         ("ckpt file does not exist "
                          ++ ckpt_path ckptdir start_epoch))]
                      Hnet Hinf Hopt).
  assert (Hne : negb (start_epoch =? 0)%Z = true).
  { apply negb_true_iff, Z.eqb_neq. exact Hstart. }
  rewrite Hne in Hsetup. specialize (Hsetup Hload).
  eexists net0, _. split; [exact Hnet|]. split; [exact Hload|].
  split; [exact Hsetup|]. split; [reflexivity|]. split.
  - cbn [trace]. apply in_or_app. right. left. reflexivity.
  - unfold train. rewrite Hsetup. reflexivity.
Qed.

(** C7, as the code has it.  A resume from a nonzero start epoch whose
    checkpoint file exists restores the model parameters of the checkpoint
    and nothing else: the optimizer and the scheduler the epochs start with
    are the ones freshly constructed before the load, whatever optimizer and
    scheduler state the checkpoint holds. *)
Theorem C7_resume_restores_model_parameters_only
    (start_epoch additional_epoch : Z) (lr : T) (optim : string)
    (g g_inference : rng T) (files : filesystem)
    (c : Checkpoint) (net0 : RankNet T) :
  start_epoch <> 0%Z ->
  RankNet_init g ranknet_structure = Ok net0 ->
  read_file files (ckpt_path ckptdir start_epoch) = Some (FCheckpoint c) ->
  same_shapes (fc net0) (model_state_dict c) = true ->
  optim = "adam"%string \/ optim = "sgd"%string ->
  exists st0 : state,
    train_setup start_epoch additional_epoch lr optim g g_inference files
    = Ok st0 /\
    state_dict (net st0) = model_state_dict c /\
    (scheduler st0, optimizer st0) = StepLR (fresh_optimizer optim net0 lr).
Proof.
  intros Hstart Hnet Hread Hshape Hopt.
  destruct (RankNet_init_ok T g_inference ranknet_structure) as [inf0 [Hinf _]];
    [discriminate|].
  pose proof (load_from_ckpt_present files ckptdir start_epoch net0 c
                Hread Hshape) as Hload.
  assert (Hsetup := train_setup_unfold start_epoch additional_epoch lr optim
                      g g_inference files net0 inf0
                      (set_parameters (model_state_dict c) net0)
                      [EPrint (MText true
                         ("load from ckpt " ++ ckpt_path ckptdir start_epoch));
                       EPrint (MText true
                         ("finish load from ckpt "
                          ++ ckpt_path ckptdir start_epoch))]
                      Hnet Hinf Hopt).
  assert (Hne : negb (start_epoch =? 0)%Z = true).
  { apply negb_true_iff, Z.eqb_neq. exact Hstart. }
  rewrite Hne in Hsetup. specialize (Hsetup Hload).
  eexists. split; [exact Hsetup|]. split; [reflexivity|].
  cbn [scheduler optimizer].
  destruct (StepLR (fresh_optimizer optim net0 lr)); reflexivity.
Qed.

End SetupFacts.

(** ** The evaluation routine *)

Section EvalFacts.

Variable T : Type.
Context {ops : Scalar T} {env : Environment T}.

Lemma eval_batch_loss (loss_func : tensor T -> list T -> result (pyfloat T))
    (model : RankNet T) (v : eval_vars) (b : Batch T) :
  skip_batch b = false ->
  eval_batch loss_func model v b
  = (loss <- pairwise_loss loss_func model b ;;
     Ok {| e_lossed_minibatch := e_lossed_minibatch v ++ [loss];
           e_minibatch := e_minibatch v + 1;
           e_out := e_out v ++
                      (if (e_minibatch v + 1) mod 100 =? 0
                       then [EPrint (MEvalMinibatch (e_minibatch v + 1) loss)]
                       else []) |}).
Proof.
  intros Hskip. unfold eval_batch, pairwise_loss. rewrite Hskip.
  destruct (array (x_i b)); cbn [bind]; [|reflexivity].
  destruct (array (x_j b)); cbn [bind]; [|reflexivity].
  destruct (array (y_i b)); cbn [bind]; [|reflexivity].
  destruct (array (y_j b)); cbn [bind]; [|reflexivity].
  destruct (binary_label _ _); cbn [bind]; [|reflexivity].
  destruct (forward model _ _); cbn [bind]; reflexivity.
Qed.

Lemma eval_loop (loss_func : tensor T -> list T -> result (pyfloat T))
    (model : RankNet T) :
  forall (bs : list (Batch T)) (v v' : eval_vars),
    foldM (eval_batch loss_func model) bs v = Ok v' ->
    exists ls extra,
      mapM (pairwise_loss loss_func model) (processed bs) = Ok ls /\
      e_lossed_minibatch v' = e_lossed_minibatch v ++ ls /\
      e_out v' = e_out v ++ extra /\
      Forall (fun e => exists n loss, e = EPrint (MEvalMinibatch n loss)) extra.
Proof.
  induction bs as [|b bs IH]; intros v v' H.
  - injection H as <-. exists [], []. rewrite !app_nil_r.
    repeat split. constructor.
  - cbn [foldM] in H. apply bind_Ok in H. destruct H as [v1 [Hb Hrest]].
    destruct (IH v1 v' Hrest) as [ls [extra [Hls [Hl [Ho Hp]]]]].
    unfold processed in *. cbn [filter].
    destruct (skip_batch b) eqn:Hskip; cbn [negb].
    + unfold eval_batch in Hb. rewrite Hskip in Hb. injection Hb as <-.
      exists ls, extra. auto.
    + rewrite (eval_batch_loss _ _ _ _ Hskip) in Hb.
      apply bind_Ok in Hb. destruct Hb as [loss [Hloss Hv1]].
      injection Hv1 as <-. cbn [e_lossed_minibatch e_out] in *.
      exists (loss :: ls).
      eexists (_ ++ extra).
      cbn [mapM]. rewrite Hloss, Hls. cbn [bind].
      split; [reflexivity|]. split; [rewrite Hl, <- app_assoc; reflexivity|].
      split; [rewrite Ho, <- app_assoc; reflexivity|].
      apply Forall_app. split; [|exact Hp].
      destruct (_ =? 0); constructor; [|constructor].
      eexists _, _. reflexivity.
Qed.

(** With equal parameters the loss under the training model is the loss the
    Inference Model's scores give. *)
Lemma pairwise_loss_inference
    (loss_func : tensor T -> list T -> result (pyfloat T))
    (model inf : RankNet T) (b : Batch T) (l : pyfloat T) :
  fc inf = fc model ->
  fc_layers model = length (fc model) ->
  fc_layers inf = length (fc inf) ->
  pairwise_loss loss_func model b = Ok l
  <-> inference_pairwise_loss loss_func inf b = Ok l.
Proof.
  intros Hfc Hm Hi. unfold pairwise_loss, inference_pairwise_loss.
  destruct (array (x_i b)) as [xi|?]; cbn [bind]; [|tauto].
  destruct (array (x_j b)) as [xj|?]; cbn [bind]; [|tauto].
  destruct (array (y_i b)) as [yi|?]; cbn [bind]; [|tauto].
  destruct (array (y_j b)) as [yj|?]; cbn [bind]; [|tauto].
  destruct (binary_label yi yj) as [y|?]; cbn [bind]; [|tauto].
  rewrite !inference_forward_score by exact Hi. rewrite Hfc. split.
  - intros H. apply bind_Ok in H. destruct H as [p [Hf Hl]].
    unfold forward in Hf.
    apply bind_Ok in Hf. destruct Hf as [[a c] [Hs Hd]].
    apply bind_Ok in Hd. destruct Hd as [d [Hd Hp]].
    injection Hp as <-. cbn [fst snd] in Hd.
    apply forward_sides_score in Hs; [|exact Hm]. destruct Hs as [Ha Hc].
    rewrite Ha, Hc. cbn [bind]. rewrite Hd. exact Hl.
  - intros H. apply bind_Ok in H. destruct H as [a [Ha H]].
    apply bind_Ok in H. destruct H as [c [Hc H]].
    apply bind_Ok in H. destruct H as [d [Hd Hl]].
    assert (Hs : forward_sides model xi xj = Ok (a, c)).
    { apply forward_sides_score; [exact Hm | split; assumption]. }
    unfold forward. rewrite Hs. cbn [bind fst snd]. rewrite Hd. exact Hl.
Qed.

(** What [eval_model] does with the two modules it is given.  It computes
    the pairwise sanity loss by calling [model] (line 187) on both sides of
    every validation pair that is not skipped, and prints the mean; the
    Inference Model is handed to the two metric collaborators.  Everything
    the routine emits lies between entering and leaving the no-gradient
    scope.  No parameter of either module changes: the training model only
    has its mode set to evaluation, the Inference Model is returned as it
    came.  When the two modules hold the same parameters each batch loss is
    the one the Inference Model's scores give. *)
Lemma eval_model_reads_model
    (model inference_model : RankNet T)
    (loss_func : tensor T -> list T -> result (pyfloat T))
    (df_valid : dataframe) (valid_loader : loader)
    (model' inference' : RankNet T) (out : list event) :
  eval_model model inference_model loss_func df_valid valid_loader
  = Ok (model', inference', out) ->
  let batches :=
    map (@as_batch T)
        (generate_query_pair_batch valid_loader df_valid 1000000%Z) in
  (fc model' = fc model /\ fc_layers model' = fc_layers model /\
   training model' = false /\ inference' = inference_model) /\
  (exists ls body,
      mapM (pairwise_loss loss_func model) (processed batches) = Ok ls /\
      out = ENoGrad true :: body ++ [ENoGrad false] /\
      (forall flag, ~ In (ENoGrad flag) body) /\
      In (EPrint (MEvalLoss (np_mean ls))) body /\
      (forall v, In (EPrint (MEvalLoss v)) body -> v = np_mean ls) /\
      (forall m, In (EEvalCrossEntropy m) body -> m = inference_model) /\
      (forall m bsz ks, In (EEvalNDCG m bsz ks) body -> m = inference_model)) /\
  (fc inference_model = fc model ->
   fc_layers model = length (fc model) ->
   fc_layers inference_model = length (fc inference_model) ->
   forall b l,
     pairwise_loss loss_func model b = Ok l
     <-> inference_pairwise_loss loss_func inference_model b = Ok l).
Proof.
  intros H batches. unfold eval_model in H.
  apply bind_Ok in H. destruct H as [v [Hloop H]].
  injection H as <- <- <-.
  destruct (eval_loop _ _ _ _ _ Hloop) as [ls [extra [Hls [Hl [Ho Hp]]]]].
  cbn [e_lossed_minibatch e_out app] in Hl, Ho. rewrite Hl, Ho.
  split; [repeat split|]. split.
  - exists ls.
    exists (EPrint (MText true "Eval phase, with batch size of 1000000")
            :: extra ++
            [EPrint (MEvalLoss (np_mean ls));
             EEvalCrossEntropy inference_model;
             EEvalNDCG inference_model 1000000 [10; 30]]).
    split; [exact Hls|]. split.
    { cbn [app]. do 2 f_equal. rewrite <- app_assoc. reflexivity. }
    assert (Hextra : forall e, In e extra ->
                exists n loss, e = EPrint (MEvalMinibatch n loss)).
    { apply Forall_forall. exact Hp. }
    repeat split.
    + intros flag [Hin | Hin]; [discriminate|].
      apply in_app_or in Hin. destruct Hin as [Hin | Hin].
      * destruct (Hextra _ Hin) as [n [loss He]]. discriminate.
      * destruct Hin as [Hin | [Hin | [Hin | []]]]; discriminate.
    + right. apply in_or_app. right. left. reflexivity.
    + intros u [Hin | Hin]; [discriminate|].
      apply in_app_or in Hin. destruct Hin as [Hin | Hin].
      * destruct (Hextra _ Hin) as [n [loss He]]. discriminate.
      * destruct Hin as [Hin | [Hin | [Hin | []]]]; try discriminate.
        injection Hin as <-. reflexivity.
    + intros m [Hin | Hin]; [discriminate|].
      apply in_app_or in Hin. destruct Hin as [Hin | Hin].
      * destruct (Hextra _ Hin) as [n [loss He]]. discriminate.
      * destruct Hin as [Hin | [Hin | [Hin | []]]]; try discriminate.
        injection Hin as <-. reflexivity.
    + intros m bsz ks [Hin | Hin]; [discriminate|].
      apply in_app_or in Hin. destruct Hin as [Hin | Hin].
      * destruct (Hextra _ Hin) as [n [loss He]]. discriminate.
      * destruct Hin as [Hin | [Hin | [Hin | []]]]; try discriminate.
        injection Hin as <- _ _. reflexivity.
  - intros Hfc Hm Hi b l. apply pairwise_loss_inference; assumption.
Qed.

Lemma mapM_Ok_iff {A B : Type} (f g : A -> result B) (l : list A) :
  (forall a b, f a = Ok b <-> g a = Ok b) ->
  forall r, mapM f l = Ok r <-> mapM g l = Ok r.
Proof.
  intros Hfg. induction l as [|a l IH]; intros r; [reflexivity|].
  cbn [mapM]. rewrite !bind_Ok. split.
  - intros [b [Hb H]]. exists b. split; [apply Hfg; exact Hb|].
    apply bind_Ok in H. destruct H as [bs [Hbs H]].
    apply bind_Ok. exists bs. split; [apply IH; exact Hbs | exact H].
  - intros [b [Hb H]]. exists b. split; [apply Hfg; exact Hb|].
    apply bind_Ok in H. destruct H as [bs [Hbs H]].
    apply bind_Ok. exists bs. split; [apply IH; exact Hbs | exact H].
Qed.

(** C9.  Called, as [train] calls it, with an Inference Model that holds
    the parameters of the training model, [eval_model] prints as its sanity
    loss the mean of the pairwise cross-entropy losses that the Inference
    Model's scores of the two sides give, over the validation batches that
    are not skipped.  Everything the routine emits lies between entering
    and leaving the no-gradient scope, and the two metric routines are
    handed the Inference Model.  No parameter of either module changes: the
    training model only has its mode set to evaluation, the Inference Model
    is returned as it came. *)
Theorem C9_eval_model_inference_loss_and_no_mutation
    (model inference_model : RankNet T)
    (loss_func : tensor T -> list T -> result (pyfloat T))
    (df_valid : dataframe) (valid_loader : loader)
    (model' inference' : RankNet T) (out : list event) :
  eval_model model inference_model loss_func df_valid valid_loader
  = Ok (model', inference', out) ->
  fc inference_model = fc model ->
  fc_layers model = length (fc model) ->
  fc_layers inference_model = length (fc inference_model) ->
  let batches :=
    map (@as_batch T)
        (generate_query_pair_batch valid_loader df_valid 1000000%Z) in
  (fc model' = fc model /\ fc_layers model' = fc_layers model /\
   training model' = false /\ inference' = inference_model) /\
  (exists ls body,
      mapM (inference_pairwise_loss loss_func inference_model)
           (processed batches) = Ok ls /\
      out = ENoGrad true :: body ++ [ENoGrad false] /\
      (forall flag, ~ In (ENoGrad flag) body) /\
      In (EPrint (MEvalLoss (np_mean ls))) body /\
      (forall v, In (EPrint (MEvalLoss v)) body -> v = np_mean ls) /\
      (forall m, In (EEvalCrossEntropy m) body -> m = inference_model) /\
      (forall m bsz ks, In (EEvalNDCG m bsz ks) body -> m = inference_model)).
Proof.
  intros H Hfc Hm Hi batches.
  destruct (eval_model_reads_model _ _ _ _ _ _ _ _ H)
    as [Hframe [[ls [body [Hls Hbody]]] Hsame]].
  split; [exact Hframe|].
  exists ls, body. split; [|exact Hbody].
  apply (mapM_Ok_iff (pairwise_loss loss_func model)
                     (inference_pairwise_loss loss_func inference_model));
    [|exact Hls].
  intros b l. apply Hsame; assumption.
Qed.

End EvalFacts.

(** ** The effects of a training run, in order *)

Section TraceFacts.

Variable T : Type.
Context {ops : Scalar T} {env : Environment T}.

Lemma kinds_app (l1 l2 : list event) : kinds (l1 ++ l2) = kinds l1 ++ kinds l2.
Proof. apply flat_map_app. Qed.

Lemma saved_app (l1 l2 : list event) : saved (l1 ++ l2) = saved l1 ++ saved l2.
Proof. apply flat_map_app. Qed.

Lemma train_batch_effects (i : Z) (v v' : epoch_vars) (b : Batch T) :
  train_batch i v b = Ok v' ->
  exists added,
    trace (ev_state v') = trace (ev_state v) ++ added /\
    kinds added = (if skip_batch b then [] else [KOptimizerStep]) /\
    saved added = [] /\
    fs (ev_state v') = fs (ev_state v).
Proof.
  unfold train_batch. destruct (skip_batch b).
  - intros H. injection H as <-. exists []. rewrite app_nil_r. auto.
  - intros H.
    apply bind_Ok in H. destruct H as [xi [_ H]].
    apply bind_Ok in H. destruct H as [xj [_ H]].
    apply bind_Ok in H. destruct H as [yi [_ H]].
    apply bind_Ok in H. destruct H as [yj [_ H]].
    apply bind_Ok in H. destruct H as [y [_ H]].
    apply bind_Ok in H. destruct H as [y_pred [_ H]].
    apply bind_Ok in H. destruct H as [loss [_ H]].
    destruct (backward_step _ _ _ _ _) as [o' p'].
    injection H as <-. cbn [ev_state trace fs].
    eexists. split; [reflexivity|].
    destruct (_ =? 0); repeat split.
Qed.

Lemma batches_effects (i : Z) :
  forall (bs : list (Batch T)) (v v' : epoch_vars),
    foldM (train_batch i) bs v = Ok v' ->
    exists added,
      trace (ev_state v') = trace (ev_state v) ++ added /\
      kinds added = repeat KOptimizerStep (length (processed bs)) /\
      saved added = [] /\
      fs (ev_state v') = fs (ev_state v).
Proof.
  induction bs as [|b bs IH]; intros v v' H.
  - injection H as <-. exists []. rewrite app_nil_r. auto.
  - cbn [foldM] in H. apply bind_Ok in H. destruct H as [v1 [Hb Hrest]].
    destruct (train_batch_effects i v v1 b Hb) as [a1 [Ht1 [Hk1 [Hs1 Hf1]]]].
    destruct (IH v1 v' Hrest) as [a2 [Ht2 [Hk2 [Hs2 Hf2]]]].
    exists (a1 ++ a2). rewrite Ht2, Ht1, <- app_assoc.
    split; [reflexivity|]. rewrite kinds_app, saved_app, Hk1, Hk2, Hs1, Hs2.
    split; [|split; [reflexivity | congruence]].
    unfold processed. cbn [filter].
    destruct (skip_batch b); reflexivity.
Qed.

Lemma run_epoch_effects (i : Z) (bs : list (Batch T)) (st st' : state) :
  run_epoch i bs st = Ok st' ->
  exists added,
    trace st' = trace st ++ added /\
    kinds added
    = KSchedulerStep :: repeat KOptimizerStep (length (processed bs)) /\
    saved added = [] /\
    fs st' = fs st.
Proof.
  unfold run_epoch.
  destruct (scheduler_step (scheduler st) (optimizer st)) as [s' o'].
  intros H. apply bind_Ok in H. destruct H as [v [Hloop H]].
  injection H as <-. cbn [trace fs].
  destruct (batches_effects i bs _ v Hloop) as [a [Ht [Hk [Hs Hf]]]].
  cbn [ev_state trace fs] in Ht, Hf.
  exists ([ESchedulerStep] ++ a ++ [EPrint (MEpoch i (np_mean (lossed_minibatch v)))]).
  rewrite Ht, <- !app_assoc. split; [reflexivity|].
  rewrite !kinds_app, !saved_app, Hk, Hs. cbn. rewrite app_nil_r.
  repeat split. exact Hf.
Qed.

Lemma eval_model_effects (model inference_model : RankNet T)
    (loss_func : tensor T -> list T -> result (pyfloat T))
    (df_valid : dataframe) (valid_loader : loader)
    (model' inference' : RankNet T) (out : list event) :
  eval_model model inference_model loss_func df_valid valid_loader
  = Ok (model', inference', out) ->
  kinds out = [KNoGrad true; KEvalCrossEntropy; KEvalNDCG; KNoGrad false] /\
  saved out = [].
Proof.
  intros H. unfold eval_model in H.
  apply bind_Ok in H. destruct H as [v [Hloop H]].
  injection H as <- <- <-.
  destruct (eval_loop _ _ _ _ _ _ Hloop) as [ls [extra [_ [_ [Ho Hp]]]]].
  cbn [e_out app] in Ho. rewrite Ho.
  assert (Hquiet : kinds extra = [] /\ saved extra = []).
  { clear Ho. induction Hp as [|e extra [n [loss ->]] _ [IHk IHs]].
    - split; reflexivity.
    - split; cbn; assumption. }
  destruct Hquiet as [Hk Hs].
  cbn [app]. change (?a :: ?b :: ?l) with ([a; b] ++ l).
  rewrite !kinds_app, !saved_app, Hk, Hs. split; reflexivity.
Qed.

Lemma checkpoint_and_eval_effects (ckptfile : string) (start_epoch i : Z)
    (df_valid : dataframe) (valid_loader : loader) (st st' : state) :
  checkpoint_and_eval ckptfile start_epoch i df_valid valid_loader st = Ok st' ->
  exists added,
    trace st' = trace st ++ added /\
    kinds added
    = (if checkpoint_due start_epoch i
       then [KSave (ckpt_path ckptfile i) (Some i); KSync;
             KNoGrad true; KEvalCrossEntropy; KEvalNDCG; KNoGrad false]
       else []) /\
    fs st' = rev (saved added) ++ fs st /\
    Forall2 (checkpoint_written (ckpt_path ckptfile))
            (if checkpoint_due start_epoch i then [i] else [])
            (saved added).
Proof.
  unfold checkpoint_and_eval. fold (checkpoint_due start_epoch i).
  destruct (checkpoint_due start_epoch i).
  - intros H. apply bind_Ok in H. destruct H as [inf' [_ H]].
    apply bind_Ok in H. destruct H as [[[m' i'] out] [Heval H]].
    injection H as <-. cbn [trace fs save_to_ckpt torch_save].
    destruct (eval_model_effects _ _ _ _ _ _ _ _ Heval) as [Hk Hs].
    eexists (_ :: _ :: out). rewrite <- app_assoc. split; [reflexivity|].
    cbn [app]. change (?a :: ?b :: out) with ([a; b] ++ out).
    rewrite kinds_app, saved_app, Hk, Hs.
    split; [reflexivity|]. split; [reflexivity|].
    cbn. constructor; [|constructor].
    split; [reflexivity|]. eexists. split; reflexivity.
  - intros H. injection H as <-. exists []. rewrite app_nil_r.
    repeat split. constructor.
Qed.

(** When a checkpoint is due the Inference Model leaves the step with the
    parameters of the training model, which the step does not change. *)
Lemma checkpoint_and_eval_syncs (ckptfile : string) (start_epoch i : Z)
    (df_valid : dataframe) (valid_loader : loader) (st st' : state) :
  checkpoint_due start_epoch i = true ->
  checkpoint_and_eval ckptfile start_epoch i df_valid valid_loader st = Ok st' ->
  state_dict (net_inference st') = state_dict (net st') /\
  state_dict (net st') = state_dict (net st).
Proof.
  unfold checkpoint_and_eval. fold (checkpoint_due start_epoch i).
  intros -> H.
  apply bind_Ok in H. destruct H as [inf' [Hload H]].
  apply bind_Ok in H. destruct H as [[[m' i'] out] [Heval H]].
  injection H as <-. cbn [net net_inference].
  unfold eval_model in Heval.
  apply bind_Ok in Heval. destruct Heval as [v [_ Heval]].
  injection Heval as <- <- _.
  destruct (load_state_dict_Ok T _ _ _ Hload) as [Hfc _].
  unfold state_dict in *. cbn [fc set_training save_to_ckpt torch_save net] in *.
  split; [exact Hfc | reflexivity].
Qed.

(** The checkpoint step in full, when a checkpoint is due: the file it
    writes, the module the Inference Model becomes, and the call of
    [eval_model], which gets the training model and an Inference Model with
    the same parameters. *)
Lemma checkpoint_and_eval_due (ckptfile : string) (start_epoch i : Z)
    (df_valid : dataframe) (valid_loader : loader) (st st' : state) :
  checkpoint_due start_epoch i = true ->
  checkpoint_and_eval ckptfile start_epoch i df_valid valid_loader st = Ok st' ->
  let checkpoint :=
    FCheckpoint {| ck_epoch := i;
                   model_state_dict := state_dict (net st);
                   optimizer_state_dict := optimizer st;
                   scheduler_state_dict := scheduler st |} in
  exists (inf' : RankNet T) (out : list event),
    load_state_dict (net_inference st) (state_dict (net st)) = Ok inf' /\
    fc inf' = fc (net st) /\
    eval_model (net st) inf' BCELoss df_valid valid_loader
    = Ok (set_training false (net st), inf', out) /\
    net st' = set_training false (net st) /\
    net_inference st' = inf' /\
    optimizer st' = optimizer st /\
    scheduler st' = scheduler st /\
    losses st' = losses st /\
    fs st' = (ckpt_path ckptfile i, checkpoint) :: fs st /\
    trace st'
    = trace st ++ ETorchSave (ckpt_path ckptfile i) checkpoint
               :: ESync (state_dict (net st)) :: out.
Proof.
  intros Hdue H checkpoint.
  unfold checkpoint_and_eval in H. fold (checkpoint_due start_epoch i) in H.
  rewrite Hdue in H.
  apply bind_Ok in H. destruct H as [inf' [Hload H]].
  apply bind_Ok in H. destruct H as [[[m' i'] out] [Heval H]].
  injection H as <-.
  cbn [save_to_ckpt torch_save net net_inference optimizer scheduler losses
       fs trace write_file] in *.
  assert (Hres : m' = set_training false (net st) /\ i' = inf').
  { unfold eval_model in Heval.
    apply bind_Ok in Heval. destruct Heval as [v [_ Heval]].
    injection Heval as <- <- _. split; reflexivity. }
  destruct Hres as [-> ->].
  exists inf', out.
  destruct (load_state_dict_Ok T _ _ _ Hload) as [Hfc _].
  split; [exact Hload|]. split; [exact Hfc|]. split; [exact Heval|].
  repeat split. rewrite <- app_assoc. reflexivity.
Qed.

Lemma eval_model_metric_calls (model inference_model : RankNet T)
    (loss_func : tensor T -> list T -> result (pyfloat T))
    (df_valid : dataframe) (valid_loader : loader)
    (model' inference' : RankNet T) (out : list event) :
  eval_model model inference_model loss_func df_valid valid_loader
  = Ok (model', inference', out) ->
  (forall m, In (EEvalCrossEntropy m) out -> m = inference_model) /\
  (forall m bsz ks, In (EEvalNDCG m bsz ks) out -> m = inference_model).
Proof.
  intros H.
  destruct (eval_model_reads_model T _ _ _ _ _ _ _ _ H)
    as [_ [[ls [body [_ [-> [_ [_ [_ [Hce Hnd]]]]]]]] _]].
  split.
  - intros m [Hin | Hin]; [discriminate|].
    apply in_app_or in Hin. destruct Hin as [Hin | [Hin | []]];
      [exact (Hce m Hin) | discriminate].
  - intros m bsz ks [Hin | Hin]; [discriminate|].
    apply in_app_or in Hin. destruct Hin as [Hin | [Hin | []]];
      [exact (Hnd m bsz ks Hin) | discriminate].
Qed.

Lemma train_epoch_steps (start_epoch i : Z) (st : state) :
  train_epoch start_epoch st i
  = (st' <- run_epoch i train_batches st ;;
     checkpoint_and_eval ckptdir start_epoch i
                         (snd valid_data) (fst valid_data) st').
Proof.
  unfold train_epoch, train_batches, valid_data, ckptdir.
  destruct (load_train_vali_data "Fold1")
    as [[[data_loader df] valid_loader] df_valid].
  reflexivity.
Qed.

Lemma train_epoch_effects (start_epoch i : Z) (st st' : state) :
  train_epoch start_epoch st i = Ok st' ->
  exists added,
    trace st' = trace st ++ added /\
    kinds added = epoch_kinds start_epoch i /\
    fs st' = rev (saved added) ++ fs st /\
    Forall2 (checkpoint_written (ckpt_path ckptdir))
            (if checkpoint_due start_epoch i then [i] else [])
            (saved added).
Proof.
  unfold train_epoch, epoch_kinds, train_batches.
  destruct (load_train_vali_data "Fold1") as [[[data_loader df] valid_loader] df_valid].
  intros H. apply bind_Ok in H. destruct H as [st1 [Hrun Hck]].
  destruct (run_epoch_effects _ _ _ _ Hrun) as [a1 [Ht1 [Hk1 [Hs1 Hf1]]]].
  destruct (checkpoint_and_eval_effects _ _ _ _ _ _ _ Hck)
    as [a2 [Ht2 [Hk2 [Hf2 Hw2]]]].
  exists (a1 ++ a2). rewrite Ht2, Ht1, <- app_assoc. split; [reflexivity|].
  rewrite kinds_app, saved_app, Hk1, Hk2, Hs1. cbn [app].
  split; [reflexivity|]. split; [rewrite Hf2, Hf1; reflexivity | exact Hw2].
Qed.

Lemma epochs_effects (start_epoch : Z) :
  forall (epochs : list Z) (st st' : state),
    foldM (train_epoch start_epoch) epochs st = Ok st' ->
    exists added,
      trace st' = trace st ++ added /\
      kinds added = flat_map (epoch_kinds start_epoch) epochs /\
      fs st' = rev (saved added) ++ fs st /\
      Forall2 (checkpoint_written (ckpt_path ckptdir))
              (filter (checkpoint_due start_epoch) epochs)
              (saved added).
Proof.
  induction epochs as [|i epochs IH]; intros st st' H.
  - injection H as <-. exists []. rewrite app_nil_r.
    repeat split. constructor.
  - cbn [foldM] in H. apply bind_Ok in H. destruct H as [st1 [Hi Hrest]].
    destruct (train_epoch_effects _ _ _ _ Hi) as [a1 [Ht1 [Hk1 [Hf1 Hw1]]]].
    destruct (IH st1 st' Hrest) as [a2 [Ht2 [Hk2 [Hf2 Hw2]]]].
    exists (a1 ++ a2). rewrite Ht2, Ht1, <- app_assoc. split; [reflexivity|].
    rewrite kinds_app, saved_app, Hk1, Hk2. split; [reflexivity|].
    split.
    + rewrite Hf2, Hf1, rev_app_distr, <- app_assoc. reflexivity.
    + cbn [filter]. destruct (checkpoint_due start_epoch i).
      * change (i :: ?l) with ([i] ++ l). apply Forall2_app; assumption.
      * destruct (saved a1); [exact Hw2 | inversion Hw1].
Qed.

End TraceFacts.

(** ** Paths and files *)

Lemma append_inj_l (base s1 s2 : string) :
  (base ++ s1)%string = (base ++ s2)%string -> s1 = s2.
Proof.
  induction base as [|c base IH]; simpl; intros H; [exact H|].
  injection H as H. apply IH. exact H.
Qed.

Lemma append_nonempty_neq (base : string) (c : ascii) (s : string) :
  base <> (base ++ String c s)%string.
Proof.
  induction base as [|a base IH]; simpl; [discriminate|].
  intros H. injection H as H. apply IH. exact H.
Qed.

Lemma format_int_inj (a b : Z) : format_int a = format_int b -> a = b.
Proof.
  unfold format_int. intros H. apply DecimalZ.to_int_inj.
  assert (Hnn : forall z, Z.to_int z <> Decimal.Pos Decimal.Nil /\
                          Z.to_int z <> Decimal.Neg Decimal.Nil).
  { intros [|p|p]; simpl; split; try discriminate;
      intros E; injection E as E;
      exact (DecimalPos.Unsigned.to_uint_nonnil p E). }
  destruct (Hnn a) as [Ha1 Ha2]. destruct (Hnn b) as [Hb1 Hb2].
  pose proof (NilZero.isi (Z.to_int a) Ha1 Ha2) as Ia.
  pose proof (NilZero.isi (Z.to_int b) Hb1 Hb2) as Ib.
  rewrite H in Ia. congruence.
Qed.

Lemma ckpt_path_inj (base : string) (a b : Z) :
  ckpt_path base a = ckpt_path base b -> a = b.
Proof.
  unfold ckpt_path. intros H. apply append_inj_l in H.
  simpl in H. injection H as H. apply format_int_inj. exact H.
Qed.

Lemma ckpt_path_neq_base (base : string) (a : Z) : base <> ckpt_path base a.
Proof. unfold ckpt_path. simpl. apply append_nonempty_neq. Qed.

Lemma in_zrange (lo hi i : Z) : In i (zrange lo hi) <-> (lo <= i < hi)%Z.
Proof.
  unfold zrange. rewrite in_map_iff. split.
  - intros [k [<- Hk]]. apply in_seq in Hk. lia.
  - intros H. exists (Z.to_nat (i - lo)). split; [lia|].
    apply in_seq. lia.
Qed.

Lemma seq_from (a n : nat) : seq a n = map (Nat.add a) (seq 0 n).
Proof.
  induction a as [|a IH].
  - symmetry. apply map_id.
  - rewrite <- seq_shift, IH, map_map. reflexivity.
Qed.

(** The epochs of a run, split at epoch [i]. *)
Lemma zrange_split (lo hi i : Z) :
  (lo <= i < hi)%Z ->
  zrange lo hi = zrange lo i ++ i :: zrange (i + 1) hi.
Proof.
  intros Hi. unfold zrange.
  replace (Z.to_nat (hi - lo))
    with (Z.to_nat (i - lo) + S (Z.to_nat (hi - (i + 1))))%nat by lia.
  rewrite seq_app, map_app. f_equal.
  cbn [Nat.add seq map]. f_equal; [lia|].
  rewrite seq_from, map_map. apply map_ext. intros k. lia.
Qed.

Lemma NoDup_zrange (lo hi : Z) : NoDup (zrange lo hi).
Proof.
  unfold zrange. generalize (seq_NoDup (Z.to_nat (hi - lo)) 0).
  generalize (seq 0 (Z.to_nat (hi - lo))). intros l Hl.
  induction Hl as [|k l Hk _ IH]; simpl; constructor; [|exact IH].
  rewrite in_map_iff. intros [k' [Heq Hin]].
  assert (k' = k) by lia. subst k'. exact (Hk Hin).
Qed.

Lemma NoDup_map_inj {A B : Type} (f : A -> B) (l : list A) :
  (forall a b, f a = f b -> a = b) -> NoDup l -> NoDup (map f l).
Proof.
  intros Hinj Hl. induction Hl as [|a l Ha _ IH]; simpl; constructor;
    [|exact IH].
  rewrite in_map_iff. intros [b [Heq Hin]].
  apply Hinj in Heq. subst b. exact (Ha Hin).
Qed.

Section FileFacts.

Variable T : Type.
Context {ops : Scalar T} {env : Environment T}.

Lemma read_file_written (l rest : filesystem) (path : string) (f : file) :
  NoDup (map fst l) -> In (path, f) l ->
  read_file (l ++ rest) path = Some f.
Proof.
  induction l as [|[p g] l IH]; intros Hnd Hin; [destruct Hin|].
  inversion Hnd as [|? ? Hp Hnd']; subst. cbn [app read_file].
  destruct (String.eqb_spec p path) as [-> | Hne].
  - destruct Hin as [Hin | Hin]; [congruence|].
    exfalso. apply Hp. change path with (fst (path, f)).
    apply in_map. exact Hin.
  - destruct Hin as [Hin | Hin]; [congruence|].
    apply IH; assumption.
Qed.

Lemma read_file_cons_neq (p path : string) (f : file) (rest : filesystem) :
  p <> path -> read_file ((p, f) :: rest) path = read_file rest path.
Proof.
  intros Hne. cbn [read_file].
  destruct (String.eqb_spec p path); [contradiction | reflexivity].
Qed.

Lemma read_file_cons_eq (path : string) (f : file) (rest : filesystem) :
  read_file ((path, f) :: rest) path = Some f.
Proof. cbn [read_file]. rewrite String.eqb_refl. reflexivity. Qed.

Lemma read_file_skip (l rest : filesystem) (path : string) :
  (forall pf, In pf l -> fst pf <> path) ->
  read_file (l ++ rest) path = read_file rest path.
Proof.
  induction l as [|[p f] l IH]; intros Hl; [reflexivity|].
  cbn [app]. rewrite read_file_cons_neq.
  - apply IH. intros pf Hin. apply Hl. right. exact Hin.
  - apply (Hl (p, f)). left. reflexivity.
Qed.

Lemma written_paths (path_of : Z -> string) :
  forall (epochs : list Z) (l : filesystem),
    Forall2 (checkpoint_written path_of) epochs l ->
    map fst l = map path_of epochs.
Proof.
  induction 1 as [|i pf epochs l [Hp _] _ IH]; [reflexivity|].
  simpl. rewrite Hp, IH. reflexivity.
Qed.

Lemma written_checkpoint (path_of : Z -> string) (i : Z) :
  forall (epochs : list Z) (l : filesystem),
    Forall2 (checkpoint_written path_of) epochs l ->
    In i epochs ->
    exists c, In (path_of i, FCheckpoint c) l /\ ck_epoch c = i.
Proof.
  induction 1 as [|j pf epochs l [Hp [c [Hc He]]] _ IH]; intros Hin;
    [destruct Hin|].
  destruct Hin as [-> | Hin].
  - exists c. split; [|exact He]. left. destruct pf as [p f].
    simpl in *. congruence.
  - destruct (IH Hin) as [c' [Hin' He']]. exists c'. split; [right|]; assumption.
Qed.

End FileFacts.

(** ** The checkpoint schedule *)

Section ScheduleClaim.

Variable T : Type.
Context {ops : Scalar T} {env : Environment T}.

Lemma checkpoint_due_spec (start_epoch i : Z) :
  checkpoint_due start_epoch i = true <-> ((i mod 5 = 0)%Z /\ i <> start_epoch).
Proof.
  unfold checkpoint_due. rewrite andb_true_iff, negb_true_iff.
  rewrite Z.eqb_eq, Z.eqb_neq. reflexivity.
Qed.

Lemma save_in_epoch_kinds (start_epoch j : Z) (p : string) (e : option Z) :
  In (KSave p e) (epoch_kinds start_epoch j) <->
  checkpoint_due start_epoch j = true /\ p = ckpt_path ckptdir j /\ e = Some j.
Proof.
  unfold epoch_kinds. split.
  - intros [H | H]; [discriminate|].
    apply in_app_or in H. destruct H as [H | H].
    + apply repeat_spec in H. discriminate.
    + destruct (checkpoint_due start_epoch j); [|destruct H].
      destruct H as [H | [H | [H | [H | [H | [H | []]]]]]]; try discriminate.
      injection H as <- <-. auto.
  - intros [Hdue [-> ->]]. right. apply in_or_app. right.
    rewrite Hdue. left. reflexivity.
Qed.

Lemma written_paths_NoDup (start_epoch last : Z) (l : filesystem) :
  Forall2 (checkpoint_written (ckpt_path ckptdir))
          (filter (checkpoint_due start_epoch) (zrange start_epoch last)) l ->
  NoDup (map fst ((ckptdir, FOther EOFError)
                  :: (ckpt_path ckptdir last, FOther EOFError) :: rev l)).
Proof.
  intros Hw. cbn [map fst]. rewrite map_rev.
  rewrite (written_paths T _ _ _ Hw).
  constructor; [|constructor].
  - intros [H | H]; [exact (ckpt_path_neq_base _ _ (eq_sym H))|].
    apply in_rev, in_map_iff in H. destruct H as [i [H _]].
    exact (ckpt_path_neq_base _ _ (eq_sym H)).
  - intros H. apply in_rev, in_map_iff in H. destruct H as [i [H Hin]].
    apply ckpt_path_inj in H. subst i.
    apply filter_In in Hin. destruct Hin as [Hin _].
    apply in_zrange in Hin. lia.
  - apply NoDup_rev. apply NoDup_map_inj; [apply ckpt_path_inj|].
    apply NoDup_filter. apply NoDup_zrange.
Qed.

(** The paths the epochs of a run write to are those of the epochs in
    which a checkpoint is due. *)
Lemma written_in_epochs (epochs : list Z) (l : filesystem) (start_epoch : Z) :
  Forall2 (checkpoint_written (ckpt_path ckptdir))
          (filter (checkpoint_due start_epoch) epochs) l ->
  forall pf, In pf l -> exists j, In j epochs /\ fst pf = ckpt_path ckptdir j.
Proof.
  intros Hw pf Hin.
  assert (Hp : In (fst pf) (map fst l)) by (apply in_map; exact Hin).
  rewrite (written_paths T _ _ _ Hw) in Hp.
  apply in_map_iff in Hp. destruct Hp as [j [Hj Hinj]].
  apply filter_In in Hinj. exists j. split; [tauto | congruence].
Qed.

(** C6.  In a run of [train] that returns, the effects between the setup
    and the end are, epoch by epoch from [start_epoch] to
    [start_epoch + additional_epoch - 1]: the scheduler step, the optimizer
    steps of the batches, and, exactly for the epochs [i] with
    [i mod 5 = 0] and [i <> start_epoch], the write of a checkpoint with
    epoch number [i] under [<base>_<i>], directly followed by the sync of
    the Inference Model and the evaluation.  The run ends with the write of
    one more checkpoint (model, optimizer, scheduler, epoch number
    [start_epoch + additional_epoch]) and of the bare model parameters under
    the base path.  All these files are there when the run ends.

    What the checkpoint of such an epoch [i] holds, and what the sync does,
    is said in terms of the run up to there: with [pre] the state the
    epochs before [i] lead to, [mid] the state after the training pass of
    epoch [i] and [post] the state at the end of epoch [i], the file written
    holds the epoch number [i] and the model parameters, the optimizer and
    the scheduler of [mid], and is still there, unchanged, when the run
    ends; the sync hands the Inference Model the parameters of [mid], the
    evaluation that follows calls both metric routines with that Inference
    Model, and the step changes neither the parameters of the training
    model nor the optimizer or the scheduler. *)
Theorem C6_checkpoint_schedule
    (start_epoch additional_epoch : Z) (lr : T) (optim : string)
    (g g_inference : rng T) (files : filesystem) (st : state) :
  train start_epoch additional_epoch lr optim g g_inference files = Ok st ->
  let last := (start_epoch + additional_epoch)%Z in
  let last_checkpoint :=
    FCheckpoint {| ck_epoch := last;
                   model_state_dict := state_dict (net st);
                   optimizer_state_dict := optimizer st;
                   scheduler_state_dict := scheduler st |} in
  exists (st0 : state) (loop_log : list event),
    train_setup start_epoch additional_epoch lr optim g g_inference files
    = Ok st0 /\
    trace st
    = trace st0 ++ loop_log ++
      [ETorchSave (ckpt_path ckptdir last) last_checkpoint;
       ETorchSave ckptdir (FStateDict (state_dict (net st)))] /\
    kinds loop_log = flat_map (epoch_kinds start_epoch) (zrange start_epoch last) /\
    (forall i,
        In (KSave (ckpt_path ckptdir i) (Some i)) (kinds loop_log) <->
        (start_epoch <= i < last)%Z /\ (i mod 5 = 0)%Z /\ i <> start_epoch) /\
    (forall p e,
        In (KSave p e) (kinds loop_log) ->
        exists i, p = ckpt_path ckptdir i /\ e = Some i) /\
    (forall i,
        (start_epoch <= i < last)%Z -> (i mod 5 = 0)%Z -> i <> start_epoch ->
        exists c, read_file (fs st) (ckpt_path ckptdir i) = Some (FCheckpoint c)
                  /\ ck_epoch c = i) /\
    read_file (fs st) (ckpt_path ckptdir last) = Some last_checkpoint /\
    read_file (fs st) ckptdir = Some (FStateDict (state_dict (net st))) /\
    (forall i,
        (start_epoch <= i < last)%Z -> (i mod 5 = 0)%Z -> i <> start_epoch ->
        exists (pre mid post : state) (out later : list event),
          foldM (train_epoch start_epoch) (zrange start_epoch i) st0 = Ok pre /\
          run_epoch i train_batches pre = Ok mid /\
          train_epoch start_epoch pre i = Ok post /\
          let checkpoint :=
            FCheckpoint {| ck_epoch := i;
                           model_state_dict := state_dict (net mid);
                           optimizer_state_dict := optimizer mid;
                           scheduler_state_dict := scheduler mid |} in
          trace post
          = trace mid ++ ETorchSave (ckpt_path ckptdir i) checkpoint
                      :: ESync (state_dict (net mid)) :: out /\
          trace st = trace post ++ later /\
          kinds out
          = [KNoGrad true; KEvalCrossEntropy; KEvalNDCG; KNoGrad false] /\
          (forall m, In (EEvalCrossEntropy m) out -> m = net_inference post) /\
          (forall m bsz ks,
              In (EEvalNDCG m bsz ks) out -> m = net_inference post) /\
          state_dict (net_inference post) = state_dict (net mid) /\
          state_dict (net post) = state_dict (net mid) /\
          optimizer post = optimizer mid /\
          scheduler post = scheduler mid /\
          fs post = (ckpt_path ckptdir i, checkpoint) :: fs pre /\
          read_file (fs st) (ckpt_path ckptdir i) = Some checkpoint).
Proof.
  intros H last last_checkpoint. unfold train in H.
  apply bind_Ok in H. destruct H as [st0 [Hsetup H]].
  apply bind_Ok in H. destruct H as [st1 [Hloop H]].
  injection H as <-.
  destruct (epochs_effects _ _ _ _ _ Hloop) as [added [Ht [Hk [Hf Hw]]]].
  fold last in Hk, Hw.
  exists st0, added. split; [exact Hsetup|].
  assert (Hsaves : forall p e,
             In (KSave p e) (kinds added) <->
             exists j, (start_epoch <= j < last)%Z /\
                       checkpoint_due start_epoch j = true /\
                       p = ckpt_path ckptdir j /\ e = Some j).
  { intros p e. rewrite Hk, in_flat_map. split.
    - intros [j [Hin Hj]]. apply save_in_epoch_kinds in Hj.
      apply in_zrange in Hin. exists j. tauto.
    - intros [j [Hr Hj]]. exists j. split; [apply in_zrange; exact Hr|].
      apply save_in_epoch_kinds. exact Hj. }
  split; [|split; [exact Hk|]].
  { unfold train_finish, save_to_ckpt, torch_save. cbn [trace net optimizer scheduler].
    rewrite Ht, <- !app_assoc. reflexivity. }
  split; [|split].
  { intros i. rewrite Hsaves. split.
    - intros [j [Hr [Hdue [Hp He]]]]. injection He as <-.
      apply checkpoint_due_spec in Hdue. tauto.
    - intros [Hr Hdue]. exists i. split; [exact Hr|].
      split; [apply checkpoint_due_spec; exact Hdue | auto]. }
  { intros p e Hin. apply Hsaves in Hin. destruct Hin as [j [_ [_ [Hp He]]]].
    exists j. auto. }
  pose proof (written_paths_NoDup start_epoch last _ Hw) as Hnd.
  assert (Hfs : fs (train_finish start_epoch additional_epoch st1)
                = ((ckptdir, FStateDict (state_dict (net st1)))
                   :: (ckpt_path ckptdir last,
                       FCheckpoint {| ck_epoch := last;
                                      model_state_dict := state_dict (net st1);
                                      optimizer_state_dict := optimizer st1;
                                      scheduler_state_dict := scheduler st1 |})
                   :: rev (saved added)) ++ fs st0).
  { unfold train_finish, save_to_ckpt, torch_save, write_file.
    cbn [fs net optimizer scheduler]. rewrite Hf. reflexivity. }
  split; [|split; [|split]].
  - rewrite Hfs. intros i Hr Hmod Hne.
    assert (Hin : In i (filter (checkpoint_due start_epoch)
                               (zrange start_epoch last))).
    { apply filter_In. split; [apply in_zrange; exact Hr|].
      apply checkpoint_due_spec. auto. }
    destruct (written_checkpoint T _ i _ _ Hw Hin) as [c [Hc He]].
    exists c. split; [|exact He].
    apply read_file_written; [exact Hnd|].
    right. right. apply -> in_rev. exact Hc.
  - rewrite Hfs. apply read_file_written; [exact Hnd|]. right. left. reflexivity.
  - rewrite Hfs. apply read_file_written; [exact Hnd|]. left. reflexivity.
  - clear Hfs Hnd Hsaves. intros i Hr Hmod Hne.
    assert (Hdue : checkpoint_due start_epoch i = true)
      by (apply checkpoint_due_spec; auto).
    pose proof Hloop as Hsplit.
    rewrite (zrange_split start_epoch (start_epoch + additional_epoch) i Hr),
            foldM_app in Hsplit.
    apply bind_Ok in Hsplit. destruct Hsplit as [pre [Hpre Hrest]].
    cbn [foldM] in Hrest.
    apply bind_Ok in Hrest. destruct Hrest as [post [Hpost Hlater]].
    pose proof Hpost as Hsteps. rewrite train_epoch_steps in Hsteps.
    apply bind_Ok in Hsteps. destruct Hsteps as [mid [Hmid Hck]].
    destruct (checkpoint_and_eval_due T _ _ _ _ _ _ _ Hdue Hck)
      as [inf' [out [_ [Hfc [Heval [Hn [Hi [Ho [Hs [_ [Hfp Htr]]]]]]]]]]].
    destruct (eval_model_effects T _ _ _ _ _ _ _ _ Heval) as [Hkout _].
    destruct (eval_model_metric_calls T _ _ _ _ _ _ _ _ Heval) as [Hce Hnd].
    destruct (run_epoch_effects T _ _ _ _ Hmid) as [_ [_ [_ [_ Hfm]]]].
    destruct (epochs_effects T _ _ _ _ Hlater) as [added2 [Ht2 [_ [Hf2 Hw2]]]].
    exists pre, mid, post, out.
    eexists (added2 ++ [_; _]).
    split; [exact Hpre|]. split; [exact Hmid|]. split; [exact Hpost|].
    cbv zeta.
    split; [exact Htr|].
    split.
    { unfold train_finish, save_to_ckpt, torch_save.
      cbn [trace net optimizer scheduler]. rewrite Ht2, <- !app_assoc.
      reflexivity. }
    split; [exact Hkout|].
    split; [intros m Hin; rewrite Hi; exact (Hce m Hin)|].
    split; [intros m bsz ks Hin; rewrite Hi; exact (Hnd m bsz ks Hin)|].
    split; [rewrite Hi; exact Hfc|].
    split; [rewrite Hn; reflexivity|].
    split; [exact Ho|]. split; [exact Hs|].
    split; [rewrite Hfp, Hfm; reflexivity|].
    assert (Hfin : fs (train_finish start_epoch additional_epoch st1)
                   = (ckptdir, FStateDict (state_dict (net st1)))
                     :: (ckpt_path ckptdir (start_epoch + additional_epoch),
                         FCheckpoint
                           {| ck_epoch := start_epoch + additional_epoch;
                              model_state_dict := state_dict (net st1);
                              optimizer_state_dict := optimizer st1;
                              scheduler_state_dict := scheduler st1 |})
                     :: fs st1) by reflexivity.
    rewrite Hfin, read_file_cons_neq, read_file_cons_neq, Hf2, read_file_skip,
            Hfp.
    + apply read_file_cons_eq.
    + intros pf Hin. apply in_rev in Hin.
      destruct (written_in_epochs _ _ _ Hw2 pf Hin) as [j [Hj ->]].
      apply in_zrange in Hj. intros Heq. apply ckpt_path_inj in Heq. lia.
    + intros Heq. apply ckpt_path_inj in Heq. unfold last in Hr. lia.
    + apply ckpt_path_neq_base.
Qed.

End ScheduleClaim.

(** ** The statements at concrete inputs *)

Section Instances.

Local Open Scope R_scope.

Local Existing Instance quiet_env.

Lemma two_layer_net_width : network_of_width 2 two_layer_net.
Proof.
  unfold network_of_width, linear_wf, out_features. simpl.
  repeat split; repeat constructor.
Qed.







Lemma C3_witness :
  (forall inf' x1 x2 a b,
      load_state_dict two_layer_zero (state_dict two_layer_net) = Ok inf' ->
      forward_sides two_layer_net x1 x2 = Ok (a, b) ->
      RankNetInference_forward inf' x1 = Ok a /\
      RankNetInference_forward inf' x2 = Ok b) /\
  (forall w x1 x2,
      chain w (fc two_layer_net) ->
      same_shapes (fc two_layer_zero) (fc two_layer_net) = true ->
      batch_of_width w x1 -> batch_of_width w x2 ->
      exists inf' a b,
        load_state_dict two_layer_zero (state_dict two_layer_net) = Ok inf' /\
        forward_sides two_layer_net x1 x2 = Ok (a, b) /\
        RankNetInference_forward inf' x1 = Ok a /\
        RankNetInference_forward inf' x2 = Ok b).
Proof.
  apply (C3_inference_equals_pairwise_sides R two_layer_net two_layer_zero).
  - reflexivity.
  - reflexivity.
Defined.

Lemma C4_witness :
  exists y : list R,
    binary_label (T:=R) [3; 1]%Z [1; 2]%Z = Ok y /\
    length y = length [3; 1]%Z /\
    (forall k a b,
        nth_error [3; 1]%Z k = Some a -> nth_error [1; 2]%Z k = Some b ->
        nth_error y k = Some (if (a >? b)%Z then 1 else 0)) /\
    binary_label (T:=R) [3; 1]%Z [1; 2]%Z = Ok [1; 0].
Proof.
  apply (C4_binary_label [3; 1]%Z [1; 2]%Z). reflexivity.
Defined.

Lemma C5_witness :
  (forall i v,
      train_batch (env := quiet_env) i v (as_batch batch_empty_left) = Ok v) /\
  (forall i bs1 bs2 st,
      run_epoch (env := quiet_env) i
                (bs1 ++ as_batch batch_empty_left :: bs2) st
      = run_epoch i (bs1 ++ bs2) st).
Proof.
  apply (C5_either_side_empty_is_skipped R (env := quiet_env)
           (as_batch batch_empty_left)).
  - reflexivity.
  - reflexivity.
Defined.

(** What the generator's contract rules out.  A batch with one row in
    [x_i] and none in [x_j] is not a batch of pairs; handed to the loop it
    is not skipped, the one epoch of this run takes an optimizer step for
    it. *)
Lemma unpaired_batch_is_not_skipped :
  ~ pair_batch (as_batch batch_empty_right) /\
  either_side_empty (as_batch batch_empty_right) = true /\
  (forall i (v : epoch_vars (env := real_env [batch_empty_right] [])),
      train_batch i v (as_batch batch_empty_right) <> Ok v) /\
  exists st,
    train (env := real_env [batch_empty_right] []) 0 1 0 "adam"
          zero_rng zero_rng []
    = Ok st /\
    kinds (trace st)
    = [KSchedulerStep; KOptimizerStep;
       KSave "ckptdir/ranknet-136-64-16_1" (Some 1%Z);
       KSave "ckptdir/ranknet-136-64-16" None] /\
    optimizer st = 1%nat.
Proof.
  split; [cbn; discriminate|].
  split; [reflexivity|]. split.
  - intros i v H.
    destruct (train_batch_processed R i v v (as_batch batch_empty_right)
                eq_refl H) as [Hn _].
    lia.
  - eexists. split; [vm_compute; reflexivity|].
    split; vm_compute; reflexivity.
Qed.

Lemma C10_witness :
  exists st' : state (env := quiet_env),
    run_epoch 0 [as_batch batch_empty_left] small_state = Ok st' /\
    losses st' = losses small_state ++ [np_mean (T:=R) []] /\
    np_mean (T:=R) [] = NaN /\
    (forall v : R, np_mean (T:=R) [] <> Fin v) /\
    trace st' = trace small_state ++ [ESchedulerStep; EPrint (MEpoch 0 NaN)] /\
    ~ In (EOptimizerStep (env := quiet_env))
         [ESchedulerStep; EPrint (MEpoch 0 (@NaN R))] /\
    fc (net st') = fc (net small_state) /\
    optimizer st'
    = snd (scheduler_step (scheduler small_state) (optimizer small_state)).
Proof.
  apply (C10_all_skipped_epoch_records_nan R (env := quiet_env) 0%Z
           [as_batch batch_empty_left] small_state).
  constructor; [reflexivity | constructor].
Defined.

Lemma C8_witness :
  exists (net0 : RankNet R) (st0 : state (env := quiet_env)),
    RankNet_init zero_rng ranknet_structure = Ok net0 /\
    load_from_ckpt [] ckptdir 5 net0
    = Ok (net0,
          [EPrint (MText false
             ("ckpt file does not exist " ++ ckpt_path ckptdir 5))]) /\
    train_setup 5 1 0 "adam" zero_rng zero_rng [] = Ok st0 /\
    net st0 = net0 /\
    In (EPrint (MText false
          ("ckpt file does not exist " ++ ckpt_path ckptdir 5)))
       (trace st0) /\
    train 5 1 0 "adam" zero_rng zero_rng []
    = (st <- foldM (train_epoch 5) (zrange 5 (5 + 1)) st0 ;;
       Ok (train_finish 5 1 st)).
Proof.
  apply (C8_missing_checkpoint_not_fatal R (env := quiet_env)
           5%Z 1%Z 0 "adam" zero_rng zero_rng []).
  - discriminate.
  - reflexivity.
  - left. reflexivity.
Defined.

Lemma fresh_net_init : RankNet_init zero_rng ranknet_structure = Ok fresh_net.
Proof. vm_compute. reflexivity. Qed.

Lemma C7_witness :
  exists st0 : state (env := quiet_env),
    train_setup 5 0 0 "adam" zero_rng zero_rng resume_files = Ok st0 /\
    state_dict (net st0) = model_state_dict resume_checkpoint /\
    (scheduler st0, optimizer st0)
    = StepLR (fresh_optimizer "adam" fresh_net 0).
Proof.
  apply (C7_resume_restores_model_parameters_only R (env := quiet_env)
           5%Z 0%Z 0 "adam" zero_rng zero_rng resume_files
           resume_checkpoint fresh_net).
  - discriminate.
  - exact fresh_net_init.
  - reflexivity.
  - vm_compute. reflexivity.
  - left. reflexivity.
Defined.

(** The checkpoint of epoch 5 holds an optimizer that has taken 7 steps and
    a scheduler that has taken 5; the run resumed from it starts its epochs
    with the model parameters of the checkpoint but with the optimizer and
    the scheduler at 0. *)
Lemma C7_counterexample :
  exists st0 : state (env := quiet_env),
    train_setup 5 0 0 "adam" zero_rng zero_rng resume_files = Ok st0 /\
    state_dict (net st0) = model_state_dict resume_checkpoint /\
    optimizer_state_dict resume_checkpoint = 7%nat /\
    optimizer st0 = 0%nat /\
    optimizer st0 <> optimizer_state_dict resume_checkpoint /\
    scheduler_state_dict resume_checkpoint = 5%nat /\
    scheduler st0 = 0%nat /\
    scheduler st0 <> scheduler_state_dict resume_checkpoint.
Proof.
  eexists. split; [vm_compute; reflexivity|].
  split; [vm_compute; reflexivity|].
  repeat split; try reflexivity; vm_compute; discriminate.
Qed.

Lemma C6_witness :
  exists st : state (env := quiet_env),
    train 0 6 0 "adam" zero_rng zero_rng [] = Ok st /\
    let last := (0 + 6)%Z in
    let last_checkpoint :=
      FCheckpoint {| ck_epoch := last;
                     model_state_dict := state_dict (net st);
                     optimizer_state_dict := optimizer st;
                     scheduler_state_dict := scheduler st |} in
    exists (st0 : state) (loop_log : list event),
      train_setup 0 6 0 "adam" zero_rng zero_rng [] = Ok st0 /\
      trace st
      = trace st0 ++ loop_log ++
        [ETorchSave (ckpt_path ckptdir last) last_checkpoint;
         ETorchSave ckptdir (FStateDict (state_dict (net st)))] /\
      kinds loop_log = flat_map (epoch_kinds 0) (zrange 0 last) /\
      (forall i,
          In (KSave (ckpt_path ckptdir i) (Some i)) (kinds loop_log) <->
          (0 <= i < last)%Z /\ (i mod 5 = 0)%Z /\ i <> 0%Z) /\
      (forall p e,
          In (KSave p e) (kinds loop_log) ->
          exists i, p = ckpt_path ckptdir i /\ e = Some i) /\
      (forall i,
          (0 <= i < last)%Z -> (i mod 5 = 0)%Z -> i <> 0%Z ->
          exists c, read_file (fs st) (ckpt_path ckptdir i) = Some (FCheckpoint c)
                    /\ ck_epoch c = i) /\
      read_file (fs st) (ckpt_path ckptdir last) = Some last_checkpoint /\
      read_file (fs st) ckptdir = Some (FStateDict (state_dict (net st))) /\
      (forall i,
          (0 <= i < last)%Z -> (i mod 5 = 0)%Z -> i <> 0%Z ->
          exists (pre mid post : state) (out later : list event),
            foldM (train_epoch 0) (zrange 0 i) st0 = Ok pre /\
            run_epoch i train_batches pre = Ok mid /\
            train_epoch 0 pre i = Ok post /\
            let checkpoint :=
              FCheckpoint {| ck_epoch := i;
                             model_state_dict := state_dict (net mid);
                             optimizer_state_dict := optimizer mid;
                             scheduler_state_dict := scheduler mid |} in
            trace post
            = trace mid ++ ETorchSave (ckpt_path ckptdir i) checkpoint
                        :: ESync (state_dict (net mid)) :: out /\
            trace st = trace post ++ later /\
            kinds out
            = [KNoGrad true; KEvalCrossEntropy; KEvalNDCG; KNoGrad false] /\
            (forall m, In (EEvalCrossEntropy m) out -> m = net_inference post) /\
            (forall m bsz ks,
                In (EEvalNDCG m bsz ks) out -> m = net_inference post) /\
            state_dict (net_inference post) = state_dict (net mid) /\
            state_dict (net post) = state_dict (net mid) /\
            optimizer post = optimizer mid /\
            scheduler post = scheduler mid /\
            fs post = (ckpt_path ckptdir i, checkpoint) :: fs pre /\
            read_file (fs st) (ckpt_path ckptdir i) = Some checkpoint).
Proof.
  destruct (train (env := quiet_env) 0 6 0 "adam"
                  zero_rng zero_rng []) as [st|e] eqn:Hrun.
  - exists st. split; [reflexivity|].
    exact (C6_checkpoint_schedule R (env := quiet_env)
             0%Z 6%Z 0 "adam" zero_rng zero_rng [] st Hrun).
  - vm_compute in Hrun. discriminate.
Defined.

(** *** The probe under [eval_model] *)

Lemma probe_eval (T : Type) {ops : Scalar T} (clog : T -> T) :
  eval_model (env := script_env clog [] [])
             (one_layer s_one) (one_layer s_zero) (bce_loss clog)
             [probe_pair (T:=T)] tt
  = Ok (set_training false (one_layer s_one), one_layer s_zero,
        [ENoGrad true;
         EPrint (MText true "Eval phase, with batch size of 1000000");
         EPrint (MEvalLoss (Fin (mean_of_one (probe_loss clog s_one))));
         EEvalCrossEntropy (one_layer s_zero);
         EEvalNDCG (one_layer s_zero) 1000000 [10%nat; 30%nat];
         ENoGrad false]).
Proof. reflexivity. Qed.

Lemma probe_inference (T : Type) {ops : Scalar T} (clog : T -> T) :
  inference_pairwise_loss (bce_loss clog) (one_layer s_zero)
                          (as_batch (probe_pair (T:=T)))
  = Ok (Fin (probe_loss clog s_zero)).
Proof. reflexivity. Qed.

Lemma sigmoid_increasing (x y : R) : x < y -> sigmoid x < sigmoid y.
Proof.
  intros H. cbn.
  assert (He : exp (- y) < exp (- x)) by (apply exp_increasing; lra).
  pose proof (exp_pos (- x)). pose proof (exp_pos (- y)).
  unfold Rdiv. rewrite !Rmult_1_l.
  apply Rinv_lt_contravar; [|lra].
  apply Rmult_lt_0_compat; lra.
Qed.

Lemma probe_pred_zero : probe_pred (T:=R) 0 = 1 / 2.
Proof.
  unfold probe_pred, probe_score.
  cbn [s_add s_mul s_sub s_one s_zero RealScalar].
  replace (0 * 1 + 0 + 0) with 0 by ring.
  replace (0 * 0 + 0 + 0) with 0 by ring.
  replace (sigmoid 0 - sigmoid 0) with 0 by ring.
  apply sigmoid_zero.
Qed.

Lemma probe_pred_one : 1 / 2 < probe_pred (T:=R) 1.
Proof.
  unfold probe_pred, probe_score.
  cbn [s_add s_mul s_sub s_one s_zero RealScalar].
  replace (1 * 1 + 0 + 0) with 1 by ring.
  replace (1 * 0 + 0 + 0) with 0 by ring.
  rewrite <- sigmoid_zero. apply sigmoid_increasing.
  pose proof (sigmoid_increasing 0 1). lra.
Qed.

Lemma ln_half_above_clamp : -100 < ln (1 / 2).
Proof.
  replace (1 / 2) with (/ 2) by lra. rewrite ln_Rinv by lra.
  assert (ln 2 < 100); [|lra].
  rewrite <- (ln_exp 100). apply ln_increasing; [lra|].
  pose proof (exp_ineq1 100). lra.
Qed.

Lemma real_clog_above_half (p : R) :
  1 / 2 < p -> real_clog (1 / 2) < real_clog p.
Proof.
  intros Hp. unfold real_clog.
  pose proof ln_half_above_clamp as Hc.
  assert (Hln : ln (1 / 2) < ln p) by (apply ln_increasing; lra).
  rewrite Rmax_left by lra.
  pose proof (Rmax_l (ln p) (-100)). lra.
Qed.

Lemma probe_loss_differs :
  mean_of_one (probe_loss real_clog 1) <> mean_of_one (probe_loss real_clog 0).
Proof.
  unfold mean_of_one, probe_loss, bce_entry.
  cbn [s_add s_mul s_sub s_div s_of_nat s_one s_zero RealScalar INR].
  rewrite probe_pred_zero.
  pose proof (real_clog_above_half _ probe_pred_one) as H.
  lra.
Qed.

Lemma probe_eval_synced (T : Type) {ops : Scalar T} (clog : T -> T) :
  eval_model (env := script_env clog [] [])
             (one_layer s_one) (set_training false (one_layer s_one))
             (bce_loss clog) [probe_pair (T:=T)] tt
  = Ok (set_training false (one_layer s_one),
        set_training false (one_layer s_one),
        [ENoGrad true;
         EPrint (MText true "Eval phase, with batch size of 1000000");
         EPrint (MEvalLoss (Fin (mean_of_one (probe_loss clog s_one))));
         EEvalCrossEntropy (set_training false (one_layer s_one));
         EEvalNDCG (set_training false (one_layer s_one))
                   1000000 [10%nat; 30%nat];
         ENoGrad false]).
Proof. reflexivity. Qed.

Lemma C9_witness :
  let model := one_layer 1 in
  let inference_model := set_training false (one_layer 1) in
  let loss_func := bce_loss real_clog in
  let model' := set_training false (one_layer 1) in
  let batches :=
    map (@as_batch R)
        (generate_query_pair_batch (Environment := real_env [] [])
           tt [probe_pair (T:=R)] 1000000%Z) in
  (fc model' = fc model /\ fc_layers model' = fc_layers model /\
   training model' = false /\ inference_model = inference_model) /\
  (exists ls (body : list (event (env := real_env [] []))),
      mapM (inference_pairwise_loss loss_func inference_model)
           (processed batches) = Ok ls /\
      [ENoGrad true;
       EPrint (MText true "Eval phase, with batch size of 1000000");
       EPrint (MEvalLoss (Fin (mean_of_one (probe_loss real_clog 1))));
       EEvalCrossEntropy inference_model;
       EEvalNDCG inference_model 1000000 [10%nat; 30%nat];
       ENoGrad false]
      = ENoGrad true :: body ++ [ENoGrad false] /\
      (forall flag, ~ In (ENoGrad flag) body) /\
      In (EPrint (MEvalLoss (np_mean ls))) body /\
      (forall v, In (EPrint (MEvalLoss v)) body -> v = np_mean ls) /\
      (forall m, In (EEvalCrossEntropy m) body -> m = inference_model) /\
      (forall m bsz ks, In (EEvalNDCG m bsz ks) body -> m = inference_model)).
Proof.
  exact (C9_eval_model_inference_loss_and_no_mutation R
           (env := real_env [] [])
           (one_layer 1) (set_training false (one_layer 1))
           (bce_loss real_clog)
           [probe_pair (T:=R)] tt
           (set_training false (one_layer 1))
           (set_training false (one_layer 1)) _
           (probe_eval_synced R real_clog) eq_refl eq_refl eq_refl).
Defined.

(** What the sync before the call rules out.  Handed a training model
    [one_layer 1] and an Inference Model [one_layer 0] with other
    parameters, [eval_model] prints the loss of the training model (line 187
    calls [model]); the loss the Inference Model's scores give for the same
    pair is another number. *)
Lemma unsynced_eval_prints_model_loss :
  exists (lA lB : R) (out : list (event (env := real_env [] []))),
    eval_model (env := real_env [] [])
               (one_layer 1) (one_layer 0) (bce_loss real_clog)
               [probe_pair (T:=R)] tt
    = Ok (set_training false (one_layer 1), one_layer 0, out) /\
    In (EPrint (MEvalLoss (Fin lA))) out /\
    (forall v, In (EPrint (MEvalLoss v)) out -> v = Fin lA) /\
    (ls <- mapM (inference_pairwise_loss (bce_loss real_clog) (one_layer 0))
             (processed [as_batch (probe_pair (T:=R))]) ;;
     Ok (np_mean ls)) = Ok (Fin lB) /\
    lA <> lB.
Proof.
  exists (mean_of_one (probe_loss real_clog 1)),
         (mean_of_one (probe_loss real_clog 0)).
  eexists. split; [exact (probe_eval R real_clog)|].
  split; [right; right; left; reflexivity|]. split.
  - intros v [H | [H | [H | [H | [H | [H | []]]]]]]; try discriminate.
    injection H as <-. reflexivity.
  - split; [|exact probe_loss_differs].
    change (processed [as_batch (probe_pair (T:=R))]) with [as_batch (probe_pair (T:=R))].
    assert (H : inference_pairwise_loss (bce_loss real_clog) (one_layer 0)
                  (as_batch (probe_pair (T:=R)))
                = Ok (Fin (probe_loss real_clog 0)))
      by exact (probe_inference R real_clog).
    cbn [mapM]. rewrite H. reflexivity.
Qed.

End Instances.

(** * Further properties of the code *)

(** ** Construction, state dictionaries and malformed inputs *)

Section NetworkExtras.

Variable T : Type.
Context {ops : Scalar T}.

Lemma init_layers_shapes (g : rng T) (ns : list nat) (n : nat) :
  forall (rest : list nat) (w : nat) (pre : list nat),
    ns = pre ++ w :: rest ->
    map (@shape_of T)
      (map (fun i => nn_Linear g (i + 1) (nth i ns 0) (nth (i + 1) ns 0))
           (seq (length pre) (length rest))
       ++ [nn_Linear g n (last (w :: rest) 0) 1])
    = combine (w :: rest) (rest ++ [1]).
Proof.
  induction rest as [|w' rest' IH]; intros w pre Hns.
  - cbn [length seq map app last combine].
    unfold shape_of. destruct (nn_Linear_wf T g n w 1) as [_ [-> ->]].
    reflexivity.
  - cbn [length seq map app].
    assert (Hw : nth (length pre) ns 0 = w).
    { rewrite Hns, app_nth2 by lia. rewrite Nat.sub_diag. reflexivity. }
    assert (Hw' : nth (length pre + 1) ns 0 = w').
    { rewrite Hns, app_nth2 by lia.
      replace (length pre + 1 - length pre) with 1 by lia. reflexivity. }
    rewrite Hw, Hw'.
    specialize (IH w' (pre ++ [w])).
    rewrite length_app in IH. simpl length in IH.
    replace (length pre + 1) with (S (length pre)) in * by lia.
    change (last (w :: w' :: rest') 0) with (last (w' :: rest') 0).
    cbn [map combine app]. f_equal.
    + unfold shape_of.
      destruct (nn_Linear_wf T g (S (length pre)) w w') as [_ [-> ->]].
      reflexivity.
    + apply IH. rewrite Hns, <- app_assoc. reflexivity.
Qed.

Lemma init_layers_wf (g : rng T) (net_structures : list nat) (net : RankNet T) :
  RankNet_init g net_structures = Ok net -> Forall (@linear_wf T) (fc net).
Proof.
  unfold RankNet_init. destruct (rev net_structures) as [|w tl]; [discriminate|].
  intros H. injection H as <-. cbn [fc].
  apply Forall_app. split.
  - apply Forall_map, Forall_forall. intros i _. apply nn_Linear_wf.
  - constructor; [apply nn_Linear_wf | constructor].
Qed.

Lemma RankNet_init_shapes (g : rng T) (net_structures : list nat)
    (net : RankNet T) :
  RankNet_init g net_structures = Ok net ->
  map (@shape_of T) (fc net) = layer_shapes net_structures /\
  fc_layers net = length net_structures /\
  training net = true.
Proof.
  intros H. pose proof H as H0. unfold RankNet_init in H.
  destruct (rev net_structures) as [|w ws] eqn:Hrev; [discriminate|].
  injection H as <-. cbn [fc fc_layers training].
  destruct (rev_head_last net_structures w ws Hrev) as [Hlast Hne].
  split; [|split; reflexivity].
  destruct net_structures as [|w0 rest]; [congruence|].
  unfold range, layer_shapes. cbn [length tl].
  rewrite Nat.sub_0_r, Nat.sub_succ, Nat.sub_0_r, <- Hlast.
  apply (init_layers_shapes g (w0 :: rest) (S (length rest)) rest w0 []).
  reflexivity.
Qed.

(** X1.  [RankNet.__init__] raises [IndexError] on the empty structure; on a
    non-empty one it builds as many linear layers as the structure has
    widths (not one less): every width feeds the next one and the last
    width feeds a single output, all layers are well formed, and the module
    starts in training mode. *)
Theorem X1_constructor_layers (g : rng T) (net_structures : list nat) :
  net_structures <> [] ->
  RankNet_init g [] = Err IndexError /\
  exists net,
    RankNet_init g net_structures = Ok net /\
    fc_layers net = length net_structures /\
    length (fc net) = length net_structures /\
    map (@shape_of T) (fc net) = layer_shapes net_structures /\
    Forall (@linear_wf T) (fc net) /\
    network_of_width (hd 0 net_structures) net /\
    training net = true.
Proof.
  intros Hne. split; [reflexivity|].
  destruct (RankNet_init_ok T g net_structures Hne) as [net [Hinit [Hw Ht]]].
  destruct (RankNet_init_shapes g net_structures net Hinit) as [Hs [Hn _]].
  exists net. split; [exact Hinit|]. split; [exact Hn|].
  split; [destruct Hw as [Hl _]; congruence|].
  split; [exact Hs|]. split; [exact (init_layers_wf g _ _ Hinit)|].
  split; assumption.
Qed.

Lemma same_shapes_of_shapes :
  forall a b : list (Linear T),
    map (@shape_of T) a = map (@shape_of T) b ->
    Forall (@linear_wf T) a -> Forall (@linear_wf T) b ->
    same_shapes a b = true.
Proof.
  induction a as [|x a IH]; intros [|y b] Hs Ha Hb; try discriminate;
    [reflexivity|].
  cbn [map] in Hs. injection Hs as Hin Hout Hs.
  inversion Ha as [|? ? [_ Hbx] Ha']; subst.
  inversion Hb as [|? ? [_ Hby] Hb']; subst.
  cbn [same_shapes]. rewrite (IH b Hs Ha' Hb'), andb_true_r.
  unfold same_shape, out_features in *.
  rewrite Hin, Hbx, Hby, Hout, !Nat.eqb_refl. reflexivity.
Qed.

(** X2.  Two modules constructed from the same structure are compatible
    whatever their random initial values: the strict [load_state_dict] of
    one's state dictionary into the other succeeds, and leaves the target
    with the source's parameters, its own layer count and its own mode. *)
Theorem X2_same_structure_sync (g g' : rng T) (net_structures : list nat) :
  net_structures <> [] ->
  exists a b,
    RankNet_init g net_structures = Ok a /\
    RankNetInference_init g' net_structures = Ok b /\
    load_state_dict (set_training false b) (state_dict a)
    = Ok {| fc_layers := fc_layers b; fc := fc a; training := false |}.
Proof.
  intros Hne.
  destruct (RankNet_init_ok T g net_structures Hne) as [a [Ha _]].
  destruct (RankNet_init_ok T g' net_structures Hne) as [b [Hb _]].
  exists a, b. split; [exact Ha|]. split; [exact Hb|].
  destruct (RankNet_init_shapes g _ _ Ha) as [Hsa _].
  destruct (RankNet_init_shapes g' _ _ Hb) as [Hsb _].
  unfold load_state_dict, state_dict. cbn [fc set_training fc_layers training].
  rewrite same_shapes_of_shapes; [reflexivity | congruence | |].
  - exact (init_layers_wf g' _ _ Hb).
  - exact (init_layers_wf g _ _ Ha).
Qed.

Lemma same_shapes_sym :
  forall a b : list (Linear T), same_shapes a b = same_shapes b a.
Proof.
  induction a as [|x a IH]; intros [|y b]; try reflexivity.
  cbn [same_shapes]. rewrite IH. f_equal. unfold same_shape.
  rewrite (Nat.eqb_sym (in_features x)), (Nat.eqb_sym (length (weight x))),
    (Nat.eqb_sym (length (bias x))). reflexivity.
Qed.

(** A strict load can be undone: after [load_state_dict(sd)] succeeds
    the module reads back [sd] and keeps its layer count and mode, and
    loading the state dictionary it had before restores the module
    exactly. *)
Lemma load_state_dict_round_trip (m m' : RankNet T) (sd : list (Linear T)) :
  load_state_dict m sd = Ok m' ->
  state_dict m' = sd /\
  fc_layers m' = fc_layers m /\
  training m' = training m /\
  load_state_dict m' (state_dict m) = Ok m.
Proof.
  unfold load_state_dict, state_dict.
  destruct (same_shapes (fc m) sd) eqn:Hs; [|discriminate].
  intros H. injection H as <-. cbn [fc fc_layers training].
  repeat split. rewrite same_shapes_sym, Hs. destruct m; reflexivity.
Qed.

Lemma load_state_dict_refuses_length (m : RankNet T) (sd : list (Linear T)) :
  length sd <> length (fc m) ->
  load_state_dict m sd = Err RuntimeError.
Proof.
  intros Hlen. unfold load_state_dict.
  destruct (same_shapes (fc m) sd) eqn:Hs; [|reflexivity].
  apply same_shapes_length in Hs. congruence.
Qed.

Lemma same_shapes_nth (a b : list (Linear T)) :
  same_shapes a b = true ->
  forall k x y, nth_error a k = Some x -> nth_error b k = Some y ->
                same_shape x y = true.
Proof.
  revert b. induction a as [|x0 a IH]; intros [|y0 b] H k x y Hx Hy;
    try discriminate; [destruct k; discriminate|].
  cbn [same_shapes] in H. apply andb_true_iff in H. destruct H as [H0 H].
  destruct k as [|k]; cbn [nth_error] in Hx, Hy.
  - congruence.
  - exact (IH b H k x y Hx Hy).
Qed.

(** The strict load refuses what does not fit: a state dictionary with
    another number of layers than the module, or with a layer whose input
    or output width differs from the module's layer at the same position,
    makes [load_state_dict] raise. *)
Lemma load_state_dict_refuses_misfits
    (m : RankNet T) (sd : list (Linear T)) :
  (length sd <> length (fc m) \/
   exists k x y,
     nth_error (fc m) k = Some x /\ nth_error sd k = Some y /\
     shape_of x <> shape_of y) ->
  load_state_dict m sd = Err RuntimeError.
Proof.
  intros [Hlen | [k [x [y [Hx [Hy Hne]]]]]].
  - exact (load_state_dict_refuses_length m sd Hlen).
  - unfold load_state_dict.
    destruct (same_shapes (fc m) sd) eqn:Hs; [|reflexivity].
    exfalso. apply Hne.
    pose proof (same_shapes_nth _ _ Hs k x y Hx Hy) as H.
    unfold same_shape in H.
    apply andb_true_iff in H. destruct H as [H Hb].
    apply andb_true_iff in H. destruct H as [Hi Hw].
    apply Nat.eqb_eq in Hi, Hw. unfold shape_of, out_features. congruence.
Qed.

End NetworkExtras.

(** ** Inputs of the wrong shape *)

Section ShapeExtras.

Variable T : Type.
Context {ops : Scalar T}.

Lemma linear_error_kind (l : Linear T) (x : tensor T) (e : exn) :
  linear l x = Err e -> e = RuntimeError.
Proof.
  unfold linear. induction x as [|row x IH]; cbn [mapM]; [discriminate|].
  unfold linear_row at 1.
  destruct (length row =? in_features l); cbn [bind]; [|congruence].
  destruct (mapM (linear_row l) x) as [r|e']; cbn [bind]; [discriminate|].
  intros H. injection H as <-. apply IH. reflexivity.
Qed.

Lemma linear_wrong_width (l : Linear T) (x : tensor T) :
  Exists (fun row => length row <> in_features l) x ->
  linear l x = Err RuntimeError.
Proof.
  intros Hbad. destruct (linear l x) as [r|e] eqn:Hl.
  - exfalso. unfold linear in Hl. revert r Hl.
    induction Hbad as [row x Hrow | row x _ IH]; intros r Hl;
      cbn [mapM] in Hl; apply bind_Ok in Hl; destruct Hl as [b [Hb Hl]].
    + unfold linear_row in Hb.
      destruct (Nat.eqb_spec (length row) (in_features l)); [contradiction|].
      discriminate.
    + apply bind_Ok in Hl. destruct Hl as [bs [Hbs _]]. exact (IH bs Hbs).
  - f_equal. exact (linear_error_kind l x e Hl).
Qed.

Lemma first_layer (w : nat) (net : RankNet T) :
  network_of_width w net ->
  exists l rest,
    fc net = l :: rest /\ fc_layers net = S (length rest) /\
    in_features l = w /\ getattr_fc net 1 = Ok l.
Proof.
  intros [Hn Hc]. destruct (fc net) as [|l rest] eqn:Hfc; [destruct Hc|].
  exists l, rest. destruct Hc as [_ [Hin _]].
  repeat split; try assumption.
  unfold getattr_fc. rewrite Hfc. reflexivity.
Qed.

(** X3.  A network of input width [w] refuses a batch that has a row of
    another width, on either side: the pairwise forward pass and the
    inference forward pass raise, they never compute with a truncated or
    padded row. *)
Theorem X3_wrong_width_raises (w : nat) (net : RankNet T) (x1 x2 : tensor T) :
  network_of_width w net ->
  Exists (fun row => length row <> w) x1 \/
  Exists (fun row => length row <> w) x2 ->
  forward net x1 x2 = Err RuntimeError /\
  (Exists (fun row => length row <> w) x1 ->
   RankNetInference_forward net x1 = Err RuntimeError).
Proof.
  intros Hnet Hbad.
  destruct (first_layer w net Hnet) as [l [rest [Hfc [Hn [Hin Hget]]]]].
  subst w.
  assert (Hsides : forward_sides net x1 x2 = Err RuntimeError).
  { assert (Hlayer : (a <- linear l x1 ;; b <- linear l x2 ;;
                      Ok (tensor_relu a, tensor_relu b)) = Err RuntimeError
                     /\ forall k : tensor T * tensor T -> result (tensor T * tensor T),
                        (a <- linear l x1 ;; b <- linear l x2 ;; k (a, b))
                        = Err RuntimeError).
    { assert (Hk : forall k : tensor T * tensor T -> result (tensor T * tensor T),
                 (a <- linear l x1 ;; b <- linear l x2 ;; k (a, b))
                 = Err RuntimeError).
      { intros k. destruct (linear l x1) as [a|e] eqn:H1; cbn [bind].
        - destruct Hbad as [Hbad | Hbad].
          + rewrite (linear_wrong_width l x1 Hbad) in H1. discriminate.
          + rewrite (linear_wrong_width l x2 Hbad). reflexivity.
        - f_equal. exact (linear_error_kind l x1 e H1). }
      split; [|exact Hk].
      exact (Hk (fun p => Ok (tensor_relu (fst p), tensor_relu (snd p)))). }
    destruct Hlayer as [Hloop Hlast].
    unfold forward_sides, range. rewrite Hn. cbn [Nat.sub].
    rewrite Nat.sub_0_r.
    destruct rest as [|l' rest'].
    - cbn [length seq foldM bind fst snd]. rewrite Hget. cbn [bind].
      exact (Hlast (fun p => Ok (tensor_sigmoid (fst p), tensor_sigmoid (snd p)))).
    - cbn [length seq foldM fst snd]. rewrite Hget. cbn [bind].
      rewrite Hloop. reflexivity. }
  split.
  - unfold forward. rewrite Hsides. reflexivity.
  - intros Hbad1. rewrite inference_forward_score by (destruct Hnet; assumption).
    rewrite Hfc. cbn [score]. rewrite (linear_wrong_width l x1 Hbad1).
    reflexivity.
Qed.

Lemma broadcast_mismatch {A B C : Type} (e : exn) (f : A -> B -> result C)
    (a : list A) (b : list B) :
  length a <> length b -> length a <> 1 -> length b <> 1 ->
  broadcast e f a b = Err e.
Proof.
  intros Hab Ha Hb. unfold broadcast.
  destruct (Nat.eqb_spec (length a) (length b)); [contradiction|].
  destruct a as [|a1 [|a2 a']]; destruct b as [|b1 [|b2 b']];
    cbn in *; try reflexivity; exfalso; auto.
Qed.

(** X4.  Two batches of the right width but of different lengths, neither
    of length one, cannot be paired: each side scores on its own, but the
    pairwise forward pass raises at the subtraction. *)
Theorem X4_length_mismatch_raises
    (w : nat) (net : RankNet T) (x1 x2 : tensor T) :
  network_of_width w net ->
  batch_of_width w x1 -> batch_of_width w x2 ->
  length x1 <> length x2 -> length x1 <> 1 -> length x2 <> 1 ->
  (exists s1 s2,
      RankNetInference_forward net x1 = Ok s1 /\
      RankNetInference_forward net x2 = Ok s2) /\
  forward net x1 x2 = Err RuntimeError.
Proof.
  intros [Hn Hc] Hx1 Hx2 Hne H1 H2.
  destruct (score_ok T (fc net) w x1 Hc Hx1) as [s1 [Hs1 [_ Hl1]]].
  destruct (score_ok T (fc net) w x2 Hc Hx2) as [s2 [Hs2 [_ Hl2]]].
  split.
  - exists s1, s2. rewrite !inference_forward_score by exact Hn. auto.
  - unfold forward.
    assert (Hsides : forward_sides net x1 x2 = Ok (s1, s2)).
    { apply forward_sides_score; [exact Hn | split; assumption]. }
    rewrite Hsides. cbn [bind fst snd]. unfold tensor_sub.
    rewrite broadcast_mismatch by congruence. reflexivity.
Qed.

Lemma broadcast_row (c1 : T) (c2 : list T) :
  broadcast RuntimeError (broadcast RuntimeError (fun x y => Ok (s_sub x y)))
            (column [c1]) (column c2)
  = Ok (column (map (fun s2 => s_sub c1 s2) c2)).
Proof.
  assert (Hmap : mapM (broadcast RuntimeError (fun x y : T => Ok (s_sub x y)) [c1])
                      (column c2)
                 = Ok (column (map (fun s2 => s_sub c1 s2) c2))).
  { induction c2 as [|b c2 IH]; [reflexivity|].
    unfold column in *. cbn [map mapM]. rewrite IH. reflexivity. }
  unfold broadcast at 1.
  destruct (Nat.eqb_spec (length (column [c1])) (length (column c2))) as [He|He].
  - destruct c2 as [|b [|b' c2]]; try discriminate. reflexivity.
  - cbn [column map]. exact Hmap.
Qed.

(** X5.  One item against a batch: when the first input is a single row,
    the forward pass compares it with every row of the second input and
    returns one probability per row, [sigmoid (score x - score x2_k)]. *)
Theorem X5_single_row_broadcast
    (w : nat) (net : RankNet T) (x : list T) (x2 : tensor T) :
  network_of_width w net ->
  length x = w -> batch_of_width w x2 ->
  exists (s : T) (c2 : list T),
    RankNetInference_forward net [x] = Ok (column [s]) /\
    RankNetInference_forward net x2 = Ok (column c2) /\
    length c2 = length x2 /\
    forward net [x] x2
    = Ok (column (map (fun s2 => sigmoid (s_sub s s2)) c2)).
Proof.
  intros [Hn Hc] Hx Hx2.
  assert (Hx1 : batch_of_width w [x]) by (constructor; [exact Hx | constructor]).
  destruct (score_ok T (fc net) w [x] Hc Hx1) as [s1 [Hs1 [Hw1 Hl1]]].
  destruct (score_ok T (fc net) w x2 Hc Hx2) as [s2 [Hs2 [Hw2 Hl2]]].
  destruct (batch_of_width_1_column T s1 Hw1) as [c1 [-> Hc1]].
  destruct (batch_of_width_1_column T s2 Hw2) as [c2 [-> Hc2]].
  destruct c1 as [|s [|s' c1]]; cbn in Hc1, Hl1; try lia.
  exists s, c2. rewrite !inference_forward_score by exact Hn.
  split; [exact Hs1|]. split; [exact Hs2|]. split; [congruence|].
  unfold forward.
  assert (Hsides : forward_sides net [x] x2 = Ok (column [s], column c2)).
  { apply forward_sides_score; [exact Hn | split; assumption]. }
  rewrite Hsides. cbn [bind fst snd]. unfold tensor_sub.
  rewrite broadcast_row. cbn [bind].
  unfold tensor_sigmoid, column. rewrite !map_map. reflexivity.
Qed.

End ShapeExtras.

(** ** What the probabilities say about the scores, in exact arithmetic *)

Section RankingExtras.

Local Open Scope R_scope.

Lemma sigmoid_lt_iff (x y : R) : sigmoid x < sigmoid y <-> x < y.
Proof.
  split; [|apply sigmoid_increasing].
  intros H. destruct (Rtotal_order x y) as [Hlt | [Heq | Hgt]]; [exact Hlt| |].
  - subst. lra.
  - pose proof (sigmoid_increasing y x Hgt). lra.
Qed.

Lemma sigmoid_half_iff (d : R) :
  (sigmoid d < 1 / 2 <-> d < 0) /\
  (sigmoid d = 1 / 2 <-> d = 0) /\
  (1 / 2 < sigmoid d <-> 0 < d).
Proof.
  rewrite <- sigmoid_zero. split; [apply sigmoid_lt_iff|].
  split; [|apply sigmoid_lt_iff].
  split; [|intros ->; reflexivity].
  intros H. destruct (Rtotal_order d 0) as [Hlt | [Heq | Hgt]]; [|exact Heq|].
  - pose proof (sigmoid_increasing d 0 Hlt). lra.
  - pose proof (sigmoid_increasing 0 d Hgt). lra.
Qed.

Lemma forward_rows (w : nat) (net : RankNet R) (a b : list R) :
  network_of_width w net -> length a = w -> length b = w ->
  exists sa sb : R,
    score (fc net) [a] = Ok (column [sa]) /\
    score (fc net) [b] = Ok (column [sb]) /\
    forward net [a] [b] = Ok (column [sigmoid (sa - sb)]).
Proof.
  intros Hnet Ha Hb.
  assert (Hwa : batch_of_width w [a]) by (constructor; [exact Ha | constructor]).
  assert (Hwb : batch_of_width w [b]) by (constructor; [exact Hb | constructor]).
  destruct (forward_columns R w net [a] [b] Hnet Hwa Hwb eq_refl)
    as [c1 [c2 [Hs1 [Hs2 [Hl1 [Hl2 Hf]]]]]].
  destruct c1 as [|sa [|? ?]]; try discriminate.
  destruct c2 as [|sb [|? ?]]; try discriminate.
  exists sa, sb. auto.
Qed.

Lemma column_one_inj (u v : R) : column [u] = column [v] -> u = v.
Proof. intros H. injection H as H. exact H. Qed.

(** X8.  The preferences of the Pairwise Model have no cycles: when it
    puts [a] above [b] and [b] above [c] with probability above 1/2, it
    puts [a] above [c] with probability above 1/2. *)
Theorem X8_preference_transitive
    (w : nat) (net : RankNet R) (a b c : list R) :
  network_of_width w net ->
  length a = w -> length b = w -> length c = w ->
  exists pab pbc pac : R,
    forward net [a] [b] = Ok (column [pab]) /\
    forward net [b] [c] = Ok (column [pbc]) /\
    forward net [a] [c] = Ok (column [pac]) /\
    (1 / 2 < pab -> 1 / 2 < pbc -> 1 / 2 < pac).
Proof.
  intros Hnet Ha Hb Hc.
  destruct (forward_rows w net a b Hnet Ha Hb) as [sa [sb [Hsa [Hsb Hab]]]].
  destruct (forward_rows w net b c Hnet Hb Hc) as [sb' [sc [Hsb' [Hsc Hbc]]]].
  destruct (forward_rows w net a c Hnet Ha Hc) as [sa' [sc' [Hsa' [Hsc' Hac]]]].
  assert (sb' = sb) by (apply column_one_inj; congruence).
  assert (sa' = sa) by (apply column_one_inj; congruence).
  assert (sc' = sc) by (apply column_one_inj; congruence).
  subst sb' sa' sc'.
  exists (sigmoid (sa - sb)), (sigmoid (sb - sc)), (sigmoid (sa - sc)).
  split; [exact Hab|]. split; [exact Hbc|]. split; [exact Hac|].
  intros H1 H2.
  apply sigmoid_half_iff in H1. apply sigmoid_half_iff in H2.
  apply sigmoid_half_iff. lra.
Qed.

End RankingExtras.

(** ** Starting, resuming and ending a run *)

Section RunExtras.

Variable T : Type.
Context {ops : Scalar T} {env : Environment T}.

Lemma fresh_networks (g g_inference : rng T) :
  exists net0 inf0 : RankNet T,
    RankNet_init g ranknet_structure = Ok net0 /\
    RankNet_init g_inference ranknet_structure = Ok inf0 /\
    length (fc net0) = 3.
Proof.
  destruct (RankNet_init_ok T g ranknet_structure) as [net0 [Hnet [[Hn _] _]]];
    [discriminate|].
  destruct (RankNet_init_ok T g_inference ranknet_structure) as [inf0 [Hinf _]];
    [discriminate|].
  exists net0, inf0. split; [exact Hnet|]. split; [exact Hinf|].
  destruct (RankNet_init_shapes T g _ _ Hnet) as [_ [Hl _]].
  rewrite <- Hn, Hl. reflexivity.
Qed.

(** X9.  An optimizer name other than ["adam"] and ["sgd"] aborts [train]
    with the [ValueError] of line 99, whatever the other arguments and
    whatever files exist: no checkpoint is read and no epoch is run. *)
Theorem X9_unsupported_optimizer
    (start_epoch additional_epoch : Z) (lr : T) (optim : string)
    (g g_inference : rng T) (files : filesystem) :
  optim <> "adam"%string -> optim <> "sgd"%string ->
  train start_epoch additional_epoch lr optim g g_inference files
  = Err (ValueError ("Optimization method " ++ optim ++ " not implemented")).
Proof.
  intros Ha Hs.
  destruct (fresh_networks g g_inference) as [net0 [inf0 [Hnet [Hinf _]]]].
  unfold train, train_setup, RankNetInference_init.
  rewrite Hnet, Hinf. cbn [bind].
  apply String.eqb_neq in Ha. apply String.eqb_neq in Hs.
  rewrite Ha, Hs. reflexivity.
Qed.

(** X10.  With [start_epoch = 0] no checkpoint is looked for: the run starts
    from the freshly constructed network and prints no loader message, even
    when a file [<base>_0] exists. *)
Theorem X10_start_zero_never_loads
    (additional_epoch : Z) (lr : T) (optim : string)
    (g g_inference : rng T) (files : filesystem) :
  optim = "adam"%string \/ optim = "sgd"%string ->
  exists (net0 inf0 : RankNet T) (st0 : state),
    RankNet_init g ranknet_structure = Ok net0 /\
    RankNetInference_init g_inference ranknet_structure = Ok inf0 /\
    train_setup 0 additional_epoch lr optim g g_inference files = Ok st0 /\
    net st0 = net0 /\
    net_inference st0 = set_training false inf0 /\
    losses st0 = [] /\
    fs st0 = files /\
    trace st0 = [EPrint (MStart 0 additional_epoch lr);
                 EPrint (MModule net0);
                 EPrint (MModule (set_training false inf0));
                 EPrint (MOptimizer (fresh_optimizer optim net0 lr))].
Proof.
  intros Hopt.
  destruct (fresh_networks g g_inference) as [net0 [inf0 [Hnet [Hinf _]]]].
  exists net0, inf0. eexists. split; [exact Hnet|]. split; [exact Hinf|].
  split.
  - apply (train_setup_unfold T 0%Z additional_epoch lr optim g g_inference
             files net0 inf0 net0 [] Hnet Hinf Hopt).
    reflexivity.
  - cbn [net net_inference losses fs trace]. rewrite app_nil_r.
    repeat split.
Qed.

(** X11.  A checkpoint file that exists but cannot be used is fatal, unlike
    a missing one: a resume from a file that holds a bare state dictionary
    aborts with [KeyError] at line 207, and one from a checkpoint whose
    model has not three layers aborts with the [RuntimeError] of the strict
    [load_state_dict]. *)
Theorem X11_unusable_checkpoint_is_fatal
    (start_epoch additional_epoch : Z) (lr : T) (optim : string)
    (g g_inference : rng T) (files : filesystem) (f : file) :
  start_epoch <> 0%Z ->
  optim = "adam"%string \/ optim = "sgd"%string ->
  read_file files (ckpt_path ckptdir start_epoch) = Some f ->
  match f with
  | FCheckpoint c => length (model_state_dict c) <> 3
  | FStateDict _ => True
  | FOther _ => False
  end ->
  train start_epoch additional_epoch lr optim g g_inference files
  = Err match f with
        | FStateDict _ => KeyError
        | _ => RuntimeError
        end.
Proof.
  intros Hstart Hopt Hread Hf.
  destruct (fresh_networks g g_inference) as [net0 [inf0 [Hnet [Hinf Hlen]]]].
  unfold train, train_setup, RankNetInference_init.
  rewrite Hnet, Hinf. cbn [bind].
  assert (Ho : (if String.eqb optim "adam" then Ok (Adam net0 lr)
                else if String.eqb optim "sgd" then Ok (SGD net0 lr)
                else Err (ValueError
                       ("Optimization method " ++ optim ++ " not implemented")))
               = Ok (fresh_optimizer optim net0 lr)).
  { unfold fresh_optimizer. destruct Hopt as [-> | ->]; reflexivity. }
  rewrite Ho. cbn [bind].
  destruct (StepLR (fresh_optimizer optim net0 lr)) as [sched0 opt1].
  assert (Hne : negb (start_epoch =? 0)%Z = true).
  { apply negb_true_iff, Z.eqb_neq. exact Hstart. }
  rewrite Hne. fold (@ckptdir T ops env).
  unfold load_from_ckpt, isfile. rewrite Hread.
  destruct f as [c | sd |]; [ | reflexivity | contradiction ].
  rewrite (load_state_dict_refuses_length T net0 (model_state_dict c));
    [reflexivity | congruence].
Qed.

End RunExtras.

(** ** What an epoch touches *)

Section FrameExtras.

Variable T : Type.
Context {ops : Scalar T} {env : Environment T}.

Lemma train_batch_frame (i : Z) (v v' : epoch_vars) (b : Batch T) :
  train_batch i v b = Ok v' ->
  losses (ev_state v') = losses (ev_state v) /\
  net_inference (ev_state v') = net_inference (ev_state v) /\
  scheduler (ev_state v') = scheduler (ev_state v) /\
  fs (ev_state v') = fs (ev_state v) /\
  training (net (ev_state v')) = training (net (ev_state v)).
Proof.
  unfold train_batch. destruct (skip_batch b).
  - intros H. injection H as <-. auto.
  - intros H.
    apply bind_Ok in H. destruct H as [xi [_ H]].
    apply bind_Ok in H. destruct H as [xj [_ H]].
    apply bind_Ok in H. destruct H as [yi [_ H]].
    apply bind_Ok in H. destruct H as [yj [_ H]].
    apply bind_Ok in H. destruct H as [y [_ H]].
    apply bind_Ok in H. destruct H as [y_pred [_ H]].
    apply bind_Ok in H. destruct H as [loss [_ H]].
    destruct (backward_step _ _ _ _ _) as [o' p'].
    injection H as <-. cbn. auto.
Qed.

Lemma batches_frame (i : Z) :
  forall (bs : list (Batch T)) (v v' : epoch_vars),
    foldM (train_batch i) bs v = Ok v' ->
    losses (ev_state v') = losses (ev_state v) /\
    net_inference (ev_state v') = net_inference (ev_state v) /\
    scheduler (ev_state v') = scheduler (ev_state v) /\
    fs (ev_state v') = fs (ev_state v) /\
    training (net (ev_state v')) = training (net (ev_state v)).
Proof.
  induction bs as [|b bs IH]; intros v v' H.
  - injection H as <-. auto.
  - cbn [foldM] in H. apply bind_Ok in H. destruct H as [v1 [Hb Hrest]].
    destruct (train_batch_frame i v v1 b Hb) as [H1 [H2 [H3 [H4 H5]]]].
    destruct (IH v1 v' Hrest) as [G1 [G2 [G3 [G4 G5]]]].
    repeat split; congruence.
Qed.

Lemma run_epoch_frame (i : Z) (bs : list (Batch T)) (st st' : state) :
  run_epoch i bs st = Ok st' ->
  (exists m, losses st' = losses st ++ [m]) /\
  net_inference st' = net_inference st /\
  scheduler st' = fst (scheduler_step (scheduler st) (optimizer st)) /\
  fs st' = fs st /\
  training (net st') = true.
Proof.
  unfold run_epoch.
  destruct (scheduler_step (scheduler st) (optimizer st)) as [s' o'].
  intros H. apply bind_Ok in H. destruct H as [v [Hloop H]].
  injection H as <-. cbn [losses net_inference scheduler fs net fst].
  destruct (batches_frame i bs _ v Hloop) as [H1 [H2 [H3 [H4 H5]]]].
  cbn [ev_state losses net_inference scheduler fs net set_training training]
    in H1, H2, H3, H4, H5.
  split; [eexists; rewrite H1; reflexivity|]. auto.
Qed.

Lemma checkpoint_and_eval_frame (ckptfile : string) (start_epoch i : Z)
    (df_valid : dataframe) (valid_loader : loader) (st st' : state) :
  checkpoint_and_eval ckptfile start_epoch i df_valid valid_loader st = Ok st' ->
  losses st' = losses st /\
  scheduler st' = scheduler st /\
  optimizer st' = optimizer st /\
  state_dict (net st') = state_dict (net st) /\
  (checkpoint_due start_epoch i = false -> st' = st).
Proof.
  unfold checkpoint_and_eval. fold (checkpoint_due start_epoch i).
  destruct (checkpoint_due start_epoch i).
  - intros H. apply bind_Ok in H. destruct H as [inf' [_ H]].
    apply bind_Ok in H. destruct H as [[[m' i'] out] [Heval H]].
    injection H as <-. cbn [losses scheduler optimizer net save_to_ckpt torch_save].
    unfold eval_model in Heval.
    apply bind_Ok in Heval. destruct Heval as [v [_ Heval]].
    injection Heval as <- _ _.
    repeat split. discriminate.
  - intros H. injection H as <-. auto.
Qed.

(** X12.  Between checkpoints the Inference Model is a stale snapshot and
    the files are left alone: an epoch in which no checkpoint is due leaves
    the Inference Model and the file system exactly as they were, while
    appending one entry to the epoch losses, stepping the scheduler once
    and leaving the training model in training mode. *)
Theorem X12_epoch_without_checkpoint
    (start_epoch i : Z) (st st' : state) :
  train_epoch start_epoch st i = Ok st' ->
  checkpoint_due start_epoch i = false ->
  net_inference st' = net_inference st /\
  fs st' = fs st /\
  (exists m, losses st' = losses st ++ [m]) /\
  scheduler st' = fst (scheduler_step (scheduler st) (optimizer st)) /\
  training (net st') = true.
Proof.
  unfold train_epoch.
  destruct (load_train_vali_data "Fold1")
    as [[[data_loader df] valid_loader] df_valid].
  intros H Hdue. apply bind_Ok in H. destruct H as [st1 [Hrun Hck]].
  destruct (run_epoch_frame _ _ _ _ Hrun) as [Hl [Hi [Hs [Hf Ht]]]].
  destruct (checkpoint_and_eval_frame _ _ _ _ _ _ _ Hck) as [_ [_ [_ [_ Hsame]]]].
  rewrite (Hsame Hdue). auto.
Qed.

Lemma train_epoch_losses (start_epoch i : Z) (st st' : state) :
  train_epoch start_epoch st i = Ok st' ->
  length (losses st') = S (length (losses st)).
Proof.
  unfold train_epoch.
  destruct (load_train_vali_data "Fold1")
    as [[[data_loader df] valid_loader] df_valid].
  intros H. apply bind_Ok in H. destruct H as [st1 [Hrun Hck]].
  destruct (run_epoch_frame _ _ _ _ Hrun) as [[m Hl] _].
  destruct (checkpoint_and_eval_frame _ _ _ _ _ _ _ Hck) as [Hl' _].
  rewrite Hl', Hl, length_app. simpl. lia.
Qed.

Lemma epochs_losses (start_epoch : Z) :
  forall (epochs : list Z) (st st' : state),
    foldM (train_epoch start_epoch) epochs st = Ok st' ->
    length (losses st') = length (losses st) + length epochs.
Proof.
  induction epochs as [|i epochs IH]; intros st st' H.
  - injection H as <-. simpl. lia.
  - cbn [foldM] in H. apply bind_Ok in H. destruct H as [st1 [Hi Hrest]].
    rewrite (IH _ _ Hrest), (train_epoch_losses _ _ _ _ Hi). simpl. lia.
Qed.

Lemma length_zrange (lo hi : Z) : length (zrange lo hi) = Z.to_nat (hi - lo).
Proof. unfold zrange. rewrite length_map, length_seq. reflexivity. Qed.

Lemma load_from_ckpt_quiet (files : filesystem) (base : string) (epoch : Z)
    (model model' : RankNet T) (out : list event) :
  load_from_ckpt files base epoch model = Ok (model', out) ->
  kinds out = [].
Proof.
  unfold load_from_ckpt. destruct (isfile files (ckpt_path base epoch)).
  - destruct (read_file files (ckpt_path base epoch)) as [[c | sd |]|];
      try discriminate.
    intros H. apply bind_Ok in H. destruct H as [m [_ H]].
    injection H as _ <-. reflexivity.
  - intros H. injection H as _ <-. reflexivity.
Qed.

Lemma train_setup_quiet (start_epoch additional_epoch : Z) (lr : T)
    (optim : string) (g g_inference : rng T) (files : filesystem)
    (st0 : state) :
  train_setup start_epoch additional_epoch lr optim g g_inference files
  = Ok st0 ->
  kinds (trace st0) = [] /\ losses st0 = [] /\ fs st0 = files.
Proof.
  unfold train_setup. intros H.
  apply bind_Ok in H. destruct H as [net0 [_ H]].
  apply bind_Ok in H. destruct H as [inf0 [_ H]].
  apply bind_Ok in H. destruct H as [opt0 [_ H]].
  destruct (StepLR opt0) as [sched0 opt1].
  apply bind_Ok in H. destruct H as [[net1 out] [Hload H]].
  injection H as <-. cbn [trace losses fs].
  split; [|split; reflexivity].
  assert (Hout : kinds out = []).
  { destruct (negb (start_epoch =? 0)%Z).
    - exact (load_from_ckpt_quiet _ _ _ _ _ _ Hload).
    - injection Hload as _ <-. reflexivity. }
  unfold kinds in *. cbn [app flat_map kind_of]. exact Hout.
Qed.

Lemma count_epoch_kinds (start_epoch : Z) (epochs : list Z) :
  length (filter is_scheduler_step (flat_map (epoch_kinds start_epoch) epochs))
  = length epochs /\
  length (filter is_optimizer_step (flat_map (epoch_kinds start_epoch) epochs))
  = length epochs * length (processed train_batches).
Proof.
  induction epochs as [|i epochs [IHs IHo]]; [split; reflexivity|].
  cbn [flat_map]. rewrite !filter_app, !length_app, IHs, IHo.
  unfold epoch_kinds.
  assert (Hrep_s : forall n,
             filter is_scheduler_step (repeat KOptimizerStep n) = []).
  { intros n. induction n as [|n IHn]; [reflexivity | exact IHn]. }
  assert (Hrep_o : forall n,
             filter is_optimizer_step (repeat KOptimizerStep n)
             = repeat KOptimizerStep n).
  { intros n. induction n as [|n IHn]; [reflexivity|].
    cbn. rewrite IHn. reflexivity. }
  cbn [filter is_scheduler_step is_optimizer_step].
  rewrite !filter_app, Hrep_s, Hrep_o, !length_app, repeat_length.
  destruct (checkpoint_due start_epoch i); cbn; lia.
Qed.

(** X13.  A run that returns has recorded one loss per epoch, stepped the
    scheduler once per epoch and the optimizer once per epoch and batch
    that is not skipped; with [additional_epoch <= 0] that is nothing at
    all. *)
Theorem X13_counts_of_a_run
    (start_epoch additional_epoch : Z) (lr : T) (optim : string)
    (g g_inference : rng T) (files : filesystem) (st : state) :
  train start_epoch additional_epoch lr optim g g_inference files = Ok st ->
  let epochs := Z.to_nat additional_epoch in
  length (losses st) = epochs /\
  length (filter is_scheduler_step (kinds (trace st))) = epochs /\
  length (filter is_optimizer_step (kinds (trace st)))
  = epochs * length (processed train_batches).
Proof.
  intros H epochs. unfold train in H.
  apply bind_Ok in H. destruct H as [st0 [Hsetup H]].
  apply bind_Ok in H. destruct H as [st1 [Hloop H]].
  injection H as <-.
  destruct (train_setup_quiet _ _ _ _ _ _ _ _ Hsetup) as [Hk0 [Hl0 _]].
  pose proof (epochs_losses _ _ _ _ Hloop) as Hl.
  destruct (epochs_effects T _ _ _ _ Hloop) as [added [Ht [Hk _]]].
  assert (Hn : length (zrange start_epoch (start_epoch + additional_epoch))
               = epochs).
  { rewrite length_zrange. unfold epochs. f_equal. lia. }
  destruct (count_epoch_kinds start_epoch
              (zrange start_epoch (start_epoch + additional_epoch)))
    as [Hcs Hco].
  unfold train_finish, save_to_ckpt, torch_save. cbn [losses trace].
  rewrite Hl, Hl0, Hn. split; [reflexivity|].
  rewrite Ht, <- !app_assoc, !kinds_app, Hk0, Hk. cbn [app].
  rewrite !filter_app, !length_app, Hcs, Hco, Hn. cbn. split; lia.
Qed.

End FrameExtras.

(** ** Ending a run, and resuming from what it left *)

Section FinishExtras.

Variable T : Type.
Context {ops : Scalar T} {env : Environment T}.

Lemma train_finish_files (start_epoch additional_epoch : Z) (st1 : state) :
  let st := train_finish start_epoch additional_epoch st1 in
  let last := (start_epoch + additional_epoch)%Z in
  read_file (fs st) (ckpt_path ckptdir last)
  = Some (FCheckpoint {| ck_epoch := last;
                         model_state_dict := state_dict (net st1);
                         optimizer_state_dict := optimizer st1;
                         scheduler_state_dict := scheduler st1 |}) /\
  read_file (fs st) ckptdir = Some (FStateDict (state_dict (net st1))) /\
  net st = net st1 /\ optimizer st = optimizer st1 /\
  scheduler st = scheduler st1 /\ losses st = losses st1 /\
  net_inference st = net_inference st1.
Proof.
  cbn zeta. unfold train_finish, save_to_ckpt, torch_save, write_file, ckptdir.
  cbn [fs net optimizer scheduler losses net_inference read_file].
  rewrite String.eqb_refl.
  destruct (String.eqb_spec (get_ckptdir "ranknet" ranknet_structure)
              (ckpt_path (get_ckptdir "ranknet" ranknet_structure)
                         (start_epoch + additional_epoch))) as [He|_].
  - exfalso. exact (ckpt_path_neq_base _ _ He).
  - rewrite String.eqb_refl. repeat split.
Qed.

(** X14.  With [additional_epoch <= 0] a run trains nothing but still
    writes: no epoch is run and no loss recorded, yet the checkpoint
    [<base>_<start_epoch + additional_epoch>] is written with the parameters,
    the optimizer and the scheduler the run started with, replacing whatever
    that file held, and the bare parameters are written under the base
    path. *)
Theorem X14_no_epochs_still_saves
    (start_epoch additional_epoch : Z) (lr : T) (optim : string)
    (g g_inference : rng T) (files : filesystem) (st0 : state) :
  (additional_epoch <= 0)%Z ->
  train_setup start_epoch additional_epoch lr optim g g_inference files
  = Ok st0 ->
  let last := (start_epoch + additional_epoch)%Z in
  exists st : state,
    train start_epoch additional_epoch lr optim g g_inference files = Ok st /\
    net st = net st0 /\ net_inference st = net_inference st0 /\
    losses st = [] /\
    kinds (trace st) = [KSave (ckpt_path ckptdir last) (Some last);
                        KSave ckptdir None] /\
    read_file (fs st) (ckpt_path ckptdir last)
    = Some (FCheckpoint {| ck_epoch := last;
                           model_state_dict := state_dict (net st0);
                           optimizer_state_dict := optimizer st0;
                           scheduler_state_dict := scheduler st0 |}) /\
    read_file (fs st) ckptdir = Some (FStateDict (state_dict (net st0))).
Proof.
  intros Hadd Hsetup last.
  exists (train_finish start_epoch additional_epoch st0).
  destruct (train_finish_files start_epoch additional_epoch st0)
    as [Hck [Hbase [Hnet [_ [_ [Hl Hinf]]]]]].
  destruct (train_setup_quiet T _ _ _ _ _ _ _ _ Hsetup) as [Hk0 [Hl0 _]].
  split.
  - unfold train. rewrite Hsetup. cbn [bind]. unfold zrange.
    replace (Z.to_nat (start_epoch + additional_epoch - start_epoch)) with 0
      by lia.
    reflexivity.
  - split; [exact Hnet|]. split; [exact Hinf|].
    split; [congruence|]. split; [|split; assumption].
    unfold train_finish, save_to_ckpt, torch_save. cbn [trace].
    rewrite <- app_assoc, kinds_app, Hk0. reflexivity.
Qed.

(** X15.  The last checkpoint of a run is the one a resume finds: a run
    started with [start_epoch] set to the epoch number the previous run
    ended with, on the files that run left, begins with the previous run's
    final model parameters (when these still have the shapes of the
    structure). *)
Theorem X15_resume_from_last_checkpoint
    (start_epoch additional_epoch : Z) (lr : T) (optim : string)
    (g g_inference : rng T) (files : filesystem) (st : state)
    (more_epochs : Z) (lr' : T) (optim' : string)
    (g' g_inference' : rng T) (net0 : RankNet T) :
  train start_epoch additional_epoch lr optim g g_inference files = Ok st ->
  (start_epoch + additional_epoch <> 0)%Z ->
  RankNet_init g' ranknet_structure = Ok net0 ->
  same_shapes (fc net0) (state_dict (net st)) = true ->
  optim' = "adam"%string \/ optim' = "sgd"%string ->
  exists st0' : state,
    train_setup (start_epoch + additional_epoch) more_epochs lr' optim'
                g' g_inference' (fs st)
    = Ok st0' /\
    state_dict (net st0') = state_dict (net st) /\
    fs st0' = fs st.
Proof.
  intros Hrun Hne Hnet Hshape Hopt. unfold train in Hrun.
  apply bind_Ok in Hrun. destruct Hrun as [st0 [_ Hrun]].
  apply bind_Ok in Hrun. destruct Hrun as [st1 [_ Hrun]].
  injection Hrun as <-.
  destruct (train_finish_files start_epoch additional_epoch st1)
    as [Hck [_ [Hn _]]].
  rewrite Hn in Hshape |- *.
  destruct (RankNet_init_ok T g_inference' ranknet_structure)
    as [inf0 [Hinf _]]; [discriminate|].
  set (c := {| ck_epoch := (start_epoch + additional_epoch)%Z;
               model_state_dict := state_dict (net st1);
               optimizer_state_dict := optimizer st1;
               scheduler_state_dict := scheduler st1 |}) in *.
  pose proof (load_from_ckpt_present T _ ckptdir
                (start_epoch + additional_epoch)%Z net0 c Hck Hshape) as Hload.
  assert (Hsetup := train_setup_unfold T (start_epoch + additional_epoch)%Z
                      more_epochs lr' optim' g' g_inference'
                      (fs (train_finish start_epoch additional_epoch st1))
                      net0 inf0
                      (set_parameters (model_state_dict c) net0)
                      [EPrint (MText true
                         ("load from ckpt "
                          ++ ckpt_path ckptdir (start_epoch + additional_epoch)));
                       EPrint (MText true
                         ("finish load from ckpt "
                          ++ ckpt_path ckptdir (start_epoch + additional_epoch)))]
                      Hnet Hinf Hopt).
  assert (Hnz : negb (start_epoch + additional_epoch =? 0)%Z = true).
  { apply negb_true_iff, Z.eqb_neq. exact Hne. }
  rewrite Hnz in Hsetup. specialize (Hsetup Hload).
  eexists. split; [exact Hsetup|]. split; reflexivity.
Qed.

(** X16.  An evaluation that returns has taken no optimizer step and no
    scheduler step and has written no file: its effects are entering the
    no-gradient scope, the two metric calls, and leaving the scope, besides
    console output. *)
Theorem X16_eval_model_effects
    (model inference_model : RankNet T)
    (loss_func : tensor T -> list T -> result (pyfloat T))
    (df_valid : dataframe) (valid_loader : loader)
    (model' inference' : RankNet T) (out : list event) :
  eval_model model inference_model loss_func df_valid valid_loader
  = Ok (model', inference', out) ->
  kinds out = [KNoGrad true; KEvalCrossEntropy; KEvalNDCG; KNoGrad false] /\
  saved out = [] /\
  filter is_optimizer_step (kinds out) = [] /\
  filter is_scheduler_step (kinds out) = [].
Proof.
  intros H. destruct (eval_model_effects T _ _ _ _ _ _ _ _ H) as [Hk Hs].
  rewrite Hk. repeat split. exact Hs.
Qed.

Lemma eval_batch_skip
    (loss_func : tensor T -> list T -> result (pyfloat T))
    (model : RankNet T) (v : eval_vars) (b : Batch T) :
  skip_batch b = true -> eval_batch loss_func model v b = Ok v.
Proof. intros H. unfold eval_batch. rewrite H. reflexivity. Qed.

(** X17.  On validation data of which every batch is skipped (or that has
    no batch at all) [eval_model] still returns: it prints not-a-number as
    the loss, the mean of no losses, and calls the two metric routines with
    the Inference Model all the same. *)
Theorem X17_eval_model_without_batches
    (model inference_model : RankNet T)
    (loss_func : tensor T -> list T -> result (pyfloat T))
    (df_valid : dataframe) (valid_loader : loader) :
  Forall (fun b => skip_batch b = true)
         (map (@as_batch T)
              (generate_query_pair_batch valid_loader df_valid 1000000%Z)) ->
  eval_model model inference_model loss_func df_valid valid_loader
  = Ok (set_training false model, inference_model,
        [ENoGrad true;
         EPrint (MText true "Eval phase, with batch size of 1000000");
         EPrint (MEvalLoss NaN);
         EEvalCrossEntropy inference_model;
         EEvalNDCG inference_model 1000000 [10; 30];
         ENoGrad false]).
Proof.
  intros Hall. unfold eval_model. rewrite foldM_all_skip; [reflexivity|].
  eapply Forall_impl; [|exact Hall].
  intros b Hb v. apply eval_batch_skip. exact Hb.
Qed.

(** X18.  The checkpoint step of an epoch in which a checkpoint is due
    changes no parameter of the training model, no optimizer or scheduler
    state and no recorded loss: it adds the checkpoint file of that epoch,
    gives the Inference Model the training model's parameters, and leaves
    the training model in evaluation mode. *)
Theorem X18_checkpoint_step_frame
    (ckptfile : string) (start_epoch i : Z)
    (df_valid : dataframe) (valid_loader : loader) (st st' : state) :
  checkpoint_and_eval ckptfile start_epoch i df_valid valid_loader st = Ok st' ->
  checkpoint_due start_epoch i = true ->
  state_dict (net st') = state_dict (net st) /\
  optimizer st' = optimizer st /\
  scheduler st' = scheduler st /\
  losses st' = losses st /\
  state_dict (net_inference st') = state_dict (net st) /\
  training (net st') = false /\
  training (net_inference st') = training (net_inference st) /\
  fs st' = (ckpt_path ckptfile i,
            FCheckpoint {| ck_epoch := i;
                           model_state_dict := state_dict (net st);
                           optimizer_state_dict := optimizer st;
                           scheduler_state_dict := scheduler st |}) :: fs st.
Proof.
  intros H Hdue.
  destruct (checkpoint_and_eval_frame T _ _ _ _ _ _ _ H) as [Hl [Hs [Ho [Hn _]]]].
  destruct (checkpoint_and_eval_syncs T _ _ _ _ _ _ _ Hdue H) as [Hsync _].
  split; [exact Hn|]. split; [exact Ho|]. split; [exact Hs|].
  split; [exact Hl|]. split; [congruence|].
  unfold checkpoint_and_eval in H. fold (checkpoint_due start_epoch i) in H.
  rewrite Hdue in H.
  apply bind_Ok in H. destruct H as [inf' [Hload H]].
  apply bind_Ok in H. destruct H as [[[m' i'] out] [Heval H]].
  injection H as <-. cbn [net net_inference fs].
  unfold eval_model in Heval.
  apply bind_Ok in Heval. destruct Heval as [v [_ Heval]].
  injection Heval as <- <- _.
  destruct (load_state_dict_Ok T _ _ _ Hload) as [_ [_ [Ht _]]].
  split; [reflexivity|]. split; [exact Ht | reflexivity].
Qed.

(** X19.  Checkpoints of different epochs go to different files, and none
    of them is the file of the final model: [<base>_<a>] and [<base>_<b>]
    differ whenever [a] and [b] do, also for negative numbers, and neither
    is [<base>]. *)
Theorem X19_checkpoint_paths_distinct (base : string) (a b : Z) :
  a <> b ->
  ckpt_path base a <> ckpt_path base b /\
  ckpt_path base a <> base /\ ckpt_path base b <> base.
Proof.
  intros Hab. split; [|split].
  - intros H. apply Hab. exact (ckpt_path_inj base a b H).
  - intros H. exact (ckpt_path_neq_base base a (eq_sym H)).
  - intros H. exact (ckpt_path_neq_base base b (eq_sym H)).
Qed.

End FinishExtras.

(** ** The calls of [eval_model] in a run *)

Section EvalCalls.

Variable T : Type.
Context {ops : Scalar T} {env : Environment T}.

Lemma load_from_ckpt_layers (files : filesystem) (base : string) (epoch : Z)
    (model model' : RankNet T) (out : list event) :
  load_from_ckpt files base epoch model = Ok (model', out) ->
  fc_layers model' = fc_layers model.
Proof.
  unfold load_from_ckpt. destruct (isfile files (ckpt_path base epoch)).
  - destruct (read_file files (ckpt_path base epoch)) as [[c | sd | e]|];
      try discriminate.
    intros H. apply bind_Ok in H. destruct H as [m [Hload H]].
    injection H as <- _.
    destruct (load_state_dict_Ok T _ _ _ Hload) as [_ [Hl _]]. exact Hl.
  - intros H. injection H as <- _. reflexivity.
Qed.

Lemma train_setup_layers (start_epoch additional_epoch : Z) (lr : T)
    (optim : string) (g g_inference : rng T) (files : filesystem)
    (st0 : state) :
  train_setup start_epoch additional_epoch lr optim g g_inference files
  = Ok st0 ->
  layer_counts st0.
Proof.
  unfold train_setup, RankNetInference_init. intros H.
  apply bind_Ok in H. destruct H as [net0 [Hnet H]].
  apply bind_Ok in H. destruct H as [inf0 [Hinf H]].
  apply bind_Ok in H. destruct H as [opt0 [_ H]].
  destruct (StepLR opt0) as [sched0 opt1].
  apply bind_Ok in H. destruct H as [[net1 out] [Hload H]].
  injection H as <-. unfold layer_counts. cbn [net net_inference].
  destruct (RankNet_init_shapes T _ _ _ Hnet) as [_ [Hn _]].
  destruct (RankNet_init_shapes T _ _ _ Hinf) as [Hshapes [Hi _]].
  assert (Hlen : length (fc inf0) = length ranknet_structure).
  { apply (f_equal (@length _)) in Hshapes.
    rewrite length_map in Hshapes. exact Hshapes. }
  split; [|split; [exact Hi | exact Hlen]].
  destruct (negb (start_epoch =? 0)%Z).
  - rewrite (load_from_ckpt_layers _ _ _ _ _ _ Hload). exact Hn.
  - injection Hload as <- _. exact Hn.
Qed.

Lemma train_batch_layers (i : Z) (v v' : epoch_vars) (b : Batch T) :
  train_batch i v b = Ok v' ->
  fc_layers (net (ev_state v')) = fc_layers (net (ev_state v)).
Proof.
  unfold train_batch. destruct (skip_batch b).
  - intros H. injection H as <-. reflexivity.
  - intros H.
    apply bind_Ok in H. destruct H as [xi [_ H]].
    apply bind_Ok in H. destruct H as [xj [_ H]].
    apply bind_Ok in H. destruct H as [yi [_ H]].
    apply bind_Ok in H. destruct H as [yj [_ H]].
    apply bind_Ok in H. destruct H as [y [_ H]].
    apply bind_Ok in H. destruct H as [y_pred [_ H]].
    apply bind_Ok in H. destruct H as [loss [_ H]].
    destruct (backward_step _ _ _ _ _) as [o' p'].
    injection H as <-. reflexivity.
Qed.

Lemma run_epoch_layers (i : Z) (bs : list (Batch T)) (st st' : state) :
  run_epoch i bs st = Ok st' ->
  fc_layers (net st') = fc_layers (net st).
Proof.
  unfold run_epoch.
  destruct (scheduler_step (scheduler st) (optimizer st)) as [s' o'].
  intros H. apply bind_Ok in H. destruct H as [v [Hloop H]].
  injection H as <-. cbn [net].
  assert (Hall : forall (l : list (Batch T)) (u u' : epoch_vars),
             foldM (train_batch i) l u = Ok u' ->
             fc_layers (net (ev_state u')) = fc_layers (net (ev_state u))).
  { induction l as [|b l IH]; intros u u' Hu.
    - injection Hu as <-. reflexivity.
    - cbn [foldM] in Hu. apply bind_Ok in Hu. destruct Hu as [u1 [Hb Hl]].
      rewrite (IH _ _ Hl). exact (train_batch_layers _ _ _ _ Hb). }
  rewrite (Hall _ _ _ Hloop). reflexivity.
Qed.

(** Where [train] calls [eval_model], the Inference Model has just loaded
    the parameters of the training model, and both modules hold as many
    layers as they count. *)
Lemma eval_model_call (start_epoch i : Z) (mid post : state) :
  layer_counts mid ->
  checkpoint_due start_epoch i = true ->
  checkpoint_and_eval ckptdir start_epoch i
                      (snd valid_data) (fst valid_data) mid = Ok post ->
  layer_counts post /\
  exists (inf' : RankNet T) (out : list event),
    eval_model (net mid) inf' BCELoss (snd valid_data) (fst valid_data)
    = Ok (set_training false (net mid), inf', out) /\
    net_inference post = inf' /\
    fc inf' = fc (net mid) /\
    fc_layers (net mid) = length (fc (net mid)) /\
    fc_layers inf' = length (fc inf').
Proof.
  intros [Hn [Hi Hl]] Hdue Hck.
  destruct (checkpoint_and_eval_due T _ _ _ _ _ _ _ Hdue Hck)
    as [inf' [out [Hload [Hfc [Heval [Hnet [Hinf _]]]]]]].
  destruct (load_state_dict_Ok T _ _ _ Hload) as [_ [Hli [_ Hlen]]].
  unfold state_dict in Hlen.
  assert (Hinf' : fc_layers inf' = length (fc inf')) by congruence.
  split.
  - unfold layer_counts. rewrite Hnet, Hinf. cbn [set_training fc_layers].
    split; [exact Hn|]. split; congruence.
  - exists inf', out. split; [exact Heval|]. split; [exact Hinf|].
    split; [exact Hfc|]. split; [congruence | exact Hinf'].
Qed.

Lemma train_epoch_layers (start_epoch i : Z) (st st' : state) :
  layer_counts st ->
  train_epoch start_epoch st i = Ok st' ->
  layer_counts st'.
Proof.
  intros Hinv H. rewrite train_epoch_steps in H.
  apply bind_Ok in H. destruct H as [mid [Hrun Hck]].
  assert (Hmid : layer_counts mid).
  { destruct Hinv as [Hn [Hi Hl]]. unfold layer_counts.
    destruct (run_epoch_frame T _ _ _ _ Hrun) as [_ [Hsame _]].
    rewrite Hsame, (run_epoch_layers _ _ _ _ Hrun). auto. }
  destruct (checkpoint_due start_epoch i) eqn:Hdue.
  - exact (proj1 (eval_model_call _ _ _ _ Hmid Hdue Hck)).
  - unfold checkpoint_and_eval in Hck.
    fold (checkpoint_due start_epoch i) in Hck. rewrite Hdue in Hck.
    injection Hck as <-. exact Hmid.
Qed.

Lemma epochs_layers (start_epoch : Z) :
  forall (epochs : list Z) (st st' : state),
    layer_counts st ->
    foldM (train_epoch start_epoch) epochs st = Ok st' ->
    layer_counts st'.
Proof.
  induction epochs as [|i epochs IH]; intros st st' Hinv H.
  - injection H as <-. exact Hinv.
  - cbn [foldM] in H. apply bind_Ok in H. destruct H as [st1 [Hi Hrest]].
    exact (IH _ _ (train_epoch_layers _ _ _ _ Hinv Hi) Hrest).
Qed.

(** Every call of [eval_model] in a run of [train] that returns: in each
    epoch [i] in which a checkpoint is due, after the training pass of the
    epoch has led to the state [mid], the routine is called with the
    training model of [mid] and an Inference Model that holds the same
    parameters. *)
Lemma eval_model_calls_of_a_run
    (start_epoch additional_epoch : Z) (lr : T) (optim : string)
    (g g_inference : rng T) (files : filesystem) (st : state) :
  train start_epoch additional_epoch lr optim g g_inference files = Ok st ->
  forall i,
    (start_epoch <= i < start_epoch + additional_epoch)%Z ->
    checkpoint_due start_epoch i = true ->
    exists (st0 pre mid : state) (inf' : RankNet T) (out : list event),
      train_setup start_epoch additional_epoch lr optim g g_inference files
      = Ok st0 /\
      foldM (train_epoch start_epoch) (zrange start_epoch i) st0 = Ok pre /\
      run_epoch i train_batches pre = Ok mid /\
      eval_model (net mid) inf' BCELoss (snd valid_data) (fst valid_data)
      = Ok (set_training false (net mid), inf', out) /\
      fc inf' = fc (net mid) /\
      fc_layers (net mid) = length (fc (net mid)) /\
      fc_layers inf' = length (fc inf').
Proof.
  intros H i Hr Hdue. unfold train in H.
  apply bind_Ok in H. destruct H as [st0 [Hsetup H]].
  apply bind_Ok in H. destruct H as [st1 [Hloop _]].
  rewrite (zrange_split _ _ i Hr), foldM_app in Hloop.
  apply bind_Ok in Hloop. destruct Hloop as [pre [Hpre Hrest]].
  cbn [foldM] in Hrest.
  apply bind_Ok in Hrest. destruct Hrest as [post [Hpost _]].
  rewrite train_epoch_steps in Hpost.
  apply bind_Ok in Hpost. destruct Hpost as [mid [Hmid Hck]].
  assert (Hinv : layer_counts mid).
  { pose proof (epochs_layers _ _ _ _ (train_setup_layers _ _ _ _ _ _ _ _ Hsetup)
                              Hpre) as [Hn [Hi Hl]].
    unfold layer_counts.
    destruct (run_epoch_frame T _ _ _ _ Hmid) as [_ [Hsame _]].
    rewrite Hsame, (run_epoch_layers _ _ _ _ Hmid). auto. }
  destruct (eval_model_call _ _ _ _ Hinv Hdue Hck)
    as [_ [inf' [out [Heval [_ [Hfc [Hm Hi]]]]]]].
  exists st0, pre, mid, inf', out. auto 10.
Qed.

End EvalCalls.

(** ** Losses and labels *)

Section LossExtras.

Local Open Scope R_scope.

Lemma fold_py_add_fin (l : list R) :
  forall a : R,
    fold_left (py_add (T:=R)) (map Fin l) (Fin a) = Fin (a + fold_right Rplus 0 l).
Proof.
  induction l as [|x l IH]; intros a; cbn [map fold_left fold_right].
  - f_equal. lra.
  - cbn [py_add]. rewrite IH. f_equal. cbn [s_add RealScalar]. lra.
Qed.

Lemma fold_py_add_nan {T : Type} {ops : Scalar T} (l : list (pyfloat T)) :
  fold_left (py_add (T:=T)) l NaN = NaN.
Proof. induction l as [|x l IH]; [reflexivity | exact IH]. Qed.

Lemma fold_py_add_poisoned {T : Type} {ops : Scalar T}
    (pre post : list (pyfloat T)) (a : pyfloat T) :
  fold_left (py_add (T:=T)) (pre ++ NaN :: post) a = NaN.
Proof.
  rewrite fold_left_app. cbn [fold_left].
  replace (py_add (fold_left (py_add (T:=T)) pre a) NaN) with (@NaN T)
    by (destruct (fold_left (py_add (T:=T)) pre a); reflexivity).
  apply fold_py_add_nan.
Qed.

(** The recorded epoch loss is the arithmetic mean of the batch
    losses, their sum divided by their number, when all of them are
    numbers; a single not-a-number batch loss makes the epoch loss
    not-a-number, wherever it stands in the list. *)
Lemma np_mean_of_numbers (l : list R) :
  l <> [] ->
  np_mean (map Fin l) = Fin (fold_right Rplus 0 l / INR (length l)) /\
  forall pre post : list (pyfloat R), np_mean (pre ++ NaN :: post) = NaN.
Proof.
  intros Hne. split.
  - destruct l as [|x l]; [congruence|].
    unfold np_mean. cbn [map]. change (Fin x :: map Fin l) with (map Fin (x :: l)).
    rewrite fold_py_add_fin, length_map. f_equal.
    cbn [s_div RealScalar s_of_nat s_zero]. f_equal. lra.
  - intros pre post. unfold np_mean.
    destruct (pre ++ NaN :: post) as [|y rest] eqn:E.
    + destruct pre; discriminate.
    + rewrite <- E, fold_py_add_poisoned. reflexivity.
Qed.

(** X20.  Ties get the label 0 in both orders: at a position where the two
    relevance labels are equal the training label is 0 for the pair and for
    the swapped pair, while at a position where they differ exactly one of
    the two orders gets the label 1. *)
Theorem X20_labels_of_ties (yi yj : list Z) :
  length yi = length yj ->
  exists y y' : list R,
    binary_label (T:=R) yi yj = Ok y /\
    binary_label (T:=R) yj yi = Ok y' /\
    forall k a b,
      nth_error yi k = Some a -> nth_error yj k = Some b ->
      exists u v,
        nth_error y k = Some u /\ nth_error y' k = Some v /\
        (a = b -> u = 0 /\ v = 0) /\
        (a <> b -> u + v = 1).
Proof.
  intros Hlen.
  exists (map (fun p => if (fst p >? snd p)%Z then 1 else 0) (combine yi yj)),
         (map (fun p => if (fst p >? snd p)%Z then 1 else 0) (combine yj yi)).
  split; [exact (binary_label_same_length R yi yj Hlen)|].
  split; [exact (binary_label_same_length R yj yi (eq_sym Hlen))|].
  intros k a b Ha Hb.
  exists (if (a >? b)%Z then 1 else 0), (if (b >? a)%Z then 1 else 0).
  split; [|split; [|split]].
  - rewrite (nth_error_map _ k (combine yi yj)).
    rewrite (nth_error_combine yi yj k a b Ha Hb). reflexivity.
  - rewrite (nth_error_map _ k (combine yj yi)).
    rewrite (nth_error_combine yj yi k b a Hb Ha). reflexivity.
  - intros ->. rewrite Z.gtb_ltb, Z.ltb_irrefl. split; reflexivity.
  - intros Hne. rewrite !Z.gtb_ltb.
    destruct (Z.ltb_spec b a), (Z.ltb_spec a b); try lra; lia.
Qed.

End LossExtras.

Section BatchExtras.

Variable T : Type.
Context {ops : Scalar T} {env : Environment T}.

(** X21.  On a well-formed pair batch (both sides present, of the network's
    width and of the same non-zero length, with as many labels on either
    side) nothing but the loss function can raise: the forward pass and the
    labels are computed, and the step either fails with the loss function's
    exception or counts one more minibatch, appends the loss and installs
    the parameters the optimizer step returns, leaving layer count and mode
    as they were. *)
Theorem X21_well_formed_batch_is_processed
    (w : nat) (i : Z) (v : epoch_vars) (b : Batch T)
    (xi xj : tensor T) (yi yj : list Z) :
  network_of_width w (net (ev_state v)) ->
  x_i b = Some xi -> x_j b = Some xj ->
  y_i b = Some yi -> y_j b = Some yj ->
  xi <> [] -> length xi = length xj ->
  batch_of_width w xi -> batch_of_width w xj ->
  length yi = length yj ->
  exists (y_pred : tensor T) (y : list T),
    forward (net (ev_state v)) xi xj = Ok y_pred /\
    length y_pred = length xi /\
    binary_label yi yj = Ok y /\
    (forall e, BCELoss y_pred y = Err e -> train_batch i v b = Err e) /\
    (forall loss,
        BCELoss y_pred y = Ok loss ->
        exists v',
          train_batch i v b = Ok v' /\
          minibatch v' = minibatch v + 1 /\
          lossed_minibatch v' = lossed_minibatch v ++ [loss] /\
          fc (net (ev_state v'))
          = snd (backward_step (optimizer (ev_state v)) (net (ev_state v))
                               xi xj y) /\
          fc_layers (net (ev_state v')) = fc_layers (net (ev_state v)) /\
          training (net (ev_state v')) = training (net (ev_state v))).
Proof.
  intros Hnet Hxi Hxj Hyi Hyj Hne Hlen Hwi Hwj Hylen.
  destruct (forward_columns T w _ xi xj Hnet Hwi Hwj Hlen)
    as [c1 [c2 [_ [_ [Hl1 [Hl2 Hf]]]]]].
  pose proof (binary_label_same_length T yi yj Hylen) as Hy.
  eexists. eexists. split; [exact Hf|]. split.
  { unfold column. rewrite !length_map, length_combine. lia. }
  split; [exact Hy|].
  assert (Hskip : skip_batch b = false).
  { unfold skip_batch. rewrite Hxi. destruct xi; [congruence | reflexivity]. }
  split.
  - intros e He. unfold train_batch.
    rewrite Hskip, Hxi, Hxj, Hyi, Hyj. cbn [array bind].
    rewrite Hy. cbn [bind]. rewrite Hf. cbn [bind]. rewrite He. reflexivity.
  - intros loss Hloss. unfold train_batch.
    rewrite Hskip, Hxi, Hxj, Hyi, Hyj. cbn [array bind].
    rewrite Hy. cbn [bind]. rewrite Hf. cbn [bind]. rewrite Hloss. cbn [bind].
    destruct (backward_step _ _ _ _ _) as [o' p'].
    eexists. split; [reflexivity|]. cbn. repeat split.
Qed.

End BatchExtras.

(** ** Progress lines *)

Section ProgressExtras.

Variable T : Type.
Context {ops : Scalar T} {env : Environment T}.

Lemma hundreds_app (from n m : nat) :
  hundreds from (n + m) = hundreds from n ++ hundreds (from + n) m.
Proof. unfold hundreds. rewrite seq_app, filter_app. reflexivity. Qed.

Lemma hundreds_below (n : nat) : n < 100 -> hundreds 1 n = [].
Proof.
  intros Hn. unfold hundreds.
  destruct (filter _ _) as [|k l] eqn:Hf; [reflexivity|].
  assert (Hin : In k (filter (fun k => k mod 100 =? 0) (seq 1 n))).
  { rewrite Hf. left. reflexivity. }
  apply filter_In in Hin. destruct Hin as [Hseq Hmod].
  apply in_seq in Hseq. apply Nat.eqb_eq in Hmod.
  rewrite Nat.mod_small in Hmod by lia. lia.
Qed.

Lemma processed_cons (b : Batch T) (bs : list (Batch T)) :
  length (processed (b :: bs))
  = length (processed [b]) + length (processed bs).
Proof.
  unfold processed. cbn [filter].
  destruct (negb (skip_batch b)); reflexivity.
Qed.

Lemma train_batch_lines (i : Z) (v v' : epoch_vars) (b : Batch T) :
  train_batch i v b = Ok v' ->
  exists added,
    trace (ev_state v') = trace (ev_state v) ++ added /\
    minibatch v' = minibatch v + length (processed [b]) /\
    minibatch_lines added
    = map (pair i) (hundreds (minibatch v + 1) (length (processed [b]))).
Proof.
  unfold train_batch, processed. cbn [filter].
  destruct (skip_batch b); cbn [negb length].
  - intros H. injection H as <-. exists []. rewrite app_nil_r.
    split; [reflexivity|]. split; [lia | reflexivity].
  - intros H.
    apply bind_Ok in H. destruct H as [xi [_ H]].
    apply bind_Ok in H. destruct H as [xj [_ H]].
    apply bind_Ok in H. destruct H as [yi [_ H]].
    apply bind_Ok in H. destruct H as [yj [_ H]].
    apply bind_Ok in H. destruct H as [y [_ H]].
    apply bind_Ok in H. destruct H as [y_pred [_ H]].
    apply bind_Ok in H. destruct H as [loss [_ H]].
    destruct (backward_step _ _ _ _ _) as [o' p'].
    remember ((minibatch v + 1) mod 100 =? 0) as c eqn:Hc.
    injection H as <-. cbn [ev_state trace minibatch].
    eexists. split; [reflexivity|]. split; [reflexivity|].
    unfold hundreds, minibatch_lines. cbn [seq filter flat_map].
    rewrite <- Hc.
    destruct c; reflexivity.
Qed.

Lemma batches_lines (i : Z) :
  forall (bs : list (Batch T)) (v v' : epoch_vars),
    foldM (train_batch i) bs v = Ok v' ->
    exists added,
      trace (ev_state v') = trace (ev_state v) ++ added /\
      minibatch v' = minibatch v + length (processed bs) /\
      minibatch_lines added
      = map (pair i) (hundreds (minibatch v + 1) (length (processed bs))).
Proof.
  induction bs as [|b bs IH]; intros v v' H.
  - injection H as <-. exists []. rewrite app_nil_r.
    split; [reflexivity|]. split; [cbn [processed filter length]; lia | reflexivity].
  - cbn [foldM] in H. apply bind_Ok in H. destruct H as [v1 [Hb Hrest]].
    destruct (train_batch_lines i v v1 b Hb) as [a1 [Ht1 [Hm1 Hl1]]].
    destruct (IH v1 v' Hrest) as [a2 [Ht2 [Hm2 Hl2]]].
    exists (a1 ++ a2). rewrite processed_cons, hundreds_app, map_app.
    split; [rewrite Ht2, Ht1, <- app_assoc; reflexivity|].
    split; [lia|].
    unfold minibatch_lines in *. rewrite flat_map_app, Hl1, Hl2, Hm1.
    do 3 f_equal. lia.
Qed.

(** X22.  The progress lines of an epoch count the batches that are not
    skipped, not the batches the generator yields: an epoch prints one
    line, with its own epoch number, at the 100th, 200th, ... batch it
    trains on, in this order, and none at all when it trains on fewer
    than 100. *)
Theorem X22_minibatch_lines
    (i : Z) (bs : list (Batch T)) (st st' : state) :
  run_epoch i bs st = Ok st' ->
  exists added,
    trace st' = trace st ++ added /\
    minibatch_lines added
    = map (pair i) (hundreds 1 (length (processed bs))) /\
    (length (processed bs) < 100 -> minibatch_lines added = []).
Proof.
  unfold run_epoch.
  destruct (scheduler_step (scheduler st) (optimizer st)) as [s' o'].
  intros H. apply bind_Ok in H. destruct H as [v [Hloop H]].
  injection H as <-. cbn [trace].
  destruct (batches_lines i bs _ v Hloop) as [a [Ht [_ Hl]]].
  cbn [ev_state trace minibatch Nat.add] in Ht, Hl.
  exists ([ESchedulerStep] ++ a ++ [EPrint (MEpoch i (np_mean (lossed_minibatch v)))]).
  assert (Hlines :
    minibatch_lines ([ESchedulerStep] ++ a ++
                     [EPrint (MEpoch i (np_mean (lossed_minibatch v)))])
    = map (pair i) (hundreds 1 (length (processed bs)))).
  { unfold minibatch_lines in *. rewrite !flat_map_app, Hl.
    cbn [flat_map minibatch_line_of app]. apply app_nil_r. }
  split; [rewrite Ht, <- !app_assoc; reflexivity|].
  split; [exact Hlines|].
  intros Hlt. rewrite Hlines, hundreds_below by exact Hlt. reflexivity.
Qed.

Lemma eval_batch_line
    (loss_func : tensor T -> list T -> result (pyfloat T))
    (model : RankNet T) (v v' : eval_vars) (b : Batch T) :
  eval_batch loss_func model v b = Ok v' ->
  exists extra,
    e_out v' = e_out v ++ extra /\
    e_minibatch v' = e_minibatch v + length (processed [b]) /\
    eval_lines extra
    = hundreds (e_minibatch v + 1) (length (processed [b])).
Proof.
  destruct (skip_batch b) eqn:Hskip.
  - rewrite (eval_batch_skip T _ _ _ _ Hskip). intros H. injection H as <-.
    unfold processed. cbn [filter]. rewrite Hskip. cbn [negb length].
    exists []. rewrite app_nil_r.
    split; [reflexivity|]. split; [lia | reflexivity].
  - rewrite (eval_batch_loss T _ _ _ _ Hskip). intros H.
    apply bind_Ok in H. destruct H as [loss [_ H]].
    remember ((e_minibatch v + 1) mod 100 =? 0) as c eqn:Hc.
    injection H as <-. cbn [e_out e_minibatch].
    unfold processed. cbn [filter]. rewrite Hskip. cbn [negb length].
    eexists. split; [reflexivity|]. split; [reflexivity|].
    unfold hundreds, eval_lines. cbn [seq filter]. rewrite <- Hc.
    destruct c; reflexivity.
Qed.

Lemma eval_batch_lines
    (loss_func : tensor T -> list T -> result (pyfloat T))
    (model : RankNet T) :
  forall (bs : list (Batch T)) (v v' : eval_vars),
    foldM (eval_batch loss_func model) bs v = Ok v' ->
    exists extra,
      e_out v' = e_out v ++ extra /\
      e_minibatch v' = e_minibatch v + length (processed bs) /\
      eval_lines extra
      = hundreds (e_minibatch v + 1) (length (processed bs)).
Proof.
  induction bs as [|b bs IH]; intros v v' H.
  - injection H as <-. exists []. rewrite app_nil_r.
    split; [reflexivity|]. split; [cbn [processed filter length]; lia | reflexivity].
  - cbn [foldM] in H. apply bind_Ok in H. destruct H as [v1 [Hb Hrest]].
    destruct (eval_batch_line _ _ _ _ _ Hb) as [a1 [Ht1 [Hm1 Hl1]]].
    destruct (IH v1 v' Hrest) as [a2 [Ht2 [Hm2 Hl2]]].
    exists (a1 ++ a2). rewrite processed_cons, hundreds_app.
    split; [rewrite Ht2, Ht1, <- app_assoc; reflexivity|].
    split; [lia|].
    unfold eval_lines in *. rewrite flat_map_app, Hl1, Hl2, Hm1.
    do 2 f_equal. lia.
Qed.

(** X23.  The evaluation loop prints its progress lines on the same count:
    one at the 100th, 200th, ... validation batch that is not skipped, and
    nothing else between the heading and the loss line. *)
Theorem X23_eval_minibatch_lines
    (model inference_model : RankNet T)
    (loss_func : tensor T -> list T -> result (pyfloat T))
    (df_valid : dataframe) (valid_loader : loader)
    (model' inference' : RankNet T) (out : list event) :
  eval_model model inference_model loss_func df_valid valid_loader
  = Ok (model', inference', out) ->
  let bs := map (@as_batch T)
                (generate_query_pair_batch valid_loader df_valid 1000000%Z) in
  eval_lines out = hundreds 1 (length (processed bs)) /\
  (length (processed bs) < 100 ->
   exists loss,
     out = [ENoGrad true;
            EPrint (MText true "Eval phase, with batch size of 1000000");
            EPrint (MEvalLoss loss);
            EEvalCrossEntropy inference_model;
            EEvalNDCG inference_model 1000000 [10; 30];
            ENoGrad false]).
Proof.
  intros H bs. unfold eval_model in H. fold bs in H.
  apply bind_Ok in H. destruct H as [v [Hloop H]].
  injection H as <- <- <-.
  destruct (eval_batch_lines _ _ _ _ _ Hloop) as [extra [Ho [_ Hl]]].
  destruct (eval_loop T _ _ _ _ _ Hloop) as [ls [extra' [_ [_ [Ho' Hp]]]]].
  cbn [e_out e_minibatch app Nat.add] in Ho, Hl, Ho'.
  rewrite Ho in Ho'. subst extra'.
  split.
  - rewrite Ho. unfold eval_lines in *.
    cbn [app flat_map eval_line_of]. rewrite flat_map_app, Hl.
    cbn [flat_map eval_line_of app]. apply app_nil_r.
  - intros Hlt. rewrite hundreds_below in Hl by exact Hlt.
    assert (Hnil : extra = []).
    { destruct extra as [|e rest]; [reflexivity|].
      apply Forall_inv in Hp. destruct Hp as [n [loss ->]].
      cbn in Hl. discriminate. }
    exists (np_mean (e_lossed_minibatch v)).
    rewrite Ho, Hnil. reflexivity.
Qed.

End ProgressExtras.

(** ** The further properties at concrete inputs *)

Section ExtraInstances.

Local Open Scope R_scope.

Local Existing Instance quiet_env.

Lemma X1_witness :
  RankNet_init zero_rng [] = Err IndexError /\
  exists net,
    RankNet_init zero_rng ranknet_structure = Ok net /\
    fc_layers net = length ranknet_structure /\
    length (fc net) = length ranknet_structure /\
    map (@shape_of R) (fc net) = layer_shapes ranknet_structure /\
    Forall (@linear_wf R) (fc net) /\
    network_of_width (hd 0%nat ranknet_structure) net /\
    training net = true.
Proof.
  apply (X1_constructor_layers R zero_rng ranknet_structure). discriminate.
Defined.

Lemma X2_witness :
  exists a b,
    RankNet_init zero_rng ranknet_structure = Ok a /\
    RankNetInference_init (constant_rng 1) ranknet_structure = Ok b /\
    load_state_dict (set_training false b) (state_dict a)
    = Ok {| fc_layers := fc_layers b; fc := fc a; training := false |}.
Proof.
  apply (X2_same_structure_sync R zero_rng (constant_rng 1) ranknet_structure).
  discriminate.
Defined.

Lemma X3_witness :
  forward two_layer_net [[1]] [[0; 1]] = Err RuntimeError /\
  (Exists (fun row => length row <> 2%nat) [[1]] ->
   RankNetInference_forward two_layer_net [[1]] = Err RuntimeError).
Proof.
  apply (X3_wrong_width_raises R 2 two_layer_net [[1]] [[0; 1]]).
  - exact two_layer_net_width.
  - left. constructor. discriminate.
Defined.

Lemma X4_witness :
  (exists s1 s2,
      RankNetInference_forward two_layer_net [[1; 2]; [0; 0]] = Ok s1 /\
      RankNetInference_forward two_layer_net [[0; 1]; [1; 1]; [2; 2]] = Ok s2) /\
  forward two_layer_net [[1; 2]; [0; 0]] [[0; 1]; [1; 1]; [2; 2]]
  = Err RuntimeError.
Proof.
  apply (X4_length_mismatch_raises R 2 two_layer_net
           [[1; 2]; [0; 0]] [[0; 1]; [1; 1]; [2; 2]]).
  - exact two_layer_net_width.
  - repeat constructor.
  - repeat constructor.
  - discriminate.
  - discriminate.
  - discriminate.
Defined.

Lemma X5_witness :
  exists (s : R) (c2 : list R),
    RankNetInference_forward two_layer_net [[1; 2]] = Ok (column [s]) /\
    RankNetInference_forward two_layer_net [[0; 1]; [1; 1]] = Ok (column c2) /\
    length c2 = length [[0; 1]; [1; 1]] /\
    forward two_layer_net [[1; 2]] [[0; 1]; [1; 1]]
    = Ok (column (map (fun s2 => sigmoid (s_sub s s2)) c2)).
Proof.
  apply (X5_single_row_broadcast R 2 two_layer_net [1; 2] [[0; 1]; [1; 1]]).
  - exact two_layer_net_width.
  - reflexivity.
  - repeat constructor.
Defined.

Lemma X8_witness :
  exists pab pbc pac : R,
    forward two_layer_net [[2; 0]] [[1; 0]] = Ok (column [pab]) /\
    forward two_layer_net [[1; 0]] [[0; 0]] = Ok (column [pbc]) /\
    forward two_layer_net [[2; 0]] [[0; 0]] = Ok (column [pac]) /\
    (1 / 2 < pab -> 1 / 2 < pbc -> 1 / 2 < pac).
Proof.
  apply (X8_preference_transitive 2 two_layer_net [2; 0] [1; 0] [0; 0]).
  - exact two_layer_net_width.
  - reflexivity.
  - reflexivity.
  - reflexivity.
Defined.

Lemma X9_witness :
  train 0 100 0 "rmsprop" zero_rng zero_rng []
  = Err (ValueError "Optimization method rmsprop not implemented").
Proof.
  apply (X9_unsupported_optimizer R 0%Z 100%Z 0 "rmsprop" zero_rng zero_rng []);
    discriminate.
Defined.

Lemma X10_witness :
  exists (net0 inf0 : RankNet R) (st0 : state),
    RankNet_init zero_rng ranknet_structure = Ok net0 /\
    RankNetInference_init zero_rng ranknet_structure = Ok inf0 /\
    train_setup 0 100 0 "sgd" zero_rng zero_rng
                [(ckpt_path ckptdir 0, FCheckpoint resume_checkpoint)]
    = Ok st0 /\
    net st0 = net0 /\
    net_inference st0 = set_training false inf0 /\
    losses st0 = [] /\
    fs st0 = [(ckpt_path ckptdir 0, FCheckpoint resume_checkpoint)] /\
    trace st0 = [EPrint (MStart 0 100 0);
                 EPrint (MModule net0);
                 EPrint (MModule (set_training false inf0));
                 EPrint (MOptimizer (fresh_optimizer "sgd" net0 0))].
Proof.
  apply (X10_start_zero_never_loads R 100%Z 0 "sgd" zero_rng zero_rng
           [(ckpt_path ckptdir 0, FCheckpoint resume_checkpoint)]).
  right. reflexivity.
Defined.

Lemma X11_witness :
  train 5 10 0 "adam" zero_rng zero_rng
        [(ckpt_path ckptdir 5, FStateDict (state_dict fresh_net))]
  = Err KeyError.
Proof.
  apply (X11_unusable_checkpoint_is_fatal R 5%Z 10%Z 0 "adam"
           zero_rng zero_rng
           [(ckpt_path ckptdir 5, FStateDict (state_dict fresh_net))]
           (FStateDict (state_dict fresh_net))).
  - discriminate.
  - left. reflexivity.
  - reflexivity.
  - exact I.
Defined.

Lemma X12_witness :
  exists st' : state,
    train_epoch 0 small_state 1 = Ok st' /\
    net_inference st' = net_inference small_state /\
    fs st' = fs small_state /\
    (exists m, losses st' = losses small_state ++ [m]) /\
    scheduler st'
    = fst (scheduler_step (scheduler small_state) (optimizer small_state)) /\
    training (net st') = true.
Proof.
  destruct (train_epoch 0 small_state 1) as [st'|e] eqn:Hrun.
  - exists st'. split; [reflexivity|].
    apply (X12_epoch_without_checkpoint R 0%Z 1%Z small_state st' Hrun).
    reflexivity.
  - vm_compute in Hrun. discriminate.
Defined.

Lemma X13_witness :
  exists st : state,
    train 0 6 0 "adam" zero_rng zero_rng [] = Ok st /\
    length (losses st) = Z.to_nat 6 /\
    length (filter is_scheduler_step (kinds (trace st))) = Z.to_nat 6 /\
    length (filter is_optimizer_step (kinds (trace st)))
    = (Z.to_nat 6 * length (processed train_batches))%nat.
Proof.
  destruct (train 0 6 0 "adam" zero_rng zero_rng []) as [st|e] eqn:Hrun.
  - exists st. split; [reflexivity|].
    exact (X13_counts_of_a_run R 0%Z 6%Z 0 "adam" zero_rng zero_rng [] st Hrun).
  - vm_compute in Hrun. discriminate.
Defined.

Lemma X14_witness :
  exists st0 st : state,
    train_setup 5 0 0 "adam" zero_rng zero_rng resume_files = Ok st0 /\
    train 5 0 0 "adam" zero_rng zero_rng resume_files = Ok st /\
    net st = net st0 /\ net_inference st = net_inference st0 /\
    losses st = [] /\
    kinds (trace st) = [KSave (ckpt_path ckptdir (5 + 0)) (Some (5 + 0)%Z);
                        KSave ckptdir None] /\
    read_file (fs st) (ckpt_path ckptdir (5 + 0))
    = Some (FCheckpoint {| ck_epoch := 5 + 0;
                           model_state_dict := state_dict (net st0);
                           optimizer_state_dict := optimizer st0;
                           scheduler_state_dict := scheduler st0 |}) /\
    read_file (fs st) ckptdir = Some (FStateDict (state_dict (net st0))).
Proof.
  destruct (train_setup 5 0 0 "adam" zero_rng zero_rng resume_files)
    as [st0|e] eqn:Hsetup.
  - exists st0.
    destruct (X14_no_epochs_still_saves R 5%Z 0%Z 0 "adam" zero_rng zero_rng
                resume_files st0 (Z.le_refl 0) Hsetup) as [st H].
    exists st. split; [reflexivity | exact H].
  - vm_compute in Hsetup. discriminate.
Defined.

Lemma X15_witness :
  exists st st0' : state,
    train 0 6 0 "adam" zero_rng zero_rng [] = Ok st /\
    train_setup (0 + 6) 4 0 "sgd" zero_rng zero_rng (fs st) = Ok st0' /\
    state_dict (net st0') = state_dict (net st) /\
    fs st0' = fs st.
Proof.
  destruct (train 0 6 0 "adam" zero_rng zero_rng []) as [st|e] eqn:Hrun.
  - exists st.
    assert (Hshape : same_shapes (fc fresh_net) (state_dict (net st)) = true).
    { pose proof Hrun as Hc. vm_compute in Hc. injection Hc as Hc.
      rewrite <- Hc. vm_compute. reflexivity. }
    destruct (X15_resume_from_last_checkpoint R 0%Z 6%Z 0 "adam"
                zero_rng zero_rng [] st 4%Z 0 "sgd" zero_rng zero_rng fresh_net
                Hrun ltac:(discriminate) fresh_net_init Hshape
                (or_intror eq_refl)) as [st0' H].
    exists st0'. split; [reflexivity | exact H].
  - vm_compute in Hrun. discriminate.
Defined.

Lemma X16_witness :
  let out : list (event (env := real_env [] [])) :=
    [ENoGrad true;
     EPrint (MText true "Eval phase, with batch size of 1000000");
     EPrint (MEvalLoss (Fin (mean_of_one (probe_loss real_clog 1))));
     EEvalCrossEntropy (one_layer 0);
     EEvalNDCG (one_layer 0) 1000000 [10%nat; 30%nat];
     ENoGrad false] in
  kinds out = [KNoGrad true; KEvalCrossEntropy; KEvalNDCG; KNoGrad false] /\
  saved out = [] /\
  filter is_optimizer_step (kinds out) = [] /\
  filter is_scheduler_step (kinds out) = [].
Proof.
  exact (X16_eval_model_effects R (env := real_env [] [])
           (one_layer 1) (one_layer 0) (bce_loss real_clog)
           [probe_pair (T:=R)] tt
           (set_training false (one_layer 1)) (one_layer 0) _
           (probe_eval R real_clog)).
Defined.

Lemma X17_witness :
  eval_model two_layer_net two_layer_zero (bce_loss real_clog)
             [batch_empty_left] tt
  = Ok (set_training false two_layer_net, two_layer_zero,
        [ENoGrad true;
         EPrint (MText true "Eval phase, with batch size of 1000000");
         EPrint (MEvalLoss NaN);
         EEvalCrossEntropy two_layer_zero;
         EEvalNDCG two_layer_zero 1000000 [10%nat; 30%nat];
         ENoGrad false]).
Proof.
  apply (X17_eval_model_without_batches R (env := quiet_env)
           two_layer_net two_layer_zero
           (bce_loss real_clog) [batch_empty_left] tt).
  constructor; [reflexivity | constructor].
Defined.

Lemma X18_witness :
  exists st' : state,
    checkpoint_and_eval (env := quiet_env) "base" 0 5 [] tt small_state = Ok st' /\
    state_dict (net st') = state_dict (net small_state) /\
    optimizer st' = optimizer small_state /\
    scheduler st' = scheduler small_state /\
    losses st' = losses small_state /\
    state_dict (net_inference st') = state_dict (net small_state) /\
    training (net st') = false /\
    training (net_inference st') = training (net_inference small_state) /\
    fs st' = (ckpt_path "base" 5,
              FCheckpoint {| ck_epoch := 5;
                             model_state_dict := state_dict (net small_state);
                             optimizer_state_dict := optimizer small_state;
                             scheduler_state_dict := scheduler small_state |})
             :: fs small_state.
Proof.
  destruct (checkpoint_and_eval (env := quiet_env) "base" 0 5 [] tt small_state)
    as [st'|e] eqn:Hrun.
  - exists st'. split; [reflexivity|].
    apply (X18_checkpoint_step_frame R (env := quiet_env) "base" 0%Z 5%Z
             [] tt small_state st' Hrun).
    reflexivity.
  - vm_compute in Hrun. discriminate.
Defined.

Lemma X19_witness :
  ckpt_path "ckptdir/ranknet" 5 <> ckpt_path "ckptdir/ranknet" (-5) /\
  ckpt_path "ckptdir/ranknet" 5 <> "ckptdir/ranknet"%string /\
  ckpt_path "ckptdir/ranknet" (-5) <> "ckptdir/ranknet"%string.
Proof.
  apply (X19_checkpoint_paths_distinct "ckptdir/ranknet" 5 (-5)). discriminate.
Defined.

Lemma X20_witness :
  exists y y' : list R,
    binary_label (T:=R) [3; 1; 2]%Z [1; 2; 2]%Z = Ok y /\
    binary_label (T:=R) [1; 2; 2]%Z [3; 1; 2]%Z = Ok y' /\
    forall k a b,
      nth_error [3; 1; 2]%Z k = Some a -> nth_error [1; 2; 2]%Z k = Some b ->
      exists u v,
        nth_error y k = Some u /\ nth_error y' k = Some v /\
        (a = b -> u = 0 /\ v = 0) /\
        (a <> b -> u + v = 1).
Proof.
  apply (X20_labels_of_ties [3; 1; 2]%Z [1; 2; 2]%Z). reflexivity.
Defined.

Lemma X21_witness :
  let v := @Build_epoch_vars R RealScalar quiet_env small_state [] 0 in
  let b := @Build_Batch R (Some [[1; 2]]) (Some [1%Z])
                          (Some [[0; 1]]) (Some [0%Z]) in
  exists (y_pred : tensor R) (y : list R),
    forward (net (ev_state v)) [[1; 2]] [[0; 1]] = Ok y_pred /\
    length y_pred = length [[1; 2]] /\
    binary_label [1%Z] [0%Z] = Ok y /\
    (forall e, BCELoss y_pred y = Err e -> train_batch 0 v b = Err e) /\
    (forall loss,
        BCELoss y_pred y = Ok loss ->
        exists v',
          train_batch 0 v b = Ok v' /\
          minibatch v' = (minibatch v + 1)%nat /\
          lossed_minibatch v' = lossed_minibatch v ++ [loss] /\
          fc (net (ev_state v'))
          = snd (backward_step (optimizer (ev_state v)) (net (ev_state v))
                               [[1; 2]] [[0; 1]] y) /\
          fc_layers (net (ev_state v')) = fc_layers (net (ev_state v)) /\
          training (net (ev_state v')) = training (net (ev_state v))).
Proof.
  apply (X21_well_formed_batch_is_processed R 2 0%Z
           (@Build_epoch_vars R RealScalar quiet_env small_state [] 0)
           (@Build_Batch R (Some [[1; 2]]) (Some [1%Z])
                           (Some [[0; 1]]) (Some [0%Z]))
           [[1; 2]] [[0; 1]] [1%Z] [0%Z]).
  - exact two_layer_net_width.
  - reflexivity.
  - reflexivity.
  - reflexivity.
  - reflexivity.
  - discriminate.
  - reflexivity.
  - repeat constructor.
  - repeat constructor.
  - reflexivity.
Defined.

Lemma X22_witness :
  let bs := map (@as_batch R) [batch_empty_left; (None, None, None, None)] in
  exists (st' : state) (added : list event),
    run_epoch (env := quiet_env) 3 bs small_state = Ok st' /\
    trace st' = trace small_state ++ added /\
    minibatch_lines added
    = map (pair 3%Z) (hundreds 1 (length (processed bs))) /\
    ((length (processed bs) < 100)%nat -> minibatch_lines added = []).
Proof.
  intros bs.
  destruct (run_epoch (env := quiet_env) 3 bs small_state) as [st'|e] eqn:Hrun.
  - destruct (X22_minibatch_lines R (env := quiet_env) 3%Z bs
                small_state st' Hrun) as [added H].
    exists st', added. split; [reflexivity | exact H].
  - vm_compute in Hrun. discriminate.
Defined.

Lemma X23_witness :
  let out : list (event (env := real_env [] [])) :=
    [ENoGrad true;
     EPrint (MText true "Eval phase, with batch size of 1000000");
     EPrint (MEvalLoss (Fin (mean_of_one (probe_loss real_clog 1))));
     EEvalCrossEntropy (one_layer 0);
     EEvalNDCG (one_layer 0) 1000000 [10%nat; 30%nat];
     ENoGrad false] in
  let bs := map (@as_batch R)
                (generate_query_pair_batch (Environment := real_env [] [])
                   tt [probe_pair (T:=R)] 1000000%Z) in
  eval_lines out = hundreds 1 (length (processed bs)) /\
  ((length (processed bs) < 100)%nat ->
   exists loss,
     out = [ENoGrad true;
            EPrint (MText true "Eval phase, with batch size of 1000000");
            EPrint (MEvalLoss loss);
            EEvalCrossEntropy (one_layer 0);
            EEvalNDCG (one_layer 0) 1000000 [10%nat; 30%nat];
            ENoGrad false]).
Proof.
  exact (X23_eval_minibatch_lines R (env := real_env [] [])
           (one_layer 1) (one_layer 0) (bce_loss real_clog)
           [probe_pair (T:=R)] tt
           (set_training false (one_layer 1)) (one_layer 0) _
           (probe_eval R real_clog)).
Defined.

End ExtraInstances.
